(** * Hydration of cluster manifests: a model of [cli/hydrate.py]

    The development embeds the functions of [cli/hydrate.py] as Rocq
    functions and proves the properties its specification states about them.

    Modelling conventions.
    - A Python [str] is a [string]; every character stands for the code point
      of the same number (0..255).
    - A Python [dict] is an association list in insertion order whose keys are
      pairwise distinct ([dict_set] keeps the position of a key that is
      already there, as CPython does); a Python [set] of strings is a
      [gset string].
    - A [pathlib.Path] is the list of its components below the root; a group
      name is one component.
    - Code that logs, touches the file system or raises runs in the monad [M]:
      a state transformer over [State] whose result is a value or a raised
      exception. The log holds every record handed to the logger, whatever
      the level of the logger.
    - The collaborators that are not part of this program (the source trees,
      the Jinja expression language, the executable search path, the build
      tool, failures of [shutil.copy2]) are the fields of a [World]. The
      source trees lie outside the temporary directory and are not written
      during the run; the build tool writes outside the temporary directory
      and terminates. *)

From Stdlib Require Import ZArith Ascii String.
From stdpp Require Import base option list strings pretty gmap.

#[local] Set Warnings "-clear-no-such-hyp".

Local Open Scope string_scope.
Local Open Scope list_scope.
Local Open Scope Z_scope.

(** ** Python strings *)

(** [str.isspace] on one character (code points below 256). *)
Definition py_isspace (c : ascii) : bool :=
  let n := nat_of_ascii c in
  ((9 <=? n) && (n <=? 13) || (28 <=? n) && (n <=? 32) || (n =? 133) || (n =? 160))%nat.

Fixpoint lstrip_by (p : ascii → bool) (s : string) : string :=
  match s with
  | String c s' => if p c then lstrip_by p s' else s
  | EmptyString => EmptyString
  end.

Fixpoint rstrip_by (p : ascii → bool) (s : string) : string :=
  match s with
  | String c s' =>
      match rstrip_by p s' with
      | EmptyString => if p c then EmptyString else String c EmptyString
      | r => String c r
      end
  | EmptyString => EmptyString
  end.

(** [s.strip()] *)
Definition strip (s : string) : string := rstrip_by py_isspace (lstrip_by py_isspace s).

(** [s.strip('\n')] *)
Definition strip_newlines (s : string) : string :=
  let nl c := bool_decide (c = ascii_of_nat 10) in
  rstrip_by nl (lstrip_by nl s).

Definition lower_char (c : ascii) : ascii :=
  let n := nat_of_ascii c in
  if ((65 <=? n) && (n <=? 90) || (192 <=? n) && (n <=? 222) && negb (n =? 215))%nat
  then ascii_of_nat (n + 32) else c.

(** [s.lower()] *)
Fixpoint lower (s : string) : string :=
  match s with
  | String c s' => String (lower_char c) (lower s')
  | EmptyString => EmptyString
  end.

(** [s.split(sep)] for a one-character separator. *)
Fixpoint split (sep : ascii) (s : string) : list string :=
  match s with
  | EmptyString => [EmptyString]
  | String c s' =>
      if bool_decide (c = sep) then EmptyString :: split sep s'
      else match split sep s' with
           | h :: t => String c h :: t
           | [] => [String c EmptyString]
           end
  end.

(** [sep.join(l)] *)
Fixpoint join (sep : string) (l : list string) : string :=
  match l with
  | [] => ""
  | [x] => x
  | x :: l' => x +:+ sep +:+ join sep l'
  end.

(** ** Python dictionaries *)

Abbreviation pydict K V := (list (K * V)).

Section pydict.
Context {K V : Type} `{EqDecision K}.

(** [d[k]], [None] standing for [KeyError]. *)
Fixpoint dict_get (k : K) (d : pydict K V) : option V :=
  match d with
  | [] => None
  | (k', v) :: d' => if decide (k = k') then Some v else dict_get k d'
  end.

(** [d[k] = v] *)
Fixpoint dict_set (k : K) (v : V) (d : pydict K V) : pydict K V :=
  match d with
  | [] => [(k, v)]
  | (k', v') :: d' => if decide (k = k') then (k, v) :: d' else (k', v') :: dict_set k v d'
  end.

(** [{key(x): val(x) for x in items}] *)
Definition dict_of_items (items : list (K * V)) : pydict K V :=
  foldl (λ d kv, dict_set kv.1 kv.2 d) [] items.

End pydict.

(** ** Exceptions, log records and the state monad *)

Inductive exn :=
  | RuntimeError
  | RuntimeWarning
  | AttributeError
  | KeyError
  | ValueError
  | OSError
  | OtherError.

Inductive result (A : Type) :=
  | Ok (a : A)
  | Raise (e : exn).
Arguments Ok {A} a.
Arguments Raise {A} e.

Inductive Level := DEBUG | INFO | WARNING | ERROR.

Record LogRecord := mkLog { levelname : Level; message : string }.

Abbreviation path := (list string).

(** What the run can change: the files and directories below the temporary
    directory, whether the finalizer of [tempfile.TemporaryDirectory] is still
    attached, the list object held by [args.kustomize] (it is mutated in
    place by [run_kustomize]), and the records handed to the logger. *)
Record State := mkState {
  files : gmap path string;
  dirs : gset path;
  finalizer : bool;
  kustomize : list string;
  log : list LogRecord
}.

Definition M (A : Type) : Type := State → State * result A.

Definition ret {A} (a : A) : M A := λ st, (st, Ok a).
Definition raise {A} (e : exn) : M A := λ st, (st, Raise e).
Definition bind {A B} (m : M A) (f : A → M B) : M B :=
  λ st, match m st with
        | (st', Ok a) => f a st'
        | (st', Raise e) => (st', Raise e)
        end.
Definition modify (f : State → State) : M unit := λ st, (f st, Ok tt).
Definition gets {A} (f : State → A) : M A := λ st, (st, Ok (f st)).

Notation "'let*' x ':=' m 'in' k" := (bind m (λ x, k))
  (at level 10, x name, m at level 100, k at level 200).
Notation "m >> k" := (bind m (λ _, k))
  (at level 100, k at level 200, right associativity).

Definition logger (l : Level) (msg : string) : M unit :=
  modify (λ st, mkState (files st) (dirs st) (finalizer st) (kustomize st)
                        (log st ++ [mkLog l msg])).

(** [for x in l: body x], stopping at the first exception. *)
Fixpoint for_each {A} (l : list A) (body : A → M unit) : M unit :=
  match l with
  | [] => ret tt
  | x :: l' => body x >> for_each l' body
  end.

(** ** The source-of-truth table *)

(** A cell of a row produced by [csv.DictReader]: a string, [None] (the
    [restval] of a short row) or a list (the [restkey] entry of a long row). *)
Inductive pyval :=
  | PStr (s : string)
  | PNone
  | PList (l : list string).

Abbreviation csvrow := (pydict (option string) pyval).

(** [DictReader.__next__] builds one row from the field names and a record of
    the underlying reader. *)
Definition dictreader_row (fieldnames record : list string) : csvrow :=
  let d := dict_of_items ((λ kv, (Some kv.1, PStr kv.2)) <$> zip fieldnames record) in
  let lf := length fieldnames in
  let lr := length record in
  if (lf <? lr)%nat then dict_set None (PList (drop lf record)) d
  else if (lr <? lf)%nat then foldl (λ d k, dict_set (Some k) PNone d) d (drop lr fieldnames)
  else d.

(** [csv.DictReader(f, dialect='excel')] over the records of the underlying
    [csv.reader] (a blank line is the record [[]]): the first record gives the
    field names, and [__next__] passes over every record equal to [[]]. *)
Definition DictReader (records : list (list string)) : list csvrow :=
  match records with
  | [] => []
  | fieldnames :: rest =>
      dictreader_row fieldnames <$> filter (λ r, r ≠ []) rest
  end.

(** [bool(row)] *)
Definition truthy {A} (l : list A) : bool :=
  match l with [] => false | _ => true end.

(** [{k.strip(): v.strip() for k, v in row.items() if row}]: [strip] is a
    method of [str] only. *)
Fixpoint strip_items (items : csvrow) (acc : pydict string string)
  : result (pydict string string) :=
  match items with
  | [] => Ok acc
  | (Some k, PStr v) :: items' => strip_items items' (dict_set (strip k) (strip v) acc)
  | _ :: _ => Raise AttributeError
  end.

Definition strip_row (row : csvrow) : result (pydict string string) :=
  strip_items (filter (λ _, truthy row = true) row) [].

Abbreviation ConfigDict := (pydict string (pydict string string)).

(** The loop of [process_sot_file] over the rows of the reader. *)
Fixpoint parse_rows (rows : list csvrow) (data : ConfigDict) : M ConfigDict :=
  match rows with
  | [] => ret data
  | row :: rows' =>
      match strip_row row with
      | Raise e => raise e
      | Ok row' =>
          match dict_get "cluster_name" row' with
          | Some name => parse_rows rows' (dict_set name row' data)
          | None =>
              logger ERROR "Source of truth file missing 'cluster_name' column" >>
              logger DEBUG "Got CSV: <row>" >>
              raise RuntimeError
          end
      end
  end.

Definition process_sot_file (records : list (list string)) : M ConfigDict :=
  logger DEBUG "Processing source of truth file: <name>" >>
  parse_rows (DictReader records) [].

(** ** Validation of one record *)

(** [check_config]; the argument is [None] when [config_data.get] found
    nothing. *)
Definition check_config (cluster_config : option (pydict string string)) : M unit :=
  match cluster_config with
  | None | Some [] =>
      logger ERROR "No config found for provided cluster name" >>
      raise RuntimeError
  | Some cfg =>
      logger DEBUG "Found config for cluster; config: <pformat>" >>
      match dict_get "cluster_group" cfg with
      | None =>
          logger ERROR "Could not find column 'cluster_group' in source" >>
          raise RuntimeError
      | Some group =>
          if decide (strip group = "") then
            logger ERROR "cluster_group is required and should not be empty" >>
            raise RuntimeError
          else
            match dict_get "cluster_tags" cfg with
            | None => logger ERROR "Could not find column 'tags' in source"
            | Some _ => ret tt
            end
      end
  end.

(** ** Paths *)

(** [p.parent]; the parent of the root is the root. *)
Definition parent (p : path) : path := removelast p.

(** [p.name] *)
Definition name (p : path) : string := List.last p "".

(** [p.joinpath(n)] for a single component [n]. *)
Definition joinpath (p : path) (n : string) : path := p ++ [n].

(** [p.relative_to(other)], [None] standing for [ValueError]. *)
Fixpoint relative_to (p other : path) : option path :=
  match other, p with
  | [] , _ => Some p
  | o :: other', x :: p' => if decide (x = o) then relative_to p' other' else None
  | _ :: _, [] => None
  end.

(** [str(p)] *)
Definition str_path (p : path) : string := "/" +:+ join "/" p.

(** [s.rfind(c)], [None] standing for [-1]. *)
Fixpoint rfind (c : ascii) (s : string) : option nat :=
  match s with
  | EmptyString => None
  | String a s' =>
      match rfind c s' with
      | Some i => Some (S i)
      | None => if decide (a = c) then Some 0%nat else None
      end
  end.

(** [PurePath.suffix] and [PurePath.stem] of Python 3.12, on the name. *)
Definition suffix (n : string) : string :=
  match rfind "." n with
  | Some i =>
      if ((0 <? i) && (i <? String.length n - 1))%nat
      then substring i (String.length n - i) n else ""
  | None => ""
  end.

Definition stem (n : string) : string :=
  match rfind "." n with
  | Some i =>
      if ((0 <? i) && (i <? String.length n - 1))%nat
      then substring 0 i n else n
  | None => n
  end.

Definition is_jinja_template (dest_file : path) : bool :=
  bool_decide (suffix (name dest_file) = ".j2").

(** All the prefixes of a path, the path itself included. *)
Fixpoint prefixes (p : path) : list path :=
  match p with
  | [] => [[]]
  | x :: p' => [] :: (cons x <$> prefixes p')
  end.

(** ** The collaborators *)

#[local] Set Warnings "-register-all".

(** A source tree, read but never written by the run. The entries of a
    directory are in the order in which [os.scandir] lists them. *)
Inductive tree :=
  | File (content : string)
  | Dir (entries : list (string * tree)).

(** What a compiled template yields for a context: template data and values
    marked safe, or the plain string value of an expression. *)
Inductive chunk :=
  | Markup (s : string)
  | Value (s : string).

Inductive eval_result :=
  | Rendered (cs : list chunk)
  | TemplateError
  | PythonError.

(** A child process: what it writes to its output before closing it, how
    many times [poll()] answers [None] after that, and its return code. *)
Record Process := mkProcess {
  stdout : string;
  polls : nat;
  returncode : Z
}.

Record World := mkWorld {
  (** the directory trees of the sources, by absolute path *)
  source : path → option tree;
  (** [shutil.copy2] from the first path to the second fails ([OSError]) *)
  copy2_fails : path → path → bool;
  (** Jinja can compile this template source; the environment reads the
      file again each time a template is asked for *)
  jinja_compiles : string → bool;
  (** the pieces a compiled template yields for a context *)
  jinja_eval : string → pydict string string → eval_result;
  (** [shutil.which] *)
  which : string → option string;
  (** [subprocess.Popen] of a command line in a working directory that
      exists; [None] when the process cannot be started ([OSError]) *)
  popen : list string → path → option Process
}.

(** ** Templates *)

Record Environment := mkEnvironment {
  searchpath : path;
  autoescape : bool
}.

Definition setup_jinja (template_path : path) : M Environment :=
  logger DEBUG ("Setting up Jinja with template loader path: " +:+ str_path template_path) >>
  ret {| searchpath := template_path; autoescape := true |}.

Definition dquote : ascii := ascii_of_nat 34.

(** [markupsafe.escape] *)
Definition escape_char (c : ascii) : string :=
  if decide (c = "&"%char) then "&amp;"
  else if decide (c = ">"%char) then "&gt;"
  else if decide (c = "<"%char) then "&lt;"
  else if decide (c = "'"%char) then "&#39;"
  else if decide (c = dquote) then "&#34;"
  else String c EmptyString.

Fixpoint escape (s : string) : string :=
  match s with
  | EmptyString => EmptyString
  | String c s' => escape_char c +:+ escape s'
  end.

(** Output of one piece: a plain value goes through [escape] when the
    environment auto-escapes. *)
Definition finalize (env : Environment) (c : chunk) : string :=
  match c with
  | Markup s => s
  | Value s => if autoescape env then escape s else s
  end.

Definition concat_chunks (env : Environment) (cs : list chunk) : string :=
  foldr (λ c acc, finalize env c +:+ acc) "" cs.

Inductive render_result :=
  | Text (s : string)
  | RenderTemplateError
  | RenderPythonError.

(** [template.render] applied to the cluster configuration. *)
Definition render (w : World) (env : Environment) (src : string)
    (cluster_config : pydict string string) : render_result :=
  match jinja_eval w src cluster_config with
  | Rendered cs => Text (concat_chunks env cs)
  | TemplateError => RenderTemplateError
  | PythonError => RenderPythonError
  end.

(** ** The file system below the temporary directory *)

Definition set_files (f : gmap path string → gmap path string) : M unit :=
  modify (λ st, mkState (f (files st)) (dirs st) (finalizer st) (kustomize st) (log st)).

Definition set_dirs (f : gset path → gset path) : M unit :=
  modify (λ st, mkState (files st) (f (dirs st)) (finalizer st) (kustomize st) (log st)).

(** [p.exists()] *)
Definition exists_ (p : path) (st : State) : bool :=
  bool_decide (p ∈ dirs st) || bool_decide (is_Some (files st !! p)).

(** [p.mkdir(parents=True, exist_ok=True)] *)
Definition mkdir_parents (p : path) : M unit :=
  set_dirs (λ ds, ds ∪ list_to_set (prefixes p)).

(** [shutil.rmtree(p, ignore_errors=True)] *)
Definition rmtree (p : path) : M unit :=
  set_files (filter (λ kv, ¬ p `prefix_of` kv.1)) >>
  set_dirs (filter (λ d, ¬ p `prefix_of` d)).

(** [template_file] *)
Definition template_file (w : World) (template_file : path)
    (cluster_config : pydict string string) (jinja_env : Environment)
    (delete_template : bool) : M unit :=
  let loader_path := searchpath jinja_env in
  match relative_to template_file loader_path with
  | None => raise ValueError
  | Some template_relative_path =>
      logger DEBUG ("Template relative path: " +:+ join "/" template_relative_path) >>
      let* found := gets (λ st, files st !! (loader_path ++ template_relative_path)) in
      match found with
      | None =>
          logger ERROR ("Error getting template " +:+ str_path template_file) >>
          raise RuntimeWarning
      | Some src =>
          if negb (jinja_compiles w src) then
            logger ERROR ("Error getting template " +:+ str_path template_file) >>
            raise RuntimeWarning
          else
            let file_path := joinpath (parent template_file) (stem (name template_file)) in
            logger INFO ("Rendering template '" +:+ name template_file +:+ "' to "
                         +:+ str_path file_path) >>
            set_files (<[file_path := ""]>) >>
            match render w jinja_env src cluster_config with
            | RenderTemplateError =>
                logger ERROR ("Error rendering template " +:+ str_path template_file) >>
                raise RuntimeWarning
            | RenderPythonError => raise OtherError
            | Text s =>
                set_files (<[file_path := s]>) >>
                logger DEBUG ("Wrote <n> bytes to " +:+ str_path file_path) >>
                if delete_template then
                  logger INFO ("Deleting template '" +:+ name template_file +:+ "'") >>
                  set_files (delete template_file)
                else ret tt
            end
      end
  end.

(** ** Merging the source trees *)

(** [root.walk()]: top down, each directory with the names of its
    sub-directories and its files. A file is listed with its content, which
    [shutil.copy2] reads when it copies. *)
Definition dirnames (entries : list (string * tree)) : list string :=
  omap (λ e, match e.2 with Dir _ => Some e.1 | File _ => None end) entries.

Definition filenames (entries : list (string * tree)) : list (string * string) :=
  omap (λ e, match e.2 with File c => Some (e.1, c) | Dir _ => None end) entries.

Fixpoint walk (root : path) (t : tree)
  : list (path * list string * list (string * string)) :=
  match t with
  | File _ => []
  | Dir entries =>
      (root, dirnames entries, filenames entries)
        :: flat_map (λ e, walk (joinpath root e.1) e.2) entries
  end.

(** [p.walk()] on the sources: nothing is listed for a path that is missing
    (errors of [scandir] are ignored). *)
Definition walk_path (w : World) (p : path) :=
  match source w p with
  | Some t => walk p t
  | None => []
  end.

(** Body of the inner loop of [copy_and_template]. *)
Definition copy_file (w : World) (root next_dir : path)
    (cluster_config : pydict string string) (jinja_env : Environment)
    (template : bool) (file : string * string) : M unit :=
  let src_file := joinpath root file.1 in
  let dest_file := joinpath next_dir (name src_file) in
  logger DEBUG ("Copying " +:+ str_path src_file +:+ " to " +:+ str_path dest_file) >>
  (if copy2_fails w src_file dest_file then raise OSError
   else set_files (<[dest_file := file.2]>)) >>
  if template && is_jinja_template dest_file
  then template_file w dest_file cluster_config jinja_env true
  else ret tt.

(** Destination directory of a walked directory. *)
Definition next_dir_of (base_dir overlay_dir dest_dir root : path) : option path :=
  match relative_to root (parent base_dir) with
  | Some r => Some (dest_dir ++ r)
  | None =>
      match relative_to root (parent overlay_dir) with
      | Some r => Some (dest_dir ++ r)
      | None => None
      end
  end.

(** Body of the outer loop of [copy_and_template]. *)
Definition copy_dir (w : World) (base_dir overlay_dir dest_dir : path)
    (cluster_config : pydict string string) (jinja_env : Environment)
    (template : bool) (entry : path * list string * list (string * string)) : M unit :=
  let '(root, _, files) := entry in
  match next_dir_of base_dir overlay_dir dest_dir root with
  | None => raise ValueError
  | Some next_dir =>
      let* there := gets (exists_ next_dir) in
      (if there then ret tt
       else logger DEBUG ("Creating directory: " +:+ str_path next_dir) >>
            mkdir_parents next_dir) >>
      for_each files (copy_file w root next_dir cluster_config jinja_env template)
  end.

Definition copy_and_template (w : World) (base_dir overlay_dir dest_dir : path)
    (cluster_config : pydict string string) (jinja_env : Environment)
    (template : bool) : M unit :=
  let generate :=
    (* the two debug lines of [generate] are logged when the generator
       reaches them *)
    [inl ("Traversing source base path: " +:+ str_path base_dir)]
      ++ (inr <$> walk_path w base_dir)
      ++ [inl ("Traversing source overlay path: " +:+ str_path overlay_dir)]
      ++ (inr <$> walk_path w overlay_dir) in
  for_each generate (λ x,
    match x with
    | inl msg => logger DEBUG msg
    | inr entry =>
        copy_dir w base_dir overlay_dir dest_dir cluster_config jinja_env template entry
    end) >>
  logger DEBUG "Done copying templates".

(** ** The build tool *)

Definition set_kustomize (l : list string) : M unit :=
  modify (λ st, mkState (files st) (dirs st) (finalizer st) l (log st)).

(** The [while True] loop of [run_kustomize]: [read()] returns the whole
    output the first time and the empty string afterwards. *)
Fixpoint wait_process (orig_command full_path_to_cmd out : string)
    (polls : nat) (rc : Z) : M unit :=
  (if decide (strip_newlines out = "") then ret tt
   else logger INFO (orig_command +:+ ": " +:+ strip_newlines out)) >>
  match polls with
  | S n => wait_process orig_command full_path_to_cmd "" n rc
  | O =>
      if decide (rc = 0) then
        logger INFO (full_path_to_cmd +:+ " completed successfully with exitcode "
                     +:+ pretty rc)
      else if decide (rc > 0) then
        logger ERROR (full_path_to_cmd +:+ " exited with " +:+ pretty rc)
      else ret tt
  end.

(** The command line: the override when there is one, the default
    otherwise. *)
Definition command_line (command_override : list string) (output_dir : path)
    (filename : string) : list string :=
  if truthy command_override then command_override
  else ["kustomize"; "build"; "."; "-o"; str_path (joinpath output_dir filename)].

(** [run_kustomize]; [command_override] is the list object [args.kustomize]
    held in the state. *)
Definition run_kustomize (w : World) (output_dir overlay_dir : path)
    (cluster_config : pydict string string) : M unit :=
  match dict_get "cluster_name" cluster_config with
  | None => raise KeyError
  | Some cluster_name =>
      let filename := cluster_name +:+ ".yaml" in
      let* command_override := gets kustomize in
      let shared := truthy command_override in
      let command := command_line command_override output_dir filename in
      let orig_command := List.hd "" command in
      match which w orig_command with
      | None =>
          logger ERROR ("Could not find " +:+ orig_command +:+ " in the path") >>
          raise RuntimeError
      | Some full_path_to_cmd =>
          let command := full_path_to_cmd :: List.tl command in
          (if shared then set_kustomize command else ret tt) >>
          logger DEBUG ("Running '" +:+ join " " command +:+ "'") >>
          logger INFO ("Running " +:+ full_path_to_cmd) >>
          let* cwd_there := gets (λ st, bool_decide (overlay_dir ∈ dirs st)) in
          if negb cwd_there then raise OSError
          else
            match popen w command overlay_dir with
            | None => raise OSError
            | Some p =>
                wait_process orig_command full_path_to_cmd (stdout p) (polls p)
                             (returncode p)
            end
      end
  end.

(** ** One cluster *)

Inductive OutputSubdir := SubdirGroup | SubdirCluster | SubdirNone.

(** A [TempDir]: its path, and whether it wraps a
    [tempfile.TemporaryDirectory] (no path was given). *)
Record TempDir := mkTempDir {
  temp_path : path;
  system_temp : bool
}.

Record Args := mkArgs {
  base : path;
  overlay : path;
  temp : TempDir;
  hydrated : path;
  output_subdir : OutputSubdir;
  cluster_name : option string;
  cluster_tag : option (gset string);
  cluster_group : option string
}.

(** The directory the build tool runs in. *)
Definition hydration_src (args : Args) (group : string) : path :=
  joinpath (joinpath (temp_path (temp args)) (name (overlay args))) group.

(** The directory the manifest of a cluster is written to. *)
Definition hydrated_dest (args : Args) (output_subdir : OutputSubdir)
    (cluster_name group : string) : path :=
  match output_subdir with
  | SubdirCluster => joinpath (hydrated args) cluster_name
  | SubdirGroup => joinpath (hydrated args) group
  | SubdirNone => hydrated args
  end.

(** [process_cluster]; the output directory lies outside the temporary
    directory, so creating it leaves the state as it is. *)
Definition process_cluster (w : World) (args : Args) (config : pydict string string)
    (jinja_env : Environment) (output_subdir : OutputSubdir) : M unit :=
  match dict_get "cluster_group" config with
  | None => raise KeyError
  | Some group =>
      let clus_overlay_dir := joinpath (overlay args) group in
      match source w clus_overlay_dir with
      | None =>
          logger WARNING ("Cluster '" +:+ default "" (dict_get "cluster_name" config)
                          +:+ "': missing overlay for group '" +:+ group
                          +:+ "'; nothing to hydrate") >>
          raise RuntimeWarning
      | Some _ =>
          copy_and_template w (base args) clus_overlay_dir (temp_path (temp args))
                            config jinja_env true >>
          match dict_get "cluster_name" config with
          | None => raise KeyError
          | Some cluster_name =>
              run_kustomize w (hydrated_dest args output_subdir cluster_name group)
                            (hydration_src args group) config
          end
      end
  end.

(** ** The temporary directory *)

Definition set_finalizer (b : bool) : M unit :=
  modify (λ st, mkState (files st) (dirs st) b (kustomize st) (log st)).

(** [TempDir.__call__] *)
Definition tempdir_call (t : TempDir) : M unit := mkdir_parents (temp_path t).

(** [TempDir.cleanup]; [TemporaryDirectory.cleanup] detaches its finalizer
    and removes the tree when the finalizer was attached or the path exists. *)
Definition tempdir_cleanup (t : TempDir) : M unit :=
  if system_temp t then
    let* attached := gets finalizer in
    set_finalizer false >>
    let* there := gets (exists_ (temp_path t)) in
    if attached || there then rmtree (temp_path t) else ret tt
  else rmtree (temp_path t).

(** ** Selection *)

(** The tag and group filters of the loop of [main]: [false] stands for
    [continue]. *)
Definition select (args : Args) (c : string) (cfg : pydict string string) : M bool :=
  let* tag_ok :=
    match cluster_tag args with
    | None => ret true
    | Some tags =>
        if decide (tags = ∅) then ret true
        else
          match dict_get "cluster_tags" cfg with
          | None =>
              logger WARNING ("Cluster '" +:+ c +:+ "': specified tags as args but has "
                              +:+ "none in config file") >>
              ret false
          | Some field =>
              let config_tags : gset string := list_to_set (strip <$> split "," field) in
              if decide (config_tags ∩ tags = ∅) then
                logger DEBUG ("Cluster '" +:+ c +:+ "': no matching tags, not hydrating...") >>
                ret false
              else ret true
          end
    end in
  if negb tag_ok then ret false
  else
    match cluster_group args with
    | None => ret true
    | Some g =>
        if decide (g = "") then ret true
        else
          match dict_get "cluster_group" cfg with
          | None => raise KeyError
          | Some cg =>
              if decide (lower (strip g) = lower (strip cg)) then ret true
              else
                logger DEBUG ("Cluster '" +:+ c +:+ "': not in group '" +:+ g
                              +:+ "'; not hydrating...") >>
                ret false
          end
    end.

(** ** The run *)

(** How [main] ends: by falling off its end, by [sys.exit], or by an
    exception nothing catches. *)
Inductive Termination :=
  | Returned
  | SysExit (code : Z)
  | Uncaught (e : exn).

Definition exit_status (t : Termination) : Z :=
  match t with
  | Returned => 0
  | SysExit code => code
  | Uncaught _ => 1
  end.

(** The [finally] clause of the loop. *)
Definition finally_clause (args : Args) : M Environment :=
  tempdir_cleanup (temp args) >>
  tempdir_call (temp args) >>
  logger DEBUG ("Using temp dir: " +:+ str_path (temp_path (temp args))) >>
  setup_jinja (temp_path (temp args)).

(** The [for c, cfg in config_data.items()] loop. *)
Fixpoint main_loop (w : World) (args : Args) (items : ConfigDict)
    (jinja_env : Environment) (st : State) : State * Termination :=
  match items with
  | [] => (st, Returned)
  | (c, cfg) :: rest =>
      match (logger INFO ("Processing cluster " +:+ c) >> check_config (Some cfg)) st with
      | (st, Raise RuntimeError) => main_loop w args rest jinja_env st
      | (st, Raise e) => (st, Uncaught e)
      | (st, Ok _) =>
          match select args c cfg st with
          | (st, Raise e) => (st, Uncaught e)
          | (st, Ok false) => main_loop w args rest jinja_env st
          | (st, Ok true) =>
              let '(st, r) := process_cluster w args cfg jinja_env (output_subdir args) st in
              let handler :=
                match r with
                | Raise RuntimeError =>
                    logger ERROR "Nothing left to do; exiting without processing all clusters"
                | _ => ret tt
                end in
              match (handler >> finally_clause args) st with
              | (st, Raise e) => (st, Uncaught e)
              | (st, Ok jinja_env') =>
                  match r with
                  | Ok _ | Raise RuntimeWarning => main_loop w args rest jinja_env' st
                  | Raise RuntimeError => (st, SysExit 1)
                  | Raise e => (st, Uncaught e)
                  end
              end
          end
      end
  end.

(** [bool(s)] for an optional string. *)
Definition truthy_str (s : option string) : bool :=
  match s with
  | Some (String _ _) => true
  | _ => false
  end.

(** [main], from the point where [parse_args] has returned; [records] are
    the records the [csv] reader finds in the source-of-truth file. *)
Definition main (w : World) (args : Args) (records : list (list string))
    (st : State) : State * Termination :=
  match (logger DEBUG "Received args: <pformat>" >> process_sot_file records) st with
  | (st, Raise RuntimeError) => (st, SysExit 1)
  | (st, Raise e) => (st, Uncaught e)
  | (st, Ok config_data) =>
      match (tempdir_call (temp args) >>
             logger DEBUG ("Using temp dir: " +:+ str_path (temp_path (temp args))) >>
             setup_jinja (temp_path (temp args))) st with
      | (st, Raise e) => (st, Uncaught e)
      | (st, Ok jinja_env) =>
          let '(st, t) :=
            if truthy_str (cluster_name args) then
              let cfg := dict_get (default "" (cluster_name args)) config_data in
              match (logger INFO ("Processing cluster " +:+ default "" (cluster_name args)) >>
                     check_config cfg >>
                     process_cluster w args (default [] cfg) jinja_env (output_subdir args)) st with
              | (st, Raise RuntimeError) | (st, Raise RuntimeWarning) => (st, SysExit 1)
              | (st, Raise e) => (st, Uncaught e)
              | (st, Ok _) => (st, Returned)
              end
            else main_loop w args config_data jinja_env st in
          match t with
          | Returned => ((tempdir_cleanup (temp args) st).1, Returned)
          | _ => (st, t)
          end
      end
  end.

(** The state in which [main] starts: a system temporary directory exists
    from the moment the arguments are declared and its finalizer is attached;
    a directory given with [-t] does not exist yet. *)
Definition initial_state (args : Args) (command_override : list string) : State :=
  {| files := ∅;
     dirs := if system_temp (temp args) then {[ temp_path (temp args) ]} else ∅;
     finalizer := system_temp (temp args);
     kustomize := command_override;
     log := [] |}.

(** What is left when the interpreter has exited: a finalizer that is still
    attached removes the system temporary directory. *)
Definition interpreter_exit (args : Args) (st : State) : State :=
  if finalizer st then ((set_finalizer false >> rmtree (temp_path (temp args))) st).1
  else st.

(** The script: [main()], then the closing log line when [main] returned. *)
Definition script (w : World) (args : Args) (command_override : list string)
    (records : list (list string)) : State * Termination :=
  let '(st, t) := main w args records (initial_state args command_override) in
  let st :=
    match t with
    | Returned => (logger INFO "Exiting normally..." st).1
    | _ => st
    end in
  (interpreter_exit args st, t).

(** ** Notions used to state the properties *)

(** A row all of whose keys and cells are strings, as the reader yields it
    for a record that has as many cells as there are field names. *)
Definition str_row (r : pydict string string) : csvrow :=
  (λ kv, (Some kv.1, PStr kv.2)) <$> r.

(** The record [process_sot_file] stores for such a row. *)
Definition stripped (r : pydict string string) : pydict string string :=
  dict_of_items ((λ kv, (strip kv.1, strip kv.2)) <$> r).

(** The identity of a row: its trimmed [cluster_name] cell. *)
Definition identity (r : pydict string string) : option string :=
  dict_get "cluster_name" (stripped r).

(** The tags of a record, as the loop of [main] parses them. *)
Definition config_tags_of (field : string) : gset string :=
  list_to_set (strip <$> split "," field).

(** The file or directory found in a tree at a relative path. *)
Fixpoint tree_lookup (t : tree) (rel : path) : option tree :=
  match rel with
  | [] => Some t
  | n :: rel' =>
      match t with
      | File _ => None
      | Dir entries =>
          match dict_get n entries with
          | Some t' => tree_lookup t' rel'
          | None => None
          end
      end
  end.

(** The names listed in one directory are pairwise distinct, in the whole
    tree. *)
Fixpoint wf_tree (t : tree) : bool :=
  match t with
  | File _ => true
  | Dir entries =>
      bool_decide (NoDup entries.*1) && forallb (λ e, wf_tree e.2) entries
  end.

(** A computation changes the content found at no path outside [P]. *)
Definition modifies_only {A} (m : M A) (P : path → Prop) : Prop :=
  ∀ st st' r, m st = (st', r) → ∀ d, ¬ P d → files st' !! d = files st !! d.

(** The directories listed by a walk. *)
Definition roots (entries : list (path * list string * list (string * string))) : list path :=
  (λ e, e.1.1) <$> entries.

(** A computation raises no exception outside [E]. *)
Definition raises_only {A} (m : M A) (E : exn → Prop) : Prop :=
  ∀ st st' e, m st = (st', Raise e) → E e.

(** What the merge can raise: the [ValueError] of [relative_to], the
    [OSError] of a failed copy, and what [template_file] raises. *)
Definition merge_exn (e : exn) : Prop :=
  e = ValueError ∨ e = OSError ∨ e = RuntimeWarning ∨ e = OtherError.

(** A computation leaves a component of the state as it is. *)
Definition keeps {A X} (f : State → X) (m : M A) : Prop :=
  ∀ st st' r, m st = (st', r) → f st' = f st.

(** The lines [wait_process] logs: the output of the tool, when it is not
    empty, and the line for its return code. *)
Definition output_lines (orig_command out : string) : list LogRecord :=
  if decide (strip_newlines out = "") then []
  else [mkLog INFO (orig_command +:+ ": " +:+ strip_newlines out)].

Definition status_lines (full_path_to_cmd : string) (rc : Z) : list LogRecord :=
  if decide (rc = 0) then
    [mkLog INFO (full_path_to_cmd +:+ " completed successfully with exitcode " +:+ pretty rc)]
  else if decide (rc > 0) then
    [mkLog ERROR (full_path_to_cmd +:+ " exited with " +:+ pretty rc)]
  else [].

(** The validation and the filters of the loop, without their log lines:
    whether a record reaches [process_cluster]. *)
Definition passes_check (cfg : pydict string string) : bool :=
  match dict_get "cluster_group" cfg with
  | Some group => negb (bool_decide (strip group = ""))
  | None => false
  end.

Definition matches_tags (args : Args) (cfg : pydict string string) : bool :=
  match cluster_tag args with
  | None => true
  | Some tags =>
      bool_decide (tags = ∅)
      || match dict_get "cluster_tags" cfg with
         | Some field => negb (bool_decide (config_tags_of field ∩ tags = ∅))
         | None => false
         end
  end.

Definition matches_group (args : Args) (cfg : pydict string string) : bool :=
  match cluster_group args with
  | None | Some EmptyString => true
  | Some g =>
      match dict_get "cluster_group" cfg with
      | Some cg => bool_decide (lower (strip g) = lower (strip cg))
      | None => false
      end
  end.

(** ** Sample inputs *)

Definition sample_state : State :=
  {| files := ∅; dirs := ∅; finalizer := false; kustomize := []; log := [] |}.

(** Three rows; the third repeats the identity of the first, with blanks
    around the key and the value. *)
Definition sample_rows : list (pydict string string) :=
  [ [("cluster_name", "a"); ("cluster_group", "g1")];
    [("cluster_name", "b"); ("cluster_group", "g1")];
    [(" cluster_name", "a "); ("cluster_group", "g2")] ].

(** A world with two source trees: a base with [config.yaml] and a
    sub-directory, and one overlay, for group [g1], with its own [config.yaml]
    and a template. The template engine knows three templates: one that
    substitutes the cluster name, one whose rendering fails, and, for any other
    source, the source as template data. *)
Definition sample_world : World :=
  {| source := λ p,
       if decide (p = ["r"; "base"]) then
         Some (Dir [("config.yaml", File "X"); ("sub", Dir [("a.txt", File "A")])])
       else if decide (p = ["r"; "overlays"; "g1"]) then
         Some (Dir [("config.yaml", File "Y");
                    ("deployment.yaml.j2", File "name: {{ cluster_name }}")])
       else if decide (p = ["r"; "overlays"; "g3"]) then
         Some (Dir [("broken.yaml.j2", File "{{ missing.attribute }}")])
       else None;
     copy2_fails := λ _ _, false;
     jinja_compiles := λ _, true;
     jinja_eval := λ src cfg,
       if decide (src = "name: {{ cluster_name }}") then
         Rendered [Markup "name: "; Value (default "" (dict_get "cluster_name" cfg))]
       else if decide (src = "{{ missing.attribute }}") then TemplateError
       else Rendered [Markup src];
     which := λ c, if decide (c = "kustomize") then Some "/usr/bin/kustomize" else None;
     popen := λ _ _, Some {| stdout := "Error: no such file"; polls := 2; returncode := 1 |} |}.

Definition sample_args : Args :=
  {| base := ["r"; "base"];
     overlay := ["r"; "overlays"];
     temp := {| temp_path := ["tmp"; "w"]; system_temp := false |};
     hydrated := ["r"; "output"];
     output_subdir := SubdirGroup;
     cluster_name := None;
     cluster_tag := None;
     cluster_group := None |}.

Definition sample_cfg1 : pydict string string :=
  [("cluster_name", "c1"); ("cluster_group", "g1"); ("cluster_tags", "prod")].

(** A record whose overlay holds the template that fails to render. *)
Definition sample_cfg3 : pydict string string :=
  [("cluster_name", "c3"); ("cluster_group", "g3"); ("cluster_tags", "prod")].

Definition sample_env : Environment :=
  {| searchpath := ["tmp"; "w"]; autoescape := true |}.

(** The table of the two records, the failing one first. *)
Definition sample_records : list (list string) :=
  [ ["cluster_name"; "cluster_group"; "cluster_tags"];
    ["c3"; "g3"; "prod"];
    ["c1"; "g1"; "prod"] ].

(** The state once [main] has created the temporary directory. *)
Definition sample_started : State :=
  (tempdir_call (temp sample_args) (initial_state sample_args [])).1.

(** * Properties *)

(** ** Dictionaries *)

Section pydict_facts.
Context {K V : Type} `{EqDecision K}.
Implicit Types (k : K) (v : V) (d : pydict K V).

Lemma dict_get_set_eq k v d : dict_get k (dict_set k v d) = Some v.
Proof.
  induction d as [|[k' v'] d IH]; simpl.
  - by rewrite decide_True.
  - destruct (decide (k = k')) as [->|Hne]; simpl.
    + by rewrite decide_True.
    + by rewrite decide_False.
Qed.

Lemma dict_get_set_ne k k' v d : k ≠ k' → dict_get k' (dict_set k v d) = dict_get k' d.
Proof.
  intros Hne. induction d as [|[k0 v0] d IH]; simpl.
  - by rewrite decide_False.
  - destruct (decide (k = k0)) as [->|Hne0]; simpl.
    + by rewrite !decide_False.
    + by rewrite IH.
Qed.

Lemma dict_set_keys k k' v d : k' ∈ (dict_set k v d).*1 ↔ k' = k ∨ k' ∈ d.*1.
Proof.
  induction d as [|[k0 v0] d IH]; simpl.
  - rewrite list_elem_of_singleton. split; [by left|].
    intros [?|Hin]; [done|]. by apply elem_of_nil in Hin.
  - destruct (decide (k = k0)) as [->|Hne]; simpl.
    + rewrite elem_of_cons. naive_solver.
    + rewrite !elem_of_cons, IH. naive_solver.
Qed.

Lemma dict_set_NoDup k v d : NoDup d.*1 → NoDup (dict_set k v d).*1.
Proof.
  induction d as [|[k0 v0] d IH]; simpl; intros Hnd.
  - apply NoDup_singleton.
  - apply NoDup_cons in Hnd as [Hnotin Hnd].
    destruct (decide (k = k0)) as [->|Hne]; simpl.
    + by apply NoDup_cons.
    + apply NoDup_cons. split; [|by apply IH].
      rewrite dict_set_keys. intros [?|?]; [by subst|done].
Qed.

Lemma dict_get_Some_elem k v d : dict_get k d = Some v → (k, v) ∈ d.
Proof.
  induction d as [|[k0 v0] d IH]; simpl; [done|].
  destruct (decide (k = k0)) as [->|Hne].
  - intros [= ->]. left.
  - intros. right. by apply IH.
Qed.

Lemma dict_get_NoDup_elem k v d : NoDup d.*1 → (k, v) ∈ d → dict_get k d = Some v.
Proof.
  induction d as [|[k0 v0] d IH]; simpl; intros Hnd Hin.
  - by apply elem_of_nil in Hin.
  - apply NoDup_cons in Hnd as [Hnotin Hnd].
    apply elem_of_cons in Hin as [[= <- <-]|Hin].
    + by rewrite decide_True.
    + rewrite decide_False; [by apply IH|].
      intros ->. apply Hnotin. apply list_elem_of_fmap. by exists (k0, v).
Qed.

Lemma dict_get_None_keys k d : dict_get k d = None ↔ k ∉ d.*1.
Proof.
  induction d as [|[k0 v0] d IH]; simpl.
  - split; [intros _; apply not_elem_of_nil|done].
  - destruct (decide (k = k0)) as [->|Hne].
    + split; [done|]. intros []. left.
    + rewrite IH. rewrite not_elem_of_cons. naive_solver.
Qed.

End pydict_facts.

(** ** The monad *)

Lemma bind_ok {A B} (m : M A) (f : A → M B) st st' a :
  m st = (st', Ok a) → bind m f st = f a st'.
Proof. unfold bind. by intros ->. Qed.

Lemma bind_raise {A B} (m : M A) (f : A → M B) st st' e :
  m st = (st', Raise e) → bind m f st = (st', Raise e).
Proof. unfold bind. by intros ->. Qed.

Lemma bind_inv_ok {A B} (m : M A) (f : A → M B) st st' b :
  bind m f st = (st', Ok b) → ∃ st1 a, m st = (st1, Ok a) ∧ f a st1 = (st', Ok b).
Proof.
  unfold bind. destruct (m st) as [st1 [a|e]]; [|done]. intros. by exists st1, a.
Qed.

Lemma for_each_app {A} (l1 l2 : list A) (body : A → M unit) st :
  for_each (l1 ++ l2) body st = (for_each l1 body >> for_each l2 body) st.
Proof.
  revert st. induction l1 as [|x l1 IH]; intros st; simpl; [done|].
  unfold bind in *. destruct (body x st) as [st1 [[]|e]]; [|done].
  by rewrite IH.
Qed.

(** ** The source-of-truth table *)

(** The guard [if row] of the comprehension never removes an item: it is
    evaluated once per item, and a row that has an item is not empty. *)
Lemma comprehension_guard_vacuous (row : csvrow) :
  filter (λ _, truthy row = true) row = row.
Proof.
  destruct row as [|kv row]; [done|].
  assert (Hall : ∀ l : csvrow, filter (λ _, truthy (kv :: row) = true) l = l).
  { induction l as [|x l IH]; [done|].
    rewrite filter_cons_True by done. by rewrite IH. }
  apply Hall.
Qed.

Lemma strip_items_str_row (r : pydict string string) (acc : pydict string string) :
  strip_items (str_row r) acc
  = Ok (foldl (λ d kv, dict_set kv.1 kv.2 d) acc ((λ kv, (strip kv.1, strip kv.2)) <$> r)).
Proof.
  revert acc. induction r as [|[k v] r IH]; intros acc; simpl; [done|]. apply IH.
Qed.

Lemma strip_row_str_row (r : pydict string string) :
  strip_row (str_row r) = Ok (stripped r).
Proof.
  unfold strip_row. rewrite comprehension_guard_vacuous. apply strip_items_str_row.
Qed.

(** The mapping built from rows that all have an identity. *)
Lemma parse_rows_str_rows (rs : list (pydict string string)) (data : ConfigDict) st :
  Forall (λ r, is_Some (identity r)) rs →
  parse_rows (str_row <$> rs) data st
  = (st, Ok (foldl (λ d r, dict_set (default "" (identity r)) (stripped r) d) data rs)).
Proof.
  intros Hall. revert data. induction Hall as [|r rs [n Hn] _ IH]; intros data; simpl; [done|].
  rewrite strip_row_str_row. unfold identity in Hn. rewrite Hn.
  rewrite IH. unfold identity. by rewrite Hn.
Qed.

Lemma foldl_dict_set_keys {A} (key : A → string) (val : A → pydict string string)
    (l : list A) (data : ConfigDict) n :
  n ∈ (foldl (λ d r, dict_set (key r) (val r) d) data l).*1
  ↔ n ∈ data.*1 ∨ ∃ r, r ∈ l ∧ key r = n.
Proof.
  revert data. induction l as [|r l IH]; intros data; simpl.
  - split; [by left|]. intros [?|(r & Hr & _)]; [done|]. by apply elem_of_nil in Hr.
  - rewrite IH, dict_set_keys. split.
    + intros [[->|?]|(r' & ? & ?)].
      * right. exists r. split; [left|done].
      * by left.
      * right. exists r'. split; [by right|done].
    + intros [?|(r' & Hr' & Hk)]; [by left; right|].
      apply elem_of_cons in Hr' as [->|?]; [by left; left|].
      right. by exists r'.
Qed.

Lemma foldl_dict_set_NoDup {A} (key : A → string) (val : A → pydict string string)
    (l : list A) (data : ConfigDict) :
  NoDup data.*1 → NoDup (foldl (λ d r, dict_set (key r) (val r) d) data l).*1.
Proof.
  revert data. induction l as [|r l IH]; intros data Hnd; simpl; [done|].
  apply IH. by apply dict_set_NoDup.
Qed.

Lemma foldl_dict_set_other {A} (key : A → string) (val : A → pydict string string)
    (l : list A) (data : ConfigDict) n :
  (∀ r, r ∈ l → key r ≠ n) →
  dict_get n (foldl (λ d r, dict_set (key r) (val r) d) data l) = dict_get n data.
Proof.
  revert data. induction l as [|r l IH]; intros data Hne; simpl; [done|].
  rewrite IH.
  - apply dict_get_set_ne. apply Hne. left.
  - intros r' Hr'. apply Hne. by right.
Qed.

(** C4. For rows that all carry the identity column, the loop of
    [process_sot_file] raises nothing and returns a mapping whose keys are
    pairwise distinct and are exactly the identities of the rows; the record
    stored for an identity is, in its entirety, the record of the last row
    with that identity. *)
Theorem parse_last_row_wins (rs : list (pydict string string)) (st : State) :
  Forall (λ r, is_Some (identity r)) rs →
  ∃ data : ConfigDict,
    parse_rows (str_row <$> rs) [] st = (st, Ok data)
    ∧ NoDup data.*1
    ∧ (∀ n, n ∈ data.*1 ↔ ∃ r, r ∈ rs ∧ identity r = Some n)
    ∧ (∀ i r n, rs !! i = Some r → identity r = Some n →
         (∀ j r', (i < j)%nat → rs !! j = Some r' → identity r' ≠ Some n) →
         dict_get n data = Some (stripped r)).
Proof.
  intros Hall. eexists. split; [by apply parse_rows_str_rows|].
  split; [apply foldl_dict_set_NoDup; apply NoDup_nil_2|]. split.
  - intros n. rewrite foldl_dict_set_keys. split.
    + intros [Hn|(r & Hr & Hk)]; [by apply elem_of_nil in Hn|].
      exists r. split; [done|].
      rewrite Forall_forall in Hall. destruct (Hall r Hr) as [m Hm].
      rewrite Hm in Hk |- *. simpl in Hk. by subst.
    + intros (r & Hr & Hk). right. exists r. split; [done|]. by rewrite Hk.
  - intros i r n Hi Hn Hlater.
    rewrite <- (take_drop_middle rs i r Hi), foldl_app. simpl.
    rewrite foldl_dict_set_other.
    + rewrite Hn. simpl. apply dict_get_set_eq.
    + intros r' Hr' Hk. apply list_elem_of_lookup in Hr' as [j Hj].
      rewrite lookup_drop in Hj.
      apply (Hlater (S i + j)%nat r'); [lia|done|].
      rewrite Forall_forall in Hall.
      destruct (Hall r') as [m Hm]; [by eapply list_elem_of_lookup_2|].
      rewrite Hm in Hk |- *. simpl in Hk. by subst.
Qed.

Lemma parse_last_row_wins_witness :
  ∃ data : ConfigDict,
    parse_rows (str_row <$> sample_rows) [] sample_state = (sample_state, Ok data)
    ∧ NoDup data.*1
    ∧ (∀ n, n ∈ data.*1 ↔ ∃ r, r ∈ sample_rows ∧ identity r = Some n)
    ∧ (∀ i r n, sample_rows !! i = Some r → identity r = Some n →
         (∀ j r', (i < j)%nat → sample_rows !! j = Some r' → identity r' ≠ Some n) →
         dict_get n data = Some (stripped r)).
Proof.
  apply (parse_last_row_wins sample_rows sample_state).
  repeat constructor; vm_compute; eauto.
Defined.

(** The rows the reader yields for a table in which every record that is
    not blank has as many cells as there are field names are rows of strings,
    so the property above applies to them. *)
Lemma dict_set_str_row (k v : string) (d : pydict string string) :
  dict_set (Some k) (PStr v) (str_row d) = str_row (dict_set k v d).
Proof.
  induction d as [|[k' v'] d IH]; [done|]. cbn.
  destruct (decide (k = k')) as [->|Hne].
  - by rewrite decide_True.
  - rewrite decide_False by congruence. cbn. f_equal. apply IH.
Qed.

Lemma dictreader_row_str_row (fieldnames record : list string) :
  length record = length fieldnames →
  dictreader_row fieldnames record = str_row (dict_of_items (zip fieldnames record)).
Proof.
  intros Hlen. unfold dictreader_row. rewrite Hlen, Nat.ltb_irrefl.
  unfold dict_of_items. change (@nil (option string * pyval)) with (str_row []).
  generalize (@nil (string * string)). generalize (zip fieldnames record).
  induction l as [|[k v] l IH]; intros acc; [done|]. cbn.
  rewrite dict_set_str_row. apply IH.
Qed.

Lemma process_sot_file_str_rows (fieldnames : list string) (records : list (list string))
    (st : State) :
  Forall (λ r, r = [] ∨ length r = length fieldnames) records →
  process_sot_file (fieldnames :: records) st
  = (logger DEBUG "Processing source of truth file: <name>" >>
     parse_rows (str_row <$> ((λ r, dict_of_items (zip fieldnames r))
                                <$> filter (λ r, r ≠ []) records)) []) st.
Proof.
  intros Hshape. unfold process_sot_file, DictReader.
  assert (dictreader_row fieldnames <$> filter (λ r, r ≠ []) records
          = str_row <$> ((λ r, dict_of_items (zip fieldnames r))
                           <$> filter (λ r, r ≠ []) records)) as ->; [|done].
  induction Hshape as [|r records Hr _ IH]; [done|].
  destruct (decide (r = [])) as [->|Hne].
  - by rewrite filter_cons_False by (by intros []).
  - rewrite filter_cons_True by done. rewrite !fmap_cons. f_equal; [|done].
    apply dictreader_row_str_row. by destruct Hr.
Qed.

(** C7. A blank record of the table (an empty row) is passed over: the run of
    [process_sot_file] on a table is the run on the table without that
    record, so the record contributes nothing to the mapping, raises nothing
    and leaves the rows after it to be parsed. *)
Theorem blank_rows_skipped (fieldnames : list string) (rows1 rows2 : list (list string))
    (st : State) :
  process_sot_file (fieldnames :: rows1 ++ [] :: rows2) st
  = process_sot_file (fieldnames :: rows1 ++ rows2) st.
Proof.
  unfold process_sot_file, DictReader.
  rewrite !filter_app, filter_cons_False; [done|]. by intros [].
Qed.

(** ** Validation *)

(** C6. [check_config] raises [RuntimeError] for every record whose group is
    absent or blank, and returns without raising for every record whose group
    is not blank, whether or not the record has tags; without tags it only
    logs one more line. For a trimmed group, as the records of
    [process_sot_file] have it, not blank is not empty. *)
Theorem check_config_group_required (cfg : pydict string string) (st : State) :
  ((dict_get "cluster_group" cfg = None
    ∨ ∃ g, dict_get "cluster_group" cfg = Some g ∧ strip g = "")
   → (check_config (Some cfg) st).2 = Raise RuntimeError)
  ∧ (∀ g, dict_get "cluster_group" cfg = Some g → strip g ≠ "" →
       (check_config (Some cfg) st).2 = Ok tt
       ∧ (is_Some (dict_get "cluster_tags" cfg) →
            log (check_config (Some cfg) st).1
            = log st ++ [mkLog DEBUG "Found config for cluster; config: <pformat>"])
       ∧ (dict_get "cluster_tags" cfg = None →
            log (check_config (Some cfg) st).1
            = log st ++ [mkLog DEBUG "Found config for cluster; config: <pformat>";
                         mkLog ERROR "Could not find column 'tags' in source"]))
  ∧ (∀ g, dict_get "cluster_group" cfg = Some g → strip g = g → g ≠ "" →
       (check_config (Some cfg) st).2 = Ok tt).
Proof.
  split; [|split].
  - intros Hgroup. destruct cfg as [|kv cfg]; [done|].
    unfold check_config.
    destruct Hgroup as [->|(g & -> & Hblank)]; [done|].
    by rewrite decide_True.
  - intros g Hg Hnonblank. destruct cfg as [|kv cfg]; [done|].
    unfold check_config. rewrite Hg, decide_False by done.
    destruct (dict_get "cluster_tags" (kv :: cfg)) as [tags|] eqn:Htags.
    + split; [done|]. split; [done|]. intros [=].
    + split; [done|]. split; [by intros [? [=]]|]. intros _.
      cbn. by rewrite <- app_assoc.
  - intros g Hg Htrimmed Hnonempty. destruct cfg as [|kv cfg]; [done|].
    unfold check_config. rewrite Hg, decide_False by congruence.
    by destruct (dict_get "cluster_tags" (kv :: cfg)).
Qed.

Lemma check_config_group_required_witness :
  (check_config (Some [("cluster_name", "c1"); ("cluster_group", "  ")]) sample_state).2
  = Raise RuntimeError
  ∧ (check_config (Some [("cluster_name", "c1"); ("cluster_group", "g1")]) sample_state).2
    = Ok tt.
Proof.
  split.
  - apply (check_config_group_required
             [("cluster_name", "c1"); ("cluster_group", "  ")] sample_state).
    right. exists "  ". split; reflexivity.
  - destruct (check_config_group_required
                [("cluster_name", "c1"); ("cluster_group", "g1")] sample_state)
      as (_ & Hok & _).
    apply (Hok "g1"); [reflexivity|vm_compute; discriminate].
Defined.

(** ** Selection by tags *)

(** C5. With a non-empty tag selector and no group selector, a record that
    has a tags field is selected exactly when one of its tags, trimmed, is
    equal to one of the selector's tags; a record without a tags field is not
    selected, and nothing is raised for it: one warning is logged. *)
Theorem tag_selection (args : Args) (c : string) (cfg : pydict string string)
    (tags : gset string) (st : State) :
  cluster_tag args = Some tags → tags ≠ ∅ → cluster_group args = None →
  (∀ field, dict_get "cluster_tags" cfg = Some field →
     ∃ st' b, select args c cfg st = (st', Ok b)
       ∧ (b = true ↔ config_tags_of field ∩ tags ≠ ∅)
       ∧ (config_tags_of field ∩ tags ≠ ∅
          ↔ ∃ raw, raw ∈ split "," field ∧ strip raw ∈ tags))
  ∧ (dict_get "cluster_tags" cfg = None →
     ∃ st', select args c cfg st = (st', Ok false)
       ∧ log st' = log st ++ [mkLog WARNING ("Cluster '" +:+ c +:+ "': specified tags as args "
                                             +:+ "but has none in config file")]).
Proof.
  intros Htag Hne Hgroup. unfold select. rewrite Htag, Hgroup, decide_False by done. split.
  - intros field ->. fold (config_tags_of field).
    destruct (decide (config_tags_of field ∩ tags = ∅)) as [Hempty|Hinter].
    + eexists _, false. split; [done|]. split; [split; [done|by intros []]|].
      split; [by intros []|]. intros (raw & Hraw & Hin).
      assert (strip raw ∈ config_tags_of field ∩ tags) as Hboth; [|by rewrite Hempty in Hboth].
      apply elem_of_intersection. split; [|done].
      apply elem_of_list_to_set, list_elem_of_fmap. by exists raw.
    + eexists _, true. split; [done|]. split; [done|]. split; [|done]. intros _.
      apply set_choose_L in Hinter as [t Ht].
      apply elem_of_intersection in Ht as [Ht Hsel].
      apply elem_of_list_to_set, list_elem_of_fmap in Ht as (raw & -> & Hraw).
      by exists raw.
  - intros ->. eexists. split; [done|]. done.
Qed.

Lemma tag_selection_witness :
  ∃ st' b,
    select {| base := []; overlay := []; temp := mkTempDir [] false; hydrated := [];
              output_subdir := SubdirGroup; cluster_name := None;
              cluster_tag := Some {[ "b"; "c" ]}; cluster_group := None |}
           "c1" [("cluster_name", "c1"); ("cluster_group", "g1"); ("cluster_tags", "a, b")]
           sample_state = (st', Ok b)
    ∧ (b = true ↔ config_tags_of "a, b" ∩ {[ "b"; "c" ]} ≠ ∅)
    ∧ (config_tags_of "a, b" ∩ {[ "b"; "c" ]} ≠ ∅
       ↔ ∃ raw, raw ∈ split "," "a, b" ∧ strip raw ∈ ({[ "b"; "c" ]} : gset string)).
Proof.
  apply (tag_selection
           {| base := []; overlay := []; temp := mkTempDir [] false; hydrated := [];
              output_subdir := SubdirGroup; cluster_name := None;
              cluster_tag := Some {[ "b"; "c" ]}; cluster_group := None |}
           "c1" [("cluster_name", "c1"); ("cluster_group", "g1"); ("cluster_tags", "a, b")]
           {[ "b"; "c" ]} sample_state); try reflexivity.
  intros Hempty. assert ("b" ∈ ({[ "b"; "c" ]} : gset string)) as Hin.
  { apply elem_of_union_l, elem_of_singleton. reflexivity. }
  rewrite Hempty in Hin. by apply not_elem_of_empty in Hin.
Defined.

(** ** Names and paths *)

Example suffix_of_names :
  suffix "deployment.yaml.j2" = ".j2" ∧ stem "deployment.yaml.j2" = "deployment.yaml"
  ∧ suffix "config.yaml" = ".yaml" ∧ suffix ".j2" = "" ∧ suffix "j2." = ""
  ∧ is_jinja_template ["tmp"; "w"; "a.j2"] = true
  ∧ is_jinja_template ["tmp"; "w"; ".j2"] = false.
Proof. repeat split. Qed.

Example strings_of_python :
  strip "  a b  " = "a b" ∧ split "," "prod, eu,,x" = ["prod"; " eu"; ""; "x"]
  ∧ lower "Prod-EU" = "prod-eu" ∧ split "," "" = [""].
Proof. repeat split. Qed.

Lemma length_append (s1 s2 : string) :
  String.length (s1 +:+ s2) = (String.length s1 + String.length s2)%nat.
Proof. induction s1 as [|c s1 IH]; simpl; [done|]. by rewrite IH. Qed.

Lemma substring_split (s : string) (i : nat) :
  (i ≤ String.length s)%nat →
  substring 0 i s +:+ substring i (String.length s - i) s = s.
Proof.
  revert i. induction s as [|c s IH]; intros i Hi; simpl in *.
  - by destruct i.
  - destruct i as [|i]; simpl.
    + specialize (IH 0%nat ltac:(lia)).
      replace (String.length s - 0)%nat with (String.length s) in IH by lia.
      assert (substring 0 0 s = "") as Hnil by (by destruct s).
      rewrite Hnil in IH. change (String c (substring 0 (String.length s) s) = String c s).
      f_equal. exact IH.
    + change (String c (substring 0 i s +:+ substring i (String.length s - i) s)
              = String c s).
      f_equal. apply IH. lia.
Qed.

Lemma rfind_lt (c : ascii) (s : string) (i : nat) :
  rfind c s = Some i → (i < String.length s)%nat.
Proof.
  revert i. induction s as [|a s IH]; intros i; simpl; [done|].
  destruct (rfind c s) as [j|].
  - intros [= <-]. specialize (IH j eq_refl). lia.
  - destruct (decide (a = c)); [|done]. intros [= <-]. lia.
Qed.

Lemma append_nil_r (s : string) : s +:+ "" = s.
Proof.
  induction s as [|c s IH]; [done|].
  change (String c (s +:+ "") = String c s). by rewrite IH.
Qed.

(** A name with a suffix is its stem followed by the suffix. *)
Lemma stem_suffix (n : string) : stem n +:+ suffix n = n.
Proof.
  unfold stem, suffix. destruct (rfind "." n) as [i|] eqn:Hi.
  - apply rfind_lt in Hi.
    destruct ((0 <? i) && (i <? String.length n - 1))%nat.
    + apply substring_split. lia.
    + apply append_nil_r.
  - apply append_nil_r.
Qed.

Lemma template_name_stem (n : string) : suffix n = ".j2" → n = stem n +:+ ".j2".
Proof. intros Hs. by rewrite <- Hs, stem_suffix. Qed.

Lemma template_stem_ne (n : string) : suffix n = ".j2" → stem n ≠ n.
Proof.
  intros Hs Heq. apply template_name_stem in Hs.
  apply (f_equal String.length) in Hs. rewrite length_append, Heq in Hs. simpl in Hs. lia.
Qed.

Lemma relative_to_Some (p other r : path) : relative_to p other = Some r → other ++ r = p.
Proof.
  revert p. induction other as [|o other IH]; intros [|x p]; simpl; try done.
  - by intros [= <-].
  - by intros [= <-].
  - destruct (decide (x = o)) as [->|]; [|done]. intros Hr. f_equal. by apply IH.
Qed.

Lemma relative_to_app (other r : path) : relative_to (other ++ r) other = Some r.
Proof.
  induction other as [|o other IH]; simpl; [by destruct r|]. by rewrite decide_True.
Qed.

Lemma name_joinpath (p : path) (n : string) : name (joinpath p n) = n.
Proof. apply List.last_last. Qed.

Lemma parent_joinpath (p : path) (n : string) : parent (joinpath p n) = p.
Proof. apply List.removelast_last. Qed.

Lemma template_path_split (p : path) :
  is_jinja_template p = true →
  p = joinpath (parent p) (name p) ∧ suffix (name p) = ".j2".
Proof.
  unfold is_jinja_template. intros Hs%bool_decide_eq_true. split; [|done].
  destruct p as [|x p]; [done|]. by apply List.app_removelast_last.
Qed.

(** ** Templates *)

(** What [template_file] does when the template compiles and its rendering
    fails: the output file has been opened, nothing is written, nothing is
    deleted. *)
Lemma template_file_render_error (w : World) (tf : path) (cfg : pydict string string)
    (env : Environment) (del : bool) (st : State) (src : string) :
  is_Some (relative_to tf (searchpath env)) →
  files st !! tf = Some src →
  jinja_compiles w src = true →
  jinja_eval w src cfg = TemplateError →
  ∃ st', template_file w tf cfg env del st = (st', Raise RuntimeWarning)
    ∧ files st' = <[joinpath (parent tf) (stem (name tf)) := ""]> (files st).
Proof.
  intros [rel Hrel] Hsrc Hcomp Heval. unfold template_file. rewrite Hrel.
  apply relative_to_Some in Hrel.
  unfold bind at 1. cbn [logger modify]. unfold bind at 1. cbn [gets files].
  rewrite Hrel, Hsrc, Hcomp. cbn [negb].
  unfold render. rewrite Heval.
  eexists. split; [reflexivity|done].
Qed.

(** C10. When the rendering of a template with the marker suffix fails,
    [template_file] raises with the template still in place, and the output
    file, opened before the rendering, is left behind, empty. *)
Theorem template_failure_leaves_output (w : World) (tf : path)
    (cfg : pydict string string) (env : Environment) (del : bool) (st : State)
    (src : string) :
  is_jinja_template tf = true →
  is_Some (relative_to tf (searchpath env)) →
  files st !! tf = Some src →
  jinja_compiles w src = true →
  jinja_eval w src cfg = TemplateError →
  ∃ st', template_file w tf cfg env del st = (st', Raise RuntimeWarning)
    ∧ files st' !! tf = Some src
    ∧ files st' !! joinpath (parent tf) (stem (name tf)) = Some "".
Proof.
  intros Htpl Hrel Hsrc Hcomp Heval.
  destruct (template_file_render_error w tf cfg env del st src) as (st' & Hrun & Hfiles);
    try done.
  exists st'. split; [done|]. rewrite Hfiles. split.
  - rewrite lookup_insert_ne; [done|].
    apply template_path_split in Htpl as [Hsplit Hsuffix].
    intros Heq. rewrite Hsplit in Heq at 3.
    apply app_inj_tail in Heq as [_ Heq]. by apply template_stem_ne in Hsuffix.
  - apply lookup_insert_eq.
Qed.

Lemma template_failure_leaves_output_witness :
  ∃ st',
    template_file sample_world ["tmp"; "w"; "g3"; "broken.yaml.j2"]
                  [("cluster_name", "c3")] (mkEnvironment ["tmp"; "w"] true) true
                  (mkState {[ ["tmp"; "w"; "g3"; "broken.yaml.j2"] := "{{ missing.attribute }}" ]}
                           ∅ false [] [])
    = (st', Raise RuntimeWarning)
    ∧ files st' !! ["tmp"; "w"; "g3"; "broken.yaml.j2"] = Some "{{ missing.attribute }}"
    ∧ files st' !! joinpath (parent ["tmp"; "w"; "g3"; "broken.yaml.j2"])
                            (stem (name ["tmp"; "w"; "g3"; "broken.yaml.j2"])) = Some "".
Proof.
  apply (template_failure_leaves_output sample_world ["tmp"; "w"; "g3"; "broken.yaml.j2"]
           [("cluster_name", "c3")] (mkEnvironment ["tmp"; "w"] true) true
           (mkState {[ ["tmp"; "w"; "g3"; "broken.yaml.j2"] := "{{ missing.attribute }}" ]}
                    ∅ false [] [])
           "{{ missing.attribute }}").
  - reflexivity.
  - vm_compute. eauto.
  - vm_compute. reflexivity.
  - reflexivity.
  - reflexivity.
Defined.

(** C3, as the code has it. The environment [setup_jinja] returns
    auto-escapes: in the rendered text every plain value an expression yields
    has gone through [escape]; template data and values marked safe are
    output as they are. *)
Theorem rendering_escapes_values (w : World) (template_path : path) (st st' : State)
    (env : Environment) (src : string) (cfg : pydict string string) (cs : list chunk) :
  setup_jinja template_path st = (st', Ok env) →
  jinja_eval w src cfg = Rendered cs →
  autoescape env = true
  ∧ render w env src cfg
    = Text (foldr (λ c acc, match c with
                            | Markup s => s
                            | Value v => escape v
                            end +:+ acc) "" cs).
Proof.
  intros Hsetup Heval. injection Hsetup as _ <-. split; [done|].
  unfold render. rewrite Heval. f_equal.
Qed.

Lemma rendering_escapes_values_witness :
  autoescape (mkEnvironment ["tmp"; "w"] true) = true
  ∧ render sample_world (mkEnvironment ["tmp"; "w"] true) "name: {{ cluster_name }}"
           [("cluster_name", "a<b")]
    = Text (foldr (λ c acc, match c with
                            | Markup s => s
                            | Value v => escape v
                            end +:+ acc) "" [Markup "name: "; Value "a<b"]).
Proof.
  apply (rendering_escapes_values sample_world ["tmp"; "w"] sample_state
           (setup_jinja ["tmp"; "w"] sample_state).1); reflexivity.
Defined.

(** C3, as stated, fails: a [<] in a substituted value comes out as an
    entity. *)
Lemma rendering_unescaped_counterexample :
  ∃ st' env,
    setup_jinja ["tmp"; "w"] sample_state = (st', Ok env)
    ∧ jinja_eval sample_world "name: {{ cluster_name }}" [("cluster_name", "a<b")]
      = Rendered [Markup "name: "; Value "a<b"]
    ∧ render sample_world env "name: {{ cluster_name }}" [("cluster_name", "a<b")]
      = Text "name: a&lt;b"
    ∧ render sample_world env "name: {{ cluster_name }}" [("cluster_name", "a<b")]
      ≠ Text "name: a<b".
Proof. eexists _, _. repeat split; [reflexivity..|discriminate]. Qed.

(** ** Which files a step can change *)

Section frames.
Context {A : Type} (P : path → Prop).

Lemma mo_ret (a : A) : modifies_only (ret a) P.
Proof. intros st st' r Hrun. by injection Hrun as <- _. Qed.

Lemma mo_raise (e : exn) : modifies_only (raise (A:=A) e) P.
Proof. intros st st' r Hrun. by injection Hrun as <- _. Qed.

Lemma mo_gets (f : State → A) : modifies_only (gets f) P.
Proof. intros st st' r Hrun. by injection Hrun as <- _. Qed.

Lemma mo_bind {B} (m : M B) (f : B → M A) :
  modifies_only m P → (∀ b, modifies_only (f b) P) → modifies_only (bind m f) P.
Proof.
  intros Hm Hf st st' r. unfold bind.
  destruct (m st) as [st1 [b|e]] eqn:Hrun.
  - intros Hrun' d Hd. rewrite (Hf b _ _ _ Hrun' d Hd). by apply (Hm _ _ _ Hrun).
  - intros Hrun' d Hd. injection Hrun' as <- _. by apply (Hm _ _ _ Hrun).
Qed.

End frames.

Lemma mo_logger (P : path → Prop) (l : Level) (msg : string) : modifies_only (logger l msg) P.
Proof. intros st st' r Hrun. by injection Hrun as <- _. Qed.

Lemma mo_set_dirs (P : path → Prop) (f : gset path → gset path) :
  modifies_only (set_dirs f) P.
Proof. intros st st' r Hrun. by injection Hrun as <- _. Qed.

Lemma mo_insert (P : path → Prop) (p : path) (v : string) :
  P p → modifies_only (set_files (<[p := v]>)) P.
Proof.
  intros Hp st st' r Hrun d Hd. injection Hrun as <- _. cbn. apply lookup_insert_ne. by intros ->.
Qed.

Lemma mo_delete (P : path → Prop) (p : path) :
  P p → modifies_only (set_files (delete p)) P.
Proof.
  intros Hp st st' r Hrun d Hd. injection Hrun as <- _. cbn. apply lookup_delete_ne. by intros ->.
Qed.

Lemma mo_for_each {A} (P : path → Prop) (l : list A) (body : A → M unit) :
  (∀ x, x ∈ l → modifies_only (body x) P) → modifies_only (for_each l body) P.
Proof.
  induction l as [|x l IH]; intros Hbody; simpl.
  - apply mo_ret.
  - apply mo_bind; [apply Hbody; left|]. intros _. apply IH.
    intros y Hy. apply Hbody. by right.
Qed.

Lemma mo_weaken {A} (P Q : path → Prop) (m : M A) :
  (∀ d, P d → Q d) → modifies_only m P → modifies_only m Q.
Proof. intros HPQ Hm st st' r Hrun d Hd. apply (Hm _ _ _ Hrun). naive_solver. Qed.

Ltac mo_leaf :=
  first [ apply mo_ret | apply mo_raise | apply mo_gets | apply mo_logger
        | apply mo_set_dirs ].

(** A leaf followed by a continuation that ignores its value. *)
Ltac mo_seq := apply mo_bind; [mo_leaf|intros _].

(** [template_file] changes the template and the output file only. *)
Lemma mo_template_file (w : World) (tf : path) (cfg : pydict string string)
    (env : Environment) (del : bool) :
  modifies_only (template_file w tf cfg env del)
                (λ d, d = tf ∨ d = joinpath (parent tf) (stem (name tf))).
Proof.
  unfold template_file. destruct (relative_to tf (searchpath env)) as [rel|]; [|mo_leaf].
  mo_seq. apply mo_bind; [mo_leaf|intros found].
  destruct found as [src|]; [|mo_seq; mo_leaf].
  destruct (negb (jinja_compiles w src)); [mo_seq; mo_leaf|].
  mo_seq. apply mo_bind; [apply mo_insert; by right|intros _].
  destruct (render w env src cfg); [|mo_seq; mo_leaf|mo_leaf].
  apply mo_bind; [apply mo_insert; by right|intros _].
  mo_seq. destruct del; [|mo_leaf]. mo_seq. apply mo_delete. by left.
Qed.

(** [copy_file] changes the copy and, for a template, its output. *)
Lemma mo_copy_file (w : World) (root nd : path) (cfg : pydict string string)
    (env : Environment) (tpl : bool) (file : string * string) :
  modifies_only (copy_file w root nd cfg env tpl file)
                (λ d, d = joinpath nd file.1
                      ∨ (tpl = true ∧ suffix file.1 = ".j2"
                         ∧ d = joinpath nd (stem file.1))).
Proof.
  unfold copy_file. rewrite !name_joinpath.
  mo_seq. apply mo_bind; [|intros _].
  { destruct (copy2_fails w _ _); [mo_leaf|]. apply mo_insert. by left. }
  destruct (tpl && is_jinja_template (joinpath nd file.1)) eqn:Htpl; [|mo_leaf].
  apply andb_true_iff in Htpl as [-> Htpl].
  apply template_path_split in Htpl as [_ Hsuffix]. rewrite name_joinpath in Hsuffix.
  eapply mo_weaken; [|apply mo_template_file].
  intros d [-> | ->]; [by left|]. right.
  by rewrite parent_joinpath, name_joinpath.
Qed.

(** A plain file is in place once [copy_file] has returned. *)
Lemma copy_file_writes (w : World) (root nd : path) (cfg : pydict string string)
    (env : Environment) (tpl : bool) (n y : string) (st st' : State) :
  copy_file w root nd cfg env tpl (n, y) st = (st', Ok tt) →
  (tpl = true → suffix n ≠ ".j2") →
  files st' !! joinpath nd n = Some y.
Proof.
  unfold copy_file. rewrite !name_joinpath. cbn [fst snd]. intros Hrun Hplain.
  assert (tpl && is_jinja_template (joinpath nd n) = false) as Hno.
  { destruct tpl; [|done]. cbn. apply bool_decide_eq_false.
    rewrite name_joinpath. by apply Hplain. }
  rewrite Hno in Hrun.
  apply bind_inv_ok in Hrun as (st1 & [] & _ & Hrun).
  apply bind_inv_ok in Hrun as (st2 & [] & Hcopy & Hrun).
  injection Hrun as <-.
  destruct (copy2_fails w _ _); [done|]. injection Hcopy as <-. cbn.
  apply lookup_insert_eq.
Qed.

Lemma joinpath_inj (p : path) (a b : string) : joinpath p a = joinpath p b → a = b.
Proof. unfold joinpath. intros Heq%app_inv_head. by injection Heq. Qed.

(** The files of one directory: once the loop over them has returned, a plain
    file of the directory is in place with its content, unless a template of
    the same directory renders onto it. *)
Lemma copy_files_writes (w : World) (root nd : path) (cfg : pydict string string)
    (env : Environment) (tpl : bool) (fs : list (string * string)) (n y : string)
    (st st' : State) :
  NoDup fs.*1 → (n, y) ∈ fs →
  (tpl = true → suffix n ≠ ".j2" ∧ ∀ c, (n +:+ ".j2", c) ∉ fs) →
  for_each fs (copy_file w root nd cfg env tpl) st = (st', Ok tt) →
  files st' !! joinpath nd n = Some y.
Proof.
  intros Hnd Hin Hplain Hrun.
  apply list_elem_of_split in Hin as (fs1 & fs2 & ->).
  rewrite for_each_app in Hrun.
  apply bind_inv_ok in Hrun as (st1 & [] & _ & Hrun). simpl in Hrun.
  apply bind_inv_ok in Hrun as (st2 & [] & Hcopy & Hrest).
  apply copy_file_writes in Hcopy; [|naive_solver].
  rewrite <- Hcopy.
  assert (modifies_only (for_each fs2 (copy_file w root nd cfg env tpl))
            (λ d, ∃ file, file ∈ fs2
                  ∧ (d = joinpath nd file.1
                     ∨ (tpl = true ∧ suffix file.1 = ".j2"
                        ∧ d = joinpath nd (stem file.1))))) as Hframe.
  { apply mo_for_each. intros file Hfile.
    eapply mo_weaken; [|apply mo_copy_file]. intros d Hd. by exists file. }
  apply (Hframe _ _ _ Hrest).
  intros ([n' y'] & Hfile & Hd). cbn [fst] in Hd.
  rewrite fmap_app, fmap_cons in Hnd. apply NoDup_app in Hnd as (_ & _ & Hnd).
  apply NoDup_cons in Hnd as [Hnotin _]. cbn [fst] in Hnotin.
  destruct Hd as [Heq|(Htpl & Hsuffix & Heq)]; apply joinpath_inj in Heq.
  - subst n'. apply Hnotin. apply list_elem_of_fmap. by exists (n, y').
  - destruct (Hplain Htpl) as [_ Hsibling]. apply (Hsibling y').
    rewrite Heq, <- (template_name_stem n' Hsuffix).
    apply elem_of_app. right. by right.
Qed.

Lemma mo_copy_dir (w : World) (base_dir overlay_dir dest_dir : path)
    (cfg : pydict string string) (env : Environment) (tpl : bool)
    (entry : path * list string * list (string * string)) :
  modifies_only (copy_dir w base_dir overlay_dir dest_dir cfg env tpl entry)
    (λ d, ∃ nd x, next_dir_of base_dir overlay_dir dest_dir entry.1.1 = Some nd
                  ∧ d = joinpath nd x).
Proof.
  destruct entry as [[root ds] fs]. unfold copy_dir. cbn [fst].
  destruct (next_dir_of base_dir overlay_dir dest_dir root) as [nd|]; [|mo_leaf].
  apply mo_bind; [mo_leaf|intros there].
  apply mo_bind; [destruct there; [mo_leaf|mo_seq; mo_leaf]|intros _].
  apply mo_for_each. intros file _.
  eapply mo_weaken; [|apply mo_copy_file].
  intros d [->|(_ & _ & ->)]; eauto.
Qed.

Lemma copy_dir_writes (w : World) (base_dir overlay_dir dest_dir : path)
    (cfg : pydict string string) (env : Environment) (tpl : bool)
    (root nd : path) (ds : list string) (fs : list (string * string)) (n y : string)
    (st st' : State) :
  next_dir_of base_dir overlay_dir dest_dir root = Some nd →
  NoDup fs.*1 → (n, y) ∈ fs →
  (tpl = true → suffix n ≠ ".j2" ∧ ∀ c, (n +:+ ".j2", c) ∉ fs) →
  copy_dir w base_dir overlay_dir dest_dir cfg env tpl (root, ds, fs) st = (st', Ok tt) →
  files st' !! joinpath nd n = Some y.
Proof.
  intros Hnext Hnd Hin Hplain. unfold copy_dir. rewrite Hnext. intros Hrun.
  apply bind_inv_ok in Hrun as (st1 & there & _ & Hrun).
  apply bind_inv_ok in Hrun as (st2 & [] & _ & Hrun).
  by eapply copy_files_writes.
Qed.

Lemma for_each_fmap {A B} (f : A → B) (l : list A) (body : B → M unit) :
  for_each (f <$> l) body = for_each l (λ x, body (f x)).
Proof.
  induction l as [|x l IH]; [done|]. rewrite fmap_cons. cbn [for_each]. by rewrite IH.
Qed.

(** The directories of one walk: what the entry of a plain file writes is
    still there at the end when no later entry has the same destination. *)
Lemma walk_writes (w : World) (base_dir overlay_dir dest_dir : path)
    (cfg : pydict string string) (env : Environment) (tpl : bool)
    (entries1 entries2 : list (path * list string * list (string * string)))
    (root nd : path) (ds : list string) (fs : list (string * string)) (n y : string)
    (st st' : State) :
  next_dir_of base_dir overlay_dir dest_dir root = Some nd →
  (∀ e, e ∈ entries2 → next_dir_of base_dir overlay_dir dest_dir e.1.1 ≠ Some nd) →
  NoDup fs.*1 → (n, y) ∈ fs →
  (tpl = true → suffix n ≠ ".j2" ∧ ∀ c, (n +:+ ".j2", c) ∉ fs) →
  for_each (entries1 ++ (root, ds, fs) :: entries2)
           (copy_dir w base_dir overlay_dir dest_dir cfg env tpl) st = (st', Ok tt) →
  files st' !! joinpath nd n = Some y.
Proof.
  intros Hnext Hlater Hnd Hin Hplain Hrun.
  rewrite for_each_app in Hrun.
  apply bind_inv_ok in Hrun as (st1 & [] & _ & Hrun). simpl in Hrun.
  apply bind_inv_ok in Hrun as (st2 & [] & Hdir & Hrest).
  eapply copy_dir_writes in Hdir; [|done..].
  rewrite <- Hdir.
  assert (modifies_only (for_each entries2 (copy_dir w base_dir overlay_dir dest_dir cfg env tpl))
            (λ d, ∃ e nd' x, e ∈ entries2
                  ∧ next_dir_of base_dir overlay_dir dest_dir e.1.1 = Some nd'
                  ∧ d = joinpath nd' x)) as Hframe.
  { apply mo_for_each. intros e He.
    eapply mo_weaken; [|apply mo_copy_dir]. intros d (nd' & x & ? & ?). by exists e, nd', x. }
  apply (Hframe _ _ _ Hrest).
  intros (e & nd' & x & He & Hnext' & Heq).
  apply app_inj_tail in Heq as [<- _]. by apply (Hlater e He).
Qed.

(** ** The walk of a tree *)

Lemma tree_ind' (P : tree → Prop) :
  (∀ c, P (File c)) → (∀ es, Forall (λ e, P e.2) es → P (Dir es)) → ∀ t, P t.
Proof.
  intros HF HD. fix IH 1. intros [c|es]; [apply HF|]. apply HD.
  induction es as [|e es IHes]; constructor; [apply IH|apply IHes].
Qed.

Lemma elem_of_flat_map {A B} (f : A → list B) (l : list A) (y : B) :
  y ∈ flat_map f l ↔ ∃ x, x ∈ l ∧ y ∈ f x.
Proof.
  rewrite list_elem_of_In, in_flat_map. setoid_rewrite list_elem_of_In. done.
Qed.

Lemma walk_Dir (root : path) (es : list (string * tree)) :
  walk root (Dir es)
  = (root, dirnames es, filenames es) :: flat_map (λ e, walk (joinpath root e.1) e.2) es.
Proof. done. Qed.

(** Every directory a walk lists lies below the directory it starts from. *)
Lemma walk_roots_below (t : tree) : ∀ root e, e ∈ walk root t → ∃ sub, e.1.1 = root ++ sub.
Proof.
  induction t as [c|es IH] using tree_ind'; intros root e; simpl.
  - by intros ?%elem_of_nil.
  - intros [->|Hin]%elem_of_cons.
    + exists []. by rewrite app_nil_r.
    + apply elem_of_flat_map in Hin as (x & Hx & Hin).
      rewrite Forall_forall in IH. apply (IH x Hx) in Hin as [sub ->].
      exists (x.1 :: sub). unfold joinpath. by rewrite <- app_assoc.
Qed.

Lemma wf_tree_entry (es : list (string * tree)) (x : string * tree) :
  wf_tree (Dir es) = true → x ∈ es → wf_tree x.2 = true.
Proof.
  simpl. intros [_ Hall]%andb_true_iff Hx.
  rewrite forallb_forall in Hall. apply Hall. by apply list_elem_of_In.
Qed.

(** In a tree whose directories list no name twice, a walk lists no
    directory twice. *)
Lemma walk_roots_NoDup (t : tree) :
  ∀ root, wf_tree t = true → NoDup (roots (walk root t)).
Proof.
  induction t as [c|es IH] using tree_ind'; intros root Hwf.
  - apply NoDup_nil_2.
  - rewrite walk_Dir. unfold roots. rewrite fmap_cons. cbn [fst]. apply NoDup_cons. split.
    + intros (e & Heq & Hin)%list_elem_of_fmap.
      apply elem_of_flat_map in Hin as (x & _ & Hin).
      apply walk_roots_below in Hin as [sub Hsub]. rewrite Hsub in Heq.
      unfold joinpath in Heq. rewrite <- app_assoc in Heq.
      apply (f_equal length) in Heq. rewrite length_app in Heq. simpl in Heq. lia.
    + assert (∀ x, x ∈ es → wf_tree x.2 = true) as Hsub
        by (intros; by eapply wf_tree_entry).
      apply andb_true_iff in Hwf as [Hnames%bool_decide_eq_true _].
      clear -IH Hsub Hnames. induction es as [|x es IHes]; [apply NoDup_nil_2|].
      apply Forall_cons in IH as [IHx IH].
      rewrite fmap_cons in Hnames. apply NoDup_cons in Hnames as [Hnotin Hnames].
      cbn [flat_map]. rewrite fmap_app. apply NoDup_app. split; [|split].
      * apply IHx. apply Hsub. left.
      * intros p (e & -> & Hin)%list_elem_of_fmap (e' & Heq & Hin')%list_elem_of_fmap.
        apply elem_of_flat_map in Hin' as (x' & Hx' & Hin').
        apply walk_roots_below in Hin as [sub Hsub1].
        apply walk_roots_below in Hin' as [sub' Hsub2].
        rewrite Hsub1, Hsub2 in Heq. unfold joinpath in Heq.
        rewrite <- !app_assoc in Heq. apply app_inv_head in Heq.
        injection Heq as Heq _. apply Hnotin. rewrite Heq.
        apply list_elem_of_fmap. by exists x'.
      * apply IHes; try done. intros x' Hx'. apply Hsub. by right.
Qed.

Lemma filenames_elem (es : list (string * tree)) (n y : string) :
  (n, y) ∈ filenames es ↔ (n, File y) ∈ es.
Proof.
  unfold filenames. rewrite list_elem_of_omap. split.
  - intros ([n' t] & Hin & Heq). cbn in Heq. destruct t; [|done].
    by injection Heq as -> ->.
  - intros Hin. by exists (n, File y).
Qed.

Lemma filenames_NoDup (es : list (string * tree)) :
  NoDup es.*1 → NoDup (filenames es).*1.
Proof.
  induction es as [|[n t] es IH]; simpl; [done|].
  intros [Hnotin Hnd]%NoDup_cons. unfold filenames. simpl.
  destruct t as [c|sub]; simpl; [|by apply IH].
  apply NoDup_cons. split; [|by apply IH].
  intros ([n' y] & -> & Hin)%list_elem_of_fmap. apply Hnotin.
  apply filenames_elem in Hin. apply list_elem_of_fmap. by exists (n', File y).
Qed.

(** A file found in a tree is listed by the walk, in the entry of its
    directory. *)
Lemma tree_lookup_walk (sub : path) :
  ∀ (t : tree) (root : path) (n y : string),
    wf_tree t = true →
    tree_lookup t (sub ++ [n]) = Some (File y) →
    ∃ ds fs, (root ++ sub, ds, fs) ∈ walk root t
      ∧ (n, y) ∈ fs ∧ NoDup fs.*1
      ∧ ∀ n' y', (n', y') ∈ fs → tree_lookup t (sub ++ [n']) = Some (File y').
Proof.
  induction sub as [|n0 sub IH]; intros t root n y Hwf Hlook.
  - destruct t as [c|es]; [done|]. simpl in Hlook.
    destruct (dict_get n es) as [t'|] eqn:Hget; [|done]. injection Hlook as ->.
    pose proof Hwf as [Hnames%bool_decide_eq_true _]%andb_true_iff.
    exists (dirnames es), (filenames es). rewrite app_nil_r. split; [left|].
    split; [by apply filenames_elem, dict_get_Some_elem|].
    split; [by apply filenames_NoDup|].
    intros n' y' Hin%filenames_elem. simpl.
    by rewrite (dict_get_NoDup_elem _ _ _ Hnames Hin).
  - destruct t as [c|es]; [done|]. simpl in Hlook.
    destruct (dict_get n0 es) as [t'|] eqn:Hget; [|done].
    apply dict_get_Some_elem in Hget as Hin.
    destruct (IH t' (joinpath root n0) n y) as (ds & fs & Hentry & Hfile & Hnd & Hall);
      [by apply (wf_tree_entry es (n0, t'))|done|].
    exists ds, fs. split; [|split; [done|split; [done|]]].
    + simpl. right. apply elem_of_flat_map. exists (n0, t'). split; [done|].
      unfold joinpath in Hentry. by rewrite <- app_assoc in Hentry.
    + intros n' y' Hin'. simpl. rewrite Hget. by apply Hall.
Qed.

(** ** Where a walked directory is copied *)

Lemma relative_to_app_r (p other r sub : path) :
  relative_to p other = Some r → relative_to (p ++ sub) other = Some (r ++ sub).
Proof.
  revert p. induction other as [|o other IH]; intros [|x p]; simpl; try done.
  - intros [= <-]. by destruct sub.
  - by intros [= <-].
  - destruct (decide (x = o)); [apply IH|done].
Qed.

Lemma relative_to_None_app (p other sub : path) :
  relative_to p other = None → ¬ p `prefix_of` other → relative_to (p ++ sub) other = None.
Proof.
  revert p. induction other as [|o other IH]; intros [|x p]; simpl; try done.
  - intros _ []. apply prefix_nil.
  - destruct (decide (x = o)) as [->|]; [|done].
    intros Hnone Hpre. apply IH; [done|]. intros Hp. apply Hpre. by apply prefix_cons.
Qed.

Lemma parent_prefix (p : path) : parent p `prefix_of` p.
Proof.
  destruct (decide (p = [])) as [->|Hne]; [done|].
  exists [List.last p ""]. by apply List.app_removelast_last.
Qed.

(** When the base directory does not lie inside the overlay directory, the
    directories below the overlay directory are copied below the copy of the
    overlay directory, along the same relative path. *)
Lemma next_dir_of_below (base_dir overlay_dir dest_dir od sub : path) :
  ¬ overlay_dir `prefix_of` base_dir →
  next_dir_of base_dir overlay_dir dest_dir overlay_dir = Some od →
  next_dir_of base_dir overlay_dir dest_dir (overlay_dir ++ sub) = Some (od ++ sub).
Proof.
  intros Hout. unfold next_dir_of.
  destruct (relative_to overlay_dir (parent base_dir)) as [r|] eqn:Hbase.
  - intros [= <-]. rewrite (relative_to_app_r _ _ _ sub Hbase). by rewrite app_assoc.
  - rewrite relative_to_None_app; [|done|].
    + destruct (relative_to overlay_dir (parent overlay_dir)) as [r|] eqn:Hown; [|done].
      intros [= <-]. rewrite (relative_to_app_r _ _ _ sub Hown). by rewrite app_assoc.
    + intros Hpre. apply Hout. etrans; [done|]. apply parent_prefix.
Qed.

(** The base directory is copied to the directory of its own name. *)
Lemma next_dir_of_base (base_dir overlay_dir dest_dir : path) :
  base_dir ≠ [] →
  next_dir_of base_dir overlay_dir dest_dir base_dir = Some (joinpath dest_dir (name base_dir)).
Proof.
  intros Hne. unfold next_dir_of.
  rewrite (List.app_removelast_last "" Hne) at 1.
  by rewrite relative_to_app.
Qed.

(** The base directory and what lies below it are copied below the
    directory of its name. *)
Lemma next_dir_of_base_below (base_dir overlay_dir dest_dir sub : path) :
  base_dir ≠ [] →
  next_dir_of base_dir overlay_dir dest_dir (base_dir ++ sub)
  = Some (joinpath dest_dir (name base_dir) ++ sub).
Proof.
  intros Hne. unfold next_dir_of.
  rewrite (List.app_removelast_last "" Hne) at 1.
  rewrite <- app_assoc, relative_to_app.
  unfold joinpath, name. by rewrite <- !app_assoc.
Qed.

(** ** The merge *)

Section walk_of_a_tree.
Context (w : World) (base_dir overlay_dir dest_dir : path)
  (cfg : pydict string string) (env : Environment) (tpl : bool).
(** The tree [t] is walked from [root], and what lies below [root] is copied
    below [mirror], along the same relative path. *)
Context (root mirror : path) (t : tree).
Hypothesis mirrored :
  ∀ sub, next_dir_of base_dir overlay_dir dest_dir (root ++ sub) = Some (mirror ++ sub).

(** The walk changes nothing but files in the directories below [mirror]. *)
Lemma mo_walk :
  modifies_only (for_each (walk root t) (copy_dir w base_dir overlay_dir dest_dir cfg env tpl))
                (λ d, ∃ sub x, d = joinpath (mirror ++ sub) x).
Proof.
  apply mo_for_each. intros e He.
  eapply mo_weaken; [|apply mo_copy_dir].
  intros d (nd & x & Hnext & ->).
  apply walk_roots_below in He as [sub Hsub].
  rewrite Hsub, mirrored in Hnext. injection Hnext as <-. by exists sub, x.
Qed.

(** Once the walk has returned, a plain file of the tree is in place below
    [mirror]. *)
Lemma walk_tree_writes (sub : path) (n y : string) (st st' : State) :
  wf_tree t = true →
  tree_lookup t (sub ++ [n]) = Some (File y) →
  (tpl = true →
     suffix n ≠ ".j2" ∧ ∀ c, tree_lookup t (sub ++ [n +:+ ".j2"]) ≠ Some (File c)) →
  for_each (walk root t) (copy_dir w base_dir overlay_dir dest_dir cfg env tpl) st
  = (st', Ok tt) →
  files st' !! (mirror ++ sub ++ [n]) = Some y.
Proof.
  intros Hwf Hlook Hplain Hrun.
  destruct (tree_lookup_walk sub t root n y Hwf Hlook)
    as (ds & fs & Hentry & Hfile & Hnd & Hall).
  pose proof (walk_roots_NoDup t root Hwf) as Hroots.
  pose proof (walk_roots_below t root) as Hbelow.
  apply list_elem_of_split in Hentry as (entries1 & entries2 & Hsplit).
  rewrite Hsplit in Hrun, Hroots, Hbelow.
  rewrite app_assoc.
  apply (walk_writes w base_dir overlay_dir dest_dir cfg env tpl entries1 entries2
           (root ++ sub) (mirror ++ sub) ds fs n y st st'); try done.
  - intros e He Hsame.
    destruct (Hbelow e) as [sub' Hsub']; [apply elem_of_app; right; by right|].
    rewrite Hsub', mirrored in Hsame.
    injection Hsame as Hsame%app_inv_head. subst sub'.
    unfold roots in Hroots. rewrite fmap_app, fmap_cons in Hroots. cbn [fst] in Hroots.
    apply NoDup_app in Hroots as (_ & _ & Hroots).
    apply NoDup_cons in Hroots as [Hnotin _]. apply Hnotin.
    apply list_elem_of_fmap. by exists e.
  - intros Htpl. destruct (Hplain Htpl) as [Hsuffix Hsibling]. split; [done|].
    intros c Hc. by apply (Hsibling c), Hall.
Qed.

End walk_of_a_tree.

(** Two paths that have a common extension are comparable. *)
Lemma app_eq_prefix (p q r s : path) : p ++ r = q ++ s → p `prefix_of` q ∨ q `prefix_of` p.
Proof.
  revert q. induction p as [|x p IH]; intros [|z q] Heq.
  - by left.
  - left. apply prefix_nil.
  - right. apply prefix_nil.
  - injection Heq as -> Heq. destruct (IH q Heq); [left|right]; by apply prefix_cons.
Qed.

(** C1, as the code has it. The two trees are not copied into one
    destination: the base directory is copied to [bd], the directory of its
    name below the destination, and the overlay directory to [od], its path
    relative to the parent of the base directory or else to its own parent.
    For a plain file that both trees have at the same relative path, once
    [copy_and_template] has returned, the file at that path below [od] has
    the content the overlay gives it; and when neither of [bd] and [od] lies
    inside the other, the file at that path below [bd] still has the content
    the base gives it. With templating on, the file must not be a template,
    nor have in its directory a template that renders onto it. *)
Theorem merge_keeps_both_copies (w : World) (base_dir overlay_dir dest_dir od : path)
    (cfg : pydict string string) (env : Environment) (tpl : bool)
    (tb to : tree) (sub : path) (n x y : string) (st st' : State) :
  source w base_dir = Some tb → source w overlay_dir = Some to →
  wf_tree tb = true → wf_tree to = true →
  base_dir ≠ [] → ¬ overlay_dir `prefix_of` base_dir →
  next_dir_of base_dir overlay_dir dest_dir overlay_dir = Some od →
  tree_lookup tb (sub ++ [n]) = Some (File x) →
  tree_lookup to (sub ++ [n]) = Some (File y) →
  (tpl = true →
     suffix n ≠ ".j2"
     ∧ (∀ c, tree_lookup tb (sub ++ [n +:+ ".j2"]) ≠ Some (File c))
     ∧ (∀ c, tree_lookup to (sub ++ [n +:+ ".j2"]) ≠ Some (File c))) →
  copy_and_template w base_dir overlay_dir dest_dir cfg env tpl st = (st', Ok tt) →
  let bd := joinpath dest_dir (name base_dir) in
  next_dir_of base_dir overlay_dir dest_dir base_dir = Some bd
  ∧ files st' !! (od ++ sub ++ [n]) = Some y
  ∧ (¬ bd `prefix_of` od → ¬ od `prefix_of` bd →
     files st' !! (bd ++ sub ++ [n]) = Some x).
Proof.
  intros Hbase Hover Hwfb Hwfo Hne Hout Hod Hlookb Hlooko Hplain Hrun bd.
  split; [by apply next_dir_of_base|].
  unfold copy_and_template in Hrun.
  apply bind_inv_ok in Hrun as (st4 & [] & Hrun & Hlog). injection Hlog as <-. cbn [files].
  rewrite for_each_app in Hrun. apply bind_inv_ok in Hrun as (st1 & [] & _ & Hrun).
  rewrite for_each_app in Hrun. apply bind_inv_ok in Hrun as (st2 & [] & Hwalkb & Hrun).
  rewrite for_each_app in Hrun. apply bind_inv_ok in Hrun as (st3 & [] & Hmsg & Hwalko).
  rewrite for_each_fmap in Hwalkb, Hwalko. unfold walk_path in Hwalkb, Hwalko.
  rewrite Hbase in Hwalkb. rewrite Hover in Hwalko.
  assert (∀ sub', next_dir_of base_dir overlay_dir dest_dir (overlay_dir ++ sub')
                  = Some (od ++ sub')) as Hmirror
    by (intros; by apply next_dir_of_below).
  split.
  - apply (walk_tree_writes w base_dir overlay_dir dest_dir cfg env tpl overlay_dir od to
             Hmirror sub n y st3 st4); naive_solver.
  - intros Hbd Hdb.
    assert (files st2 !! (bd ++ sub ++ [n]) = Some x) as Hcopy.
    { apply (walk_tree_writes w base_dir overlay_dir dest_dir cfg env tpl base_dir bd tb
               (λ sub', next_dir_of_base_below _ _ _ sub' Hne) sub n x st1 st2);
        naive_solver. }
    assert (files st3 = files st2) as Hsame.
    { cbn in Hmsg. unfold bind, logger, modify, ret in Hmsg. by injection Hmsg as <-. }
    rewrite <- Hcopy, <- Hsame.
    apply (mo_walk w base_dir overlay_dir dest_dir cfg env tpl overlay_dir od to Hmirror
             _ _ _ Hwalko).
    intros (sub' & x' & Heq). unfold joinpath in Heq.
    rewrite (app_assoc bd) in Heq. apply app_inj_tail in Heq as [Heq _].
    destruct (app_eq_prefix _ _ _ _ Heq); done.
Qed.

Lemma merge_keeps_both_copies_witness :
  let st' := (copy_and_template sample_world ["r"; "base"] ["r"; "overlays"; "g1"]
                ["tmp"; "w"] sample_cfg1 sample_env true sample_state).1 in
  let bd := joinpath ["tmp"; "w"] (name ["r"; "base"]) in
  next_dir_of ["r"; "base"] ["r"; "overlays"; "g1"] ["tmp"; "w"] ["r"; "base"] = Some bd
  ∧ files st' !! (["tmp"; "w"; "overlays"; "g1"] ++ [] ++ ["config.yaml"]) = Some "Y"
  ∧ (¬ bd `prefix_of` ["tmp"; "w"; "overlays"; "g1"] →
     ¬ ["tmp"; "w"; "overlays"; "g1"] `prefix_of` bd →
     files st' !! (bd ++ [] ++ ["config.yaml"]) = Some "X").
Proof.
  apply (merge_keeps_both_copies sample_world ["r"; "base"] ["r"; "overlays"; "g1"] ["tmp"; "w"]
           ["tmp"; "w"; "overlays"; "g1"] sample_cfg1 sample_env true
           (Dir [("config.yaml", File "X"); ("sub", Dir [("a.txt", File "A")])])
           (Dir [("config.yaml", File "Y");
                 ("deployment.yaml.j2", File "name: {{ cluster_name }}")])
           [] "config.yaml" "X" "Y" sample_state).
  - reflexivity.
  - reflexivity.
  - reflexivity.
  - reflexivity.
  - discriminate.
  - intros [k Hk]. discriminate Hk.
  - reflexivity.
  - reflexivity.
  - reflexivity.
  - intros _. split; [vm_compute; discriminate|].
    split; intros c; vm_compute; discriminate.
  - vm_compute. reflexivity.
Defined.

(** C1, as stated, fails: the base and the overlay both have [config.yaml] at
    the root of their tree, and after the merge the copy of the base still has
    the content of the base; the two copies lie in different directories of
    the destination, and the destination has no [config.yaml] of its own. *)
Lemma merge_precedence_counterexample :
  let st' := (copy_and_template sample_world ["r"; "base"] ["r"; "overlays"; "g1"]
                ["tmp"; "w"] [("cluster_name", "c1"); ("cluster_group", "g1")]
                (mkEnvironment ["tmp"; "w"] true) true sample_state) in
  (∃ tb, source sample_world ["r"; "base"] = Some tb
         ∧ tree_lookup tb ["config.yaml"] = Some (File "X"))
  ∧ (∃ to, source sample_world ["r"; "overlays"; "g1"] = Some to
           ∧ tree_lookup to ["config.yaml"] = Some (File "Y"))
  ∧ st'.2 = Ok tt
  ∧ next_dir_of ["r"; "base"] ["r"; "overlays"; "g1"] ["tmp"; "w"] ["r"; "base"]
    = Some ["tmp"; "w"; "base"]
  ∧ next_dir_of ["r"; "base"] ["r"; "overlays"; "g1"] ["tmp"; "w"] ["r"; "overlays"; "g1"]
    = Some ["tmp"; "w"; "overlays"; "g1"]
  ∧ files st'.1 !! ["tmp"; "w"; "base"; "config.yaml"] = Some "X"
  ∧ files st'.1 !! ["tmp"; "w"; "overlays"; "g1"; "config.yaml"] = Some "Y"
  ∧ files st'.1 !! ["tmp"; "w"; "config.yaml"] = None.
Proof.
  cbv zeta. split; [eexists; split; reflexivity|]. split; [eexists; split; reflexivity|].
  repeat split; vm_compute; reflexivity.
Qed.

(** ** The loop over the clusters *)

(** The [finally] clause raises nothing and sets up the same environment
    again. *)
Lemma finally_clause_ok (args : Args) (st : State) :
  finally_clause args st
  = ((finally_clause args st).1,
     Ok {| searchpath := temp_path (temp args); autoescape := true |}).
Proof.
  unfold finally_clause, tempdir_cleanup, tempdir_call, setup_jinja, rmtree, mkdir_parents,
    set_files, set_dirs, set_finalizer, logger, modify, gets, bind, ret.
  destruct (system_temp (temp args)); [|done].
  by destruct (finalizer st || _).
Qed.

(** One turn of the loop for a record that passes the validation and the
    selection. *)
Lemma main_loop_selected (w : World) (args : Args) (c : string)
    (cfg : pydict string string) (rest : ConfigDict) (env : Environment)
    (st st1 st2 st3 : State) (r : result unit) :
  (logger INFO ("Processing cluster " +:+ c) >> check_config (Some cfg)) st = (st1, Ok tt) →
  select args c cfg st1 = (st2, Ok true) →
  process_cluster w args cfg env (output_subdir args) st2 = (st3, r) →
  main_loop w args ((c, cfg) :: rest) env st
  = match r with
    | Ok _ | Raise RuntimeWarning =>
        main_loop w args rest {| searchpath := temp_path (temp args); autoescape := true |}
                  (finally_clause args st3).1
    | Raise RuntimeError =>
        ((finally_clause args
            (logger ERROR "Nothing left to do; exiting without processing all clusters"
                    st3).1).1,
         SysExit 1)
    | Raise e => ((finally_clause args st3).1, Uncaught e)
    end.
Proof.
  intros Hcheck Hselect Hprocess. cbn [main_loop].
  rewrite Hcheck, Hselect, Hprocess.
  destruct r as [[]|e].
  - unfold bind at 1. cbn [ret]. by rewrite finally_clause_ok.
  - destruct e; unfold bind at 1; cbn [ret logger modify];
      by rewrite finally_clause_ok.
Qed.

(** A missing overlay is a [RuntimeWarning]. *)
Lemma process_cluster_no_overlay (w : World) (args : Args) (cfg : pydict string string)
    (env : Environment) (osub : OutputSubdir) (st : State) (group : string) :
  dict_get "cluster_group" cfg = Some group →
  source w (joinpath (overlay args) group) = None →
  (process_cluster w args cfg env osub st).2 = Raise RuntimeWarning.
Proof. intros Hgroup Hsrc. unfold process_cluster. by rewrite Hgroup, Hsrc. Qed.

(** A template that cannot be loaded or rendered is a [RuntimeWarning]
    too. *)
Lemma template_file_failure (w : World) (tf : path) (cfg : pydict string string)
    (env : Environment) (del : bool) (st : State) :
  is_Some (relative_to tf (searchpath env)) →
  match files st !! tf with
  | Some src => jinja_compiles w src = false ∨ jinja_eval w src cfg = TemplateError
  | None => True
  end →
  (template_file w tf cfg env del st).2 = Raise RuntimeWarning.
Proof.
  intros [rel Hrel] Hfail. unfold template_file. rewrite Hrel.
  apply relative_to_Some in Hrel.
  unfold bind at 1. cbn [logger modify]. unfold bind at 1. cbn [gets files].
  rewrite Hrel. destruct (files st !! tf) as [src|]; [|done].
  destruct (jinja_compiles w src) eqn:Hcomp; [|done].
  destruct Hfail as [?|Heval]; [done|].
  cbn [negb]. unfold render. by rewrite Heval.
Qed.

(** C2, as the code has it. A missing overlay and a template that cannot be
    loaded or rendered both raise [RuntimeWarning]. In the loop, a cluster
    whose processing raises [RuntimeWarning] is passed over and the loop goes
    on with the next cluster; [RuntimeError] is logged and ends the run with
    status 1; any other exception is caught by nothing and ends the run,
    also with a status that is not zero. In each case the [finally] clause
    has run. *)
Theorem batch_error_policy (w : World) (args : Args) :
  (∀ cfg env osub st group,
     dict_get "cluster_group" cfg = Some group →
     source w (joinpath (overlay args) group) = None →
     (process_cluster w args cfg env osub st).2 = Raise RuntimeWarning)
  ∧ (∀ tf cfg env del st,
       is_Some (relative_to tf (searchpath env)) →
       match files st !! tf with
       | Some src => jinja_compiles w src = false ∨ jinja_eval w src cfg = TemplateError
       | None => True
       end →
       (template_file w tf cfg env del st).2 = Raise RuntimeWarning)
  ∧ (∀ c cfg rest env st st1 st2 st3 e,
       (logger INFO ("Processing cluster " +:+ c) >> check_config (Some cfg)) st
       = (st1, Ok tt) →
       select args c cfg st1 = (st2, Ok true) →
       process_cluster w args cfg env (output_subdir args) st2 = (st3, Raise e) →
       match e with
       | RuntimeWarning =>
           main_loop w args ((c, cfg) :: rest) env st
           = main_loop w args rest
                       {| searchpath := temp_path (temp args); autoescape := true |}
                       (finally_clause args st3).1
       | RuntimeError =>
           ∃ st', main_loop w args ((c, cfg) :: rest) env st = (st', SysExit 1)
                  ∧ mkLog ERROR "Nothing left to do; exiting without processing all clusters"
                    ∈ log st'
       | _ =>
           ∃ st', main_loop w args ((c, cfg) :: rest) env st = (st', Uncaught e)
                  ∧ exit_status (Uncaught e) ≠ 0
       end).
Proof.
  split; [intros; by eapply process_cluster_no_overlay|].
  split; [intros; by apply template_file_failure|].
  intros c cfg rest env st st1 st2 st3 e Hcheck Hselect Hprocess.
  rewrite (main_loop_selected _ _ _ _ _ _ _ _ _ _ _ Hcheck Hselect Hprocess).
  destruct e; try (eexists; split; [reflexivity|done]); [|done].
  eexists. split; [reflexivity|].
  rewrite finally_clause_ok. unfold finally_clause, tempdir_cleanup, tempdir_call,
    setup_jinja, rmtree, mkdir_parents, set_files, set_dirs, set_finalizer, logger,
    modify, gets, bind, ret.
  destruct (system_temp (temp args)); [destruct (finalizer _ || _)|]; cbn;
    rewrite !elem_of_app, !list_elem_of_singleton; naive_solver.
Qed.

Lemma batch_error_policy_witness :
  ∃ st1 st2 st3,
    (logger INFO ("Processing cluster " +:+ "c3") >> check_config (Some sample_cfg3))
      sample_started = (st1, Ok tt)
    ∧ select sample_args "c3" sample_cfg3 st1 = (st2, Ok true)
    ∧ process_cluster sample_world sample_args sample_cfg3 sample_env SubdirGroup st2
      = (st3, Raise RuntimeWarning)
    ∧ main_loop sample_world sample_args [("c3", sample_cfg3); ("c1", sample_cfg1)]
                sample_env sample_started
      = main_loop sample_world sample_args [("c1", sample_cfg1)] sample_env
                  (finally_clause sample_args st3).1.
Proof.
  set (st1 := ((logger INFO ("Processing cluster " +:+ "c3") >> check_config (Some sample_cfg3))
                 sample_started).1).
  set (st2 := (select sample_args "c3" sample_cfg3 st1).1).
  set (st3 := (process_cluster sample_world sample_args sample_cfg3 sample_env SubdirGroup
                 st2).1).
  assert ((logger INFO ("Processing cluster " +:+ "c3") >> check_config (Some sample_cfg3))
            sample_started = (st1, Ok tt)) as H1 by (vm_compute; reflexivity).
  assert (select sample_args "c3" sample_cfg3 st1 = (st2, Ok true)) as H2
    by (vm_compute; reflexivity).
  assert (process_cluster sample_world sample_args sample_cfg3 sample_env
            (output_subdir sample_args) st2 = (st3, Raise RuntimeWarning)) as H3
    by (vm_compute; reflexivity).
  exists st1, st2, st3. split; [exact H1|]. split; [exact H2|]. split; [exact H3|].
  exact (proj2 (proj2 (batch_error_policy sample_world sample_args))
           "c3" sample_cfg3 [("c1", sample_cfg1)] sample_env sample_started
           st1 st2 st3 RuntimeWarning H1 H2 H3).
Defined.

(** C2, as stated, fails: the template of the first cluster cannot be rendered,
    and the run goes on to the second cluster and ends with status 0. *)
Lemma template_failure_counterexample :
  let run := script sample_world sample_args [] sample_records in
  run.2 = Returned
  ∧ exit_status run.2 = 0
  ∧ log run.1 !! 16%nat
    = Some (mkLog ERROR "Error rendering template /tmp/w/overlays/g3/broken.yaml.j2")
  ∧ log run.1 !! 19%nat = Some (mkLog INFO "Processing cluster c1")
  ∧ log run.1 !! 35%nat
    = Some (mkLog DEBUG "Running '/usr/bin/kustomize build . -o /r/output/g1/c1.yaml'").
Proof. cbv zeta. repeat split; vm_compute; reflexivity. Qed.

(** ** The build tool *)

Lemma wait_process_error (polls : nat) :
  ∀ (orig_command full_path_to_cmd out : string) (rc : Z) (st : State),
    rc > 0 →
    ∃ st', wait_process orig_command full_path_to_cmd out polls rc st = (st', Ok tt)
      ∧ last (log st')
        = Some (mkLog ERROR (full_path_to_cmd +:+ " exited with " +:+ pretty rc)).
Proof.
  induction polls as [|polls IH]; intros orig full out rc st Hrc; cbn [wait_process].
  - rewrite (decide_False (P := rc = 0)), (decide_True (P := rc > 0)) by lia.
    destruct (decide (strip_newlines out = "")); eexists;
      (split; [reflexivity|]); cbn; apply last_snoc.
  - destruct (decide (strip_newlines out = "")).
    + unfold bind at 1. cbn [ret]. by apply IH.
    + unfold bind at 1. cbn [logger modify]. by apply IH.
Qed.

(** C9. When the build tool exits with a status above zero, [run_kustomize]
    logs an error and returns without raising; the turn of the loop whose
    merge succeeded and whose call of [run_kustomize] returned is followed by
    the turn of the next cluster. *)
Theorem build_failure_continues (w : World) (args : Args) :
  (∀ output_dir overlay_dir cfg st cluster_name full_path_to_cmd p,
     dict_get "cluster_name" cfg = Some cluster_name →
     which w (List.hd "" (command_line (kustomize st) output_dir (cluster_name +:+ ".yaml")))
     = Some full_path_to_cmd →
     overlay_dir ∈ dirs st →
     popen w (full_path_to_cmd
                :: List.tl (command_line (kustomize st) output_dir (cluster_name +:+ ".yaml")))
           overlay_dir = Some p →
     returncode p > 0 →
     ∃ st', run_kustomize w output_dir overlay_dir cfg st = (st', Ok tt)
       ∧ last (log st')
         = Some (mkLog ERROR (full_path_to_cmd +:+ " exited with "
                              +:+ pretty (returncode p))))
  ∧ (∀ c cfg rest env st st1 st2 st3 st4 cluster_name group,
       (logger INFO ("Processing cluster " +:+ c) >> check_config (Some cfg)) st
       = (st1, Ok tt) →
       select args c cfg st1 = (st2, Ok true) →
       dict_get "cluster_name" cfg = Some cluster_name →
       dict_get "cluster_group" cfg = Some group →
       is_Some (source w (joinpath (overlay args) group)) →
       copy_and_template w (base args) (joinpath (overlay args) group)
                         (temp_path (temp args)) cfg env true st2 = (st3, Ok tt) →
       run_kustomize w (hydrated_dest args (output_subdir args) cluster_name group)
                     (hydration_src args group) cfg st3 = (st4, Ok tt) →
       main_loop w args ((c, cfg) :: rest) env st
       = main_loop w args rest
                   {| searchpath := temp_path (temp args); autoescape := true |}
                   (finally_clause args st4).1).
Proof.
  split.
  - intros output_dir overlay_dir cfg st cluster_name full p Hname Hwhich Hcwd Hpopen Hrc.
    unfold run_kustomize. rewrite Hname.
    unfold bind at 1. cbn [gets]. rewrite Hwhich.
    destruct (truthy (kustomize st)) eqn:Hshared.
    + unfold bind at 1. cbn [set_kustomize modify].
      unfold bind at 1. cbn [logger modify]. unfold bind at 1. cbn [logger modify].
      unfold bind at 1. cbn [gets dirs].
      rewrite bool_decide_eq_true_2 by done. cbn [negb].
      rewrite Hpopen. by apply wait_process_error.
    + unfold bind at 1. cbn [ret].
      unfold bind at 1. cbn [logger modify]. unfold bind at 1. cbn [logger modify].
      unfold bind at 1. cbn [gets dirs].
      rewrite bool_decide_eq_true_2 by done. cbn [negb].
      rewrite Hpopen. by apply wait_process_error.
  - intros c cfg rest env st st1 st2 st3 st4 cluster_name group
      Hcheck Hselect Hname Hgroup [t Ht] Hmerge Hbuild.
    rewrite (main_loop_selected w args c cfg rest env st st1 st2 st4 (Ok tt)); try done.
    unfold process_cluster. rewrite Hgroup, Ht.
    rewrite (bind_ok _ _ _ _ _ Hmerge). by rewrite Hname.
Qed.

Lemma build_failure_continues_witness :
  ∃ st',
    run_kustomize sample_world ["r"; "output"; "g1"] ["tmp"; "w"; "overlays"; "g1"]
                  sample_cfg1
                  (mkState ∅ {[ ["tmp"; "w"; "overlays"; "g1"] ]} false [] [])
    = (st', Ok tt)
    ∧ last (log st') = Some (mkLog ERROR ("/usr/bin/kustomize" +:+ " exited with " +:+ pretty 1)).
Proof.
  apply (proj1 (build_failure_continues sample_world sample_args)
           ["r"; "output"; "g1"] ["tmp"; "w"; "overlays"; "g1"] sample_cfg1
           (mkState ∅ {[ ["tmp"; "w"; "overlays"; "g1"] ]} false [] [])
           "c1" "/usr/bin/kustomize"
           {| stdout := "Error: no such file"; polls := 2; returncode := 1 |}).
  - reflexivity.
  - reflexivity.
  - cbn [dirs]. apply elem_of_singleton_2. reflexivity.
  - reflexivity.
  - reflexivity.
Defined.

(** ** The temporary directory at the end of the run *)

Lemma rmtree_removes (p : path) (st : State) : exists_ p (rmtree p st).1 = false.
Proof.
  unfold exists_, rmtree, bind, set_files, set_dirs, modify. cbn.
  apply orb_false_iff. split; apply bool_decide_eq_false.
  - rewrite elem_of_filter. by intros [[] _].
  - intros [c Hc]. apply map_lookup_filter_Some in Hc as [_ Hc]. by apply Hc.
Qed.

Lemma tempdir_cleanup_removes (t : TempDir) (st : State) :
  exists_ (temp_path t) (tempdir_cleanup t st).1 = false.
Proof.
  unfold tempdir_cleanup. destruct (system_temp t); [|apply rmtree_removes].
  unfold bind at 1. cbn [gets]. unfold bind at 1. cbn [set_finalizer modify].
  unfold bind at 1. cbn [gets].
  destruct (finalizer st || exists_ (temp_path t) _) eqn:Hgone.
  - apply rmtree_removes.
  - apply orb_false_iff in Hgone as [_ Hgone]. exact Hgone.
Qed.

(** The part of C8 that holds: when [main] returns, the temporary directory
    is gone. *)
Lemma main_returned_cleans (w : World) (args : Args) (records : list (list string))
    (st st' : State) :
  main w args records st = (st', Returned) →
  exists_ (temp_path (temp args)) st' = false.
Proof.
  unfold main. intros Hmain.
  repeat case_match; simplify_eq; apply tempdir_cleanup_removes.
Qed.

(** X19. When the script ends normally, the temporary directory is gone once
    the interpreter has exited, whether it was given on the command line or
    is the system temporary directory. *)
Lemma script_returned_cleans (w : World) (args : Args) (command_override : list string)
    (records : list (list string)) (st' : State) :
  script w args command_override records = (st', Returned) →
  exists_ (temp_path (temp args)) st' = false.
Proof.
  unfold script.
  destruct (main w args records (initial_state args command_override)) as [st t] eqn:Hmain.
  destruct t; try (by intros [=]). intros [= <-].
  apply main_returned_cleans in Hmain.
  unfold interpreter_exit. cbn [logger modify fst finalizer].
  destruct (finalizer st); [|done].
  unfold bind. cbn [set_finalizer modify]. apply rmtree_removes.
Qed.

(** C8 fails on the code. With a temporary directory given on the command
    line and a cluster name that the table does not have, the run ends with
    [sys.exit(1)] and the directory created at its start is still there. With
    the system temporary directory and a build tool that is not on the search
    path, the loop ends with [sys.exit(1)], and the directory, created anew by
    the [finally] clause, is still there after the interpreter has exited. *)
Theorem workspace_left_on_failure :
  let single :=
    script sample_world
           {| base := ["r"; "base"]; overlay := ["r"; "overlays"];
              temp := {| temp_path := ["tmp"; "w"]; system_temp := false |};
              hydrated := ["r"; "output"]; output_subdir := SubdirGroup;
              cluster_name := Some "missing"; cluster_tag := None; cluster_group := None |}
           [] sample_records in
  let fatal :=
    script sample_world
           {| base := ["r"; "base"]; overlay := ["r"; "overlays"];
              temp := {| temp_path := ["tmp"; "w"]; system_temp := true |};
              hydrated := ["r"; "output"]; output_subdir := SubdirGroup;
              cluster_name := None; cluster_tag := None; cluster_group := None |}
           ["missing-tool"] sample_records in
  single.2 = SysExit 1 ∧ exists_ ["tmp"; "w"] single.1 = true
  ∧ fatal.2 = SysExit 1 ∧ exists_ ["tmp"; "w"] fatal.1 = true.
Proof. cbv zeta. repeat split; vm_compute; reflexivity. Qed.

(** * Further properties *)

(** ** Tables that cannot be parsed *)

Lemma dict_of_items_keys {K V} `{EqDecision K} (items : list (K * V)) (k : K) :
  k ∈ (dict_of_items items).*1 ↔ k ∈ items.*1.
Proof.
  unfold dict_of_items.
  assert (∀ acc : pydict K V,
            k ∈ (foldl (λ d kv, dict_set kv.1 kv.2 d) acc items).*1
            ↔ k ∈ acc.*1 ∨ k ∈ items.*1) as Hgen.
  { induction items as [|[k' v'] items IH]; intros acc; simpl.
    - split; [by left|]. intros [?|Hin]; [done|]. by apply elem_of_nil in Hin.
    - rewrite IH, dict_set_keys, elem_of_cons. naive_solver. }
  rewrite Hgen. split; [|by right]. intros [Hin|?]; [|done]. by apply elem_of_nil in Hin.
Qed.

(** The keys of the record stored for a row are the trimmed keys of the
    row. *)
Lemma stripped_keys (r : pydict string string) (k : string) :
  k ∈ (stripped r).*1 ↔ k ∈ strip <$> r.*1.
Proof.
  unfold stripped. by rewrite dict_of_items_keys, <- !list_fmap_compose.
Qed.

Lemma zip_keys_subset (fieldnames record : list string) (k : string) :
  k ∈ (zip fieldnames record).*1 → k ∈ fieldnames.
Proof.
  revert record. induction fieldnames as [|f fieldnames IH]; intros [|c record]; simpl;
    try (by intros ?%elem_of_nil).
  intros [->|Hin]%elem_of_cons; [left|right]. by eapply IH.
Qed.

(** X1. A table whose header has no [cluster_name] column, trimmed, cannot be
    parsed: at the first record that is not blank (here one with a cell for
    every field name) [process_sot_file] raises [RuntimeError], and [main]
    ends with [sys.exit(1)] before it creates the temporary directory. *)
Theorem table_without_identity_column (w : World) (args : Args)
    (fieldnames record : list string) (rest : list (list string)) (st : State) :
  "cluster_name" ∉ strip <$> fieldnames →
  record ≠ [] → length record = length fieldnames →
  (process_sot_file (fieldnames :: record :: rest) st).2 = Raise RuntimeError
  ∧ (main w args (fieldnames :: record :: rest) st).2 = SysExit 1
  ∧ files (main w args (fieldnames :: record :: rest) st).1 = files st
  ∧ dirs (main w args (fieldnames :: record :: rest) st).1 = dirs st.
Proof.
  intros Hcol Hne Hlen.
  assert (∀ st0, ∃ st1, process_sot_file (fieldnames :: record :: rest) st0
                        = (st1, Raise RuntimeError)
                        ∧ files st1 = files st0 ∧ dirs st1 = dirs st0) as Hraise.
  { intros st0. unfold process_sot_file, DictReader.
    rewrite filter_cons_True by done. rewrite fmap_cons.
    rewrite dictreader_row_str_row by done.
    unfold bind at 1. cbn [logger modify parse_rows].
    rewrite strip_row_str_row.
    destruct (dict_get "cluster_name" (stripped (dict_of_items (zip fieldnames record))))
      as [n|] eqn:Hget.
    - exfalso. apply Hcol. apply dict_get_Some_elem in Hget.
      assert ("cluster_name" ∈ (stripped (dict_of_items (zip fieldnames record))).*1) as Hkey.
      { apply list_elem_of_fmap. by exists ("cluster_name", n). }
      apply stripped_keys, list_elem_of_fmap in Hkey as (k & -> & Hk).
      apply list_elem_of_fmap. exists k. split; [done|].
      by apply dict_of_items_keys, zip_keys_subset in Hk.
    - eexists. split; [reflexivity|done]. }
  split; [by destruct (Hraise st) as (? & -> & _)|].
  assert (∃ st1, main w args (fieldnames :: record :: rest) st = (st1, SysExit 1)
                 ∧ files st1 = files st ∧ dirs st1 = dirs st) as (st1 & -> & ? & ?); [|done].
  unfold main. unfold bind at 1. cbn [logger modify].
  destruct (Hraise (mkState (files st) (dirs st) (finalizer st) (kustomize st)
                            (log st ++ [mkLog DEBUG "Received args: <pformat>"])))
    as (st1 & -> & Hfiles & Hdirs).
  by exists st1.
Qed.

Lemma table_without_identity_column_witness :
  (process_sot_file [["name"; "cluster_group"]; ["c1"; "g1"]; ["c2"; "g2"]] sample_state).2
  = Raise RuntimeError
  ∧ (main sample_world sample_args [["name"; "cluster_group"]; ["c1"; "g1"]; ["c2"; "g2"]]
          sample_state).2 = SysExit 1
  ∧ files (main sample_world sample_args
                [["name"; "cluster_group"]; ["c1"; "g1"]; ["c2"; "g2"]] sample_state).1
    = files sample_state
  ∧ dirs (main sample_world sample_args
               [["name"; "cluster_group"]; ["c1"; "g1"]; ["c2"; "g2"]] sample_state).1
    = dirs sample_state.
Proof.
  apply (table_without_identity_column sample_world sample_args
           ["name"; "cluster_group"] ["c1"; "g1"] [["c2"; "g2"]] sample_state).
  - apply (bool_decide_unpack _). vm_compute. reflexivity.
  - discriminate.
  - reflexivity.
Defined.

(** A row with a key or a cell that is not a string cannot be trimmed. *)
Lemma strip_items_not_str (items : csvrow) (k : option string) (v : pyval) :
  (k, v) ∈ items →
  (k = None ∨ ∀ s, v ≠ PStr s) →
  ∀ acc, strip_items items acc = Raise AttributeError.
Proof.
  intros Hin Hbad. induction items as [|[k' v'] items IH]; intros acc.
  - by apply elem_of_nil in Hin.
  - simpl. apply elem_of_cons in Hin as [[= <- <-]|Hin].
    + destruct k as [k|]; [|done]. destruct v as [s| |l]; [|done|done].
      destruct Hbad as [?|Hbad]; [done|]. by destruct (Hbad s).
    + destruct k' as [k'|]; [|done]. destruct v' as [s| |l]; [|done|done]. by apply IH.
Qed.

Lemma dictreader_row_not_str (fieldnames record : list string) :
  length record ≠ length fieldnames →
  ∃ k v, (k, v) ∈ dictreader_row fieldnames record ∧ (k = None ∨ ∀ s, v ≠ PStr s).
Proof.
  intros Hlen. unfold dictreader_row.
  destruct (length fieldnames <? length record)%nat eqn:Hlong.
  - eexists None, _. split; [|by left].
    apply dict_get_Some_elem, dict_get_set_eq.
  - apply Nat.ltb_ge in Hlong.
    rewrite (proj2 (Nat.ltb_lt _ _)) by lia.
    destruct (drop (length record) fieldnames) as [|k0 l0] eqn:Hdrop using rev_ind.
    { apply (f_equal length) in Hdrop. rewrite length_drop in Hdrop. simpl in Hdrop. lia. }
    rewrite foldl_app. cbn [foldl].
    eexists (Some k0), PNone. split; [|by right].
    apply dict_get_Some_elem, dict_get_set_eq.
Qed.

(** X2. A record that is not blank and has fewer or more cells than there
    are field names cannot be parsed either, but the exception is not the one
    [main] expects: [process_sot_file] raises [AttributeError] (some key or
    cell of the row is not a string), and [main] ends with that exception
    uncaught. *)
Theorem ragged_record_raises (w : World) (args : Args)
    (fieldnames record : list string) (rest : list (list string)) (st : State) :
  record ≠ [] → length record ≠ length fieldnames →
  (process_sot_file (fieldnames :: record :: rest) st).2 = Raise AttributeError
  ∧ (main w args (fieldnames :: record :: rest) st).2 = Uncaught AttributeError.
Proof.
  intros Hne Hlen.
  assert (∀ st0, (process_sot_file (fieldnames :: record :: rest) st0).2
                 = Raise AttributeError) as Hraise.
  { intros st0. unfold process_sot_file, DictReader.
    rewrite filter_cons_True by done. rewrite fmap_cons.
    unfold bind at 1. cbn [logger modify parse_rows].
    unfold strip_row. rewrite comprehension_guard_vacuous.
    destruct (dictreader_row_not_str fieldnames record Hlen) as (k & v & Hin & Hbad).
    by rewrite (strip_items_not_str _ k v Hin Hbad). }
  split; [apply Hraise|].
  unfold main. unfold bind at 1. cbn [logger modify].
  specialize (Hraise (mkState (files st) (dirs st) (finalizer st) (kustomize st)
                              (log st ++ [mkLog DEBUG "Received args: <pformat>"]))).
  destruct (process_sot_file _ _) as [st1 r]. cbn in Hraise. by subst r.
Qed.

Lemma ragged_record_raises_witness :
  (process_sot_file [["cluster_name"; "cluster_group"]; ["c1"]] sample_state).2
  = Raise AttributeError
  ∧ (main sample_world sample_args [["cluster_name"; "cluster_group"]; ["c1"]]
          sample_state).2 = Uncaught AttributeError.
Proof.
  apply (ragged_record_raises sample_world sample_args
           ["cluster_name"; "cluster_group"] ["c1"] [] sample_state); discriminate.
Defined.

(** ** Records that are passed over *)

(** [check_config] decides by the group alone and only logs. *)
Lemma check_config_run (cfg : pydict string string) (st : State) :
  ∃ st', check_config (Some cfg) st
         = (st', if passes_check cfg then Ok tt else Raise RuntimeError)
    ∧ files st' = files st ∧ dirs st' = dirs st
    ∧ finalizer st' = finalizer st ∧ kustomize st' = kustomize st.
Proof.
  unfold check_config, passes_check. destruct cfg as [|kv cfg].
  { eexists. split; [reflexivity|done]. }
  destruct (dict_get "cluster_group" (kv :: cfg)) as [group|].
  - destruct (decide (strip group = "")) as [Hblank|Hblank].
    + rewrite bool_decide_eq_true_2 by done. eexists. split; [reflexivity|done].
    + rewrite bool_decide_eq_false_2 by done.
      destruct (dict_get "cluster_tags" (kv :: cfg)); eexists; (split; [reflexivity|done]).
  - eexists. split; [reflexivity|done].
Qed.

(** The filters of the loop decide by the selector and the record alone and
    only log. *)
Lemma select_run (args : Args) (c : string) (cfg : pydict string string) (st : State) :
  is_Some (dict_get "cluster_group" cfg) →
  ∃ st', select args c cfg st = (st', Ok (matches_tags args cfg && matches_group args cfg))
    ∧ files st' = files st ∧ dirs st' = dirs st
    ∧ finalizer st' = finalizer st ∧ kustomize st' = kustomize st.
Proof.
  intros [cg Hcg]. unfold select, matches_tags, matches_group. rewrite Hcg.
  assert (∀ st0 : State, ∃ st', (match cluster_group args with
            | Some g =>
                if decide (g = "") then ret true
                else if decide (lower (strip g) = lower (strip cg)) then ret true
                     else logger DEBUG ("Cluster '" +:+ c +:+ "': not in group '" +:+ g
                                        +:+ "'; not hydrating...") >> ret false
            | None => ret true
            end) st0
          = (st', Ok match cluster_group args with
                     | Some EmptyString | None => true
                     | Some g => bool_decide (lower (strip g) = lower (strip cg))
                     end)
          ∧ files st' = files st0 ∧ dirs st' = dirs st0
          ∧ finalizer st' = finalizer st0 ∧ kustomize st' = kustomize st0) as Hgroup.
  { intros st0. destruct (cluster_group args) as [[|a g]|].
    - eexists. split; [reflexivity|done].
    - rewrite decide_False by done.
      destruct (decide (lower (strip (String a g)) = lower (strip cg))).
      + rewrite bool_decide_eq_true_2 by done. eexists. split; [reflexivity|done].
      + rewrite bool_decide_eq_false_2 by done. eexists. split; [reflexivity|done].
    - eexists. split; [reflexivity|done]. }
  destruct (cluster_tag args) as [tags|].
  - destruct (decide (tags = ∅)) as [Hempty|Hempty].
    + rewrite bool_decide_eq_true_2 by done. unfold bind at 1. cbn [ret negb orb andb].
      apply Hgroup.
    + rewrite bool_decide_eq_false_2 by done. cbn [orb].
      destruct (dict_get "cluster_tags" cfg) as [field|].
      * fold (config_tags_of field).
        destruct (decide (config_tags_of field ∩ tags = ∅)).
        -- rewrite bool_decide_eq_true_2 by done. eexists. split; [reflexivity|done].
        -- rewrite bool_decide_eq_false_2 by done. unfold bind at 1. cbn [ret negb andb].
           apply Hgroup.
      * eexists. split; [reflexivity|done].
  - unfold bind at 1. cbn [ret negb andb]. apply Hgroup.
Qed.

(** One turn of the loop for a record that the validation or a filter
    rejects. *)
Lemma main_loop_skip (w : World) (args : Args) (c : string) (cfg : pydict string string)
    (rest : ConfigDict) (env : Environment) (st : State) :
  passes_check cfg && matches_tags args cfg && matches_group args cfg = false →
  ∃ st', main_loop w args ((c, cfg) :: rest) env st = main_loop w args rest env st'
    ∧ files st' = files st ∧ dirs st' = dirs st
    ∧ finalizer st' = finalizer st ∧ kustomize st' = kustomize st.
Proof.
  intros Hskip. cbn [main_loop]. unfold bind at 1. cbn [logger modify].
  destruct (check_config_run cfg
              (mkState (files st) (dirs st) (finalizer st) (kustomize st)
                       (log st ++ [mkLog INFO ("Processing cluster " +:+ c)])))
    as (st1 & -> & Hf1 & Hd1 & Hz1 & Hk1).
  destruct (passes_check cfg) eqn:Hcheck.
  - assert (is_Some (dict_get "cluster_group" cfg)) as Hgroup.
    { unfold passes_check in Hcheck. by destruct (dict_get "cluster_group" cfg). }
    destruct (select_run args c cfg st1 Hgroup) as (st2 & -> & Hf2 & Hd2 & Hz2 & Hk2).
    cbn [andb] in Hskip. rewrite Hskip.
    exists st2. split; [done|]. cbn in *. repeat split; congruence.
  - exists st1. split; [done|]. cbn in *. repeat split; congruence.
Qed.

(** X3. Selection by group: with a group selector that is not empty and no
    tag selector, a record is selected exactly when its group, trimmed and in
    lower case, is the selector, trimmed and in lower case. *)
Theorem group_selection (args : Args) (c g cg : string) (cfg : pydict string string)
    (st : State) :
  cluster_tag args = None → cluster_group args = Some g → g ≠ "" →
  dict_get "cluster_group" cfg = Some cg →
  ∃ st' b, select args c cfg st = (st', Ok b)
    ∧ (b = true ↔ lower (strip g) = lower (strip cg)).
Proof.
  intros Htag Hsel Hne Hcg.
  destruct (select_run args c cfg st) as (st' & Hrun & _); [by rewrite Hcg|].
  eexists _, _. split; [exact Hrun|].
  unfold matches_tags, matches_group. rewrite Htag, Hsel, Hcg.
  destruct g; [done|]. cbn [andb]. apply bool_decide_eq_true.
Qed.

Lemma group_selection_witness :
  ∃ st' b,
    select {| base := []; overlay := []; temp := mkTempDir [] false; hydrated := [];
              output_subdir := SubdirGroup; cluster_name := None;
              cluster_tag := None; cluster_group := Some " Prod-EU" |}
           "c1" [("cluster_name", "c1"); ("cluster_group", "prod-eu")] sample_state
    = (st', Ok b)
    ∧ (b = true ↔ lower (strip " Prod-EU") = lower (strip "prod-eu")).
Proof.
  apply (group_selection
           {| base := []; overlay := []; temp := mkTempDir [] false; hydrated := [];
              output_subdir := SubdirGroup; cluster_name := None;
              cluster_tag := None; cluster_group := Some " Prod-EU" |}
           "c1" " Prod-EU" "prod-eu"); try reflexivity. discriminate.
Defined.

(** X4. A record that fails the validation, or that the tag or the group
    selector rejects, is passed over: the loop goes on with the next record,
    with the same template environment, and the files and directories of the
    temporary directory, the finalizer and the command override are as they
    were; the [finally] clause does not run. *)
Theorem rejected_record_passed_over (w : World) (args : Args) (c : string)
    (cfg : pydict string string) (rest : ConfigDict) (env : Environment) (st : State) :
  passes_check cfg && matches_tags args cfg && matches_group args cfg = false →
  ∃ st', main_loop w args ((c, cfg) :: rest) env st = main_loop w args rest env st'
    ∧ files st' = files st ∧ dirs st' = dirs st
    ∧ finalizer st' = finalizer st ∧ kustomize st' = kustomize st.
Proof. apply main_loop_skip. Qed.

Lemma rejected_record_passed_over_witness :
  ∃ st',
    main_loop sample_world sample_args
              [("c0", [("cluster_name", "c0"); ("cluster_group", " ")]); ("c1", sample_cfg1)]
              sample_env sample_started
    = main_loop sample_world sample_args [("c1", sample_cfg1)] sample_env st'
    ∧ files st' = files sample_started ∧ dirs st' = dirs sample_started
    ∧ finalizer st' = finalizer sample_started ∧ kustomize st' = kustomize sample_started.
Proof.
  apply (rejected_record_passed_over sample_world sample_args "c0"
           [("cluster_name", "c0"); ("cluster_group", " ")]). reflexivity.
Defined.

(** X5. When the validation or the selector rejects every record, the loop
    ends normally and has touched neither the files nor the directories of
    the temporary directory: nothing was hydrated, and the run is not a
    failure. *)
Theorem nothing_selected_returns (w : World) (args : Args) (items : ConfigDict)
    (env : Environment) (st : State) :
  Forall (λ item, passes_check item.2 && matches_tags args item.2
                  && matches_group args item.2 = false) items →
  ∃ st', main_loop w args items env st = (st', Returned)
    ∧ files st' = files st ∧ dirs st' = dirs st.
Proof.
  intros Hall. revert st. induction Hall as [|[c cfg] items Hskip _ IH]; intros st.
  - by exists st.
  - destruct (main_loop_skip w args c cfg items env st Hskip) as (st1 & -> & Hf & Hd & _).
    destruct (IH st1) as (st' & -> & Hf' & Hd'). exists st'. split; [done|].
    split; congruence.
Qed.

Lemma nothing_selected_returns_witness :
  ∃ st',
    main_loop sample_world
              {| base := ["r"; "base"]; overlay := ["r"; "overlays"];
                 temp := {| temp_path := ["tmp"; "w"]; system_temp := false |};
                 hydrated := ["r"; "output"]; output_subdir := SubdirGroup;
                 cluster_name := None; cluster_tag := Some {[ "dev" ]};
                 cluster_group := None |}
              [("c3", sample_cfg3); ("c1", sample_cfg1)] sample_env sample_started
    = (st', Returned)
    ∧ files st' = files sample_started ∧ dirs st' = dirs sample_started.
Proof.
  apply nothing_selected_returns. repeat constructor; vm_compute; reflexivity.
Defined.

(** ** What a step raises and what it keeps *)

Section raises.
Context {A : Type} (E : exn → Prop).

Lemma ro_ret (a : A) : raises_only (ret a) E.
Proof. intros st st' e Hrun. by injection Hrun. Qed.

Lemma ro_raise (e : exn) : E e → raises_only (raise (A:=A) e) E.
Proof. intros He st st' e' Hrun. by injection Hrun as _ <-. Qed.

Lemma ro_gets (f : State → A) : raises_only (gets f) E.
Proof. intros st st' e Hrun. by injection Hrun. Qed.

Lemma ro_bind {B} (m : M B) (f : B → M A) :
  raises_only m E → (∀ b, raises_only (f b) E) → raises_only (bind m f) E.
Proof.
  intros Hm Hf st st' e. unfold bind.
  destruct (m st) as [st1 [b|e1]] eqn:Hrun.
  - apply Hf.
  - intros Hrun'. injection Hrun' as _ <-. by eapply Hm.
Qed.

End raises.

Lemma ro_modify (E : exn → Prop) (f : State → State) : raises_only (modify f) E.
Proof. intros st st' e Hrun. by injection Hrun. Qed.

Lemma ro_for_each {A} (E : exn → Prop) (l : list A) (body : A → M unit) :
  (∀ x, raises_only (body x) E) → raises_only (for_each l body) E.
Proof.
  intros Hbody. induction l as [|x l IH]; simpl; [apply ro_ret|].
  apply ro_bind; [apply Hbody|]. intros _. apply IH.
Qed.

Ltac ro_leaf :=
  first [ apply ro_ret | apply ro_gets | apply ro_modify
        | apply ro_raise; naive_solver ].

Ltac ro_seq := apply ro_bind; [ro_leaf|intros _].

Section keeping.
Context {A X : Type} (f : State → X).

Lemma keeps_ret (a : A) : keeps f (ret a).
Proof. intros st st' r Hrun. by injection Hrun as <- _. Qed.

Lemma keeps_raise (e : exn) : keeps f (raise (A:=A) e).
Proof. intros st st' r Hrun. by injection Hrun as <- _. Qed.

Lemma keeps_gets (g : State → A) : keeps f (gets g).
Proof. intros st st' r Hrun. by injection Hrun as <- _. Qed.

Lemma keeps_bind {B} (m : M B) (k : B → M A) :
  keeps f m → (∀ b, keeps f (k b)) → keeps f (bind m k).
Proof.
  intros Hm Hk st st' r. unfold bind.
  destruct (m st) as [st1 [b|e]] eqn:Hrun.
  - intros Hrun'. rewrite (Hk b _ _ _ Hrun'). by eapply Hm.
  - intros Hrun'. injection Hrun' as <- _. by eapply Hm.
Qed.

End keeping.

Lemma keeps_modify {X} (f : State → X) (g : State → State) :
  (∀ st, f (g st) = f st) → keeps f (modify g).
Proof. intros Hg st st' r Hrun. injection Hrun as <- _. apply Hg. Qed.

Lemma keeps_for_each {A X} (f : State → X) (l : list A) (body : A → M unit) :
  (∀ x, keeps f (body x)) → keeps f (for_each l body).
Proof.
  intros Hbody. induction l as [|x l IH]; simpl; [apply keeps_ret|].
  apply keeps_bind; [apply Hbody|]. intros _. apply IH.
Qed.

Ltac keeps_leaf :=
  first [ apply keeps_ret | apply keeps_raise | apply keeps_gets
        | apply keeps_modify; done ].

Ltac keeps_seq := apply keeps_bind; [keeps_leaf|intros _].

Lemma ro_template_file (w : World) (tf : path) (cfg : pydict string string)
    (env : Environment) (del : bool) :
  raises_only (template_file w tf cfg env del) merge_exn.
Proof.
  unfold template_file, merge_exn, logger, set_files.
  destruct (relative_to tf (searchpath env)) as [rel|]; [|ro_leaf].
  ro_seq. apply ro_bind; [ro_leaf|intros found].
  destruct found as [src|]; [|ro_seq; ro_leaf].
  destruct (negb (jinja_compiles w src)); [ro_seq; ro_leaf|].
  ro_seq. ro_seq.
  destruct (render w env src cfg); [|ro_seq; ro_leaf|ro_leaf].
  ro_seq. ro_seq. destruct del; [|ro_leaf]. ro_seq. ro_leaf.
Qed.

Lemma ro_copy_file (w : World) (root nd : path) (cfg : pydict string string)
    (env : Environment) (tpl : bool) (file : string * string) :
  raises_only (copy_file w root nd cfg env tpl file) merge_exn.
Proof.
  unfold copy_file. apply ro_bind; [apply ro_modify|intros _].
  apply ro_bind; [|intros _].
  - destruct (copy2_fails w _ _); [apply ro_raise; unfold merge_exn; naive_solver|].
    apply ro_modify.
  - destruct (tpl && _); [apply ro_template_file|apply ro_ret].
Qed.

Lemma ro_copy_and_template (w : World) (base_dir overlay_dir dest_dir : path)
    (cfg : pydict string string) (env : Environment) (tpl : bool) :
  raises_only (copy_and_template w base_dir overlay_dir dest_dir cfg env tpl) merge_exn.
Proof.
  unfold copy_and_template. apply ro_bind; [|intros _; apply ro_modify].
  apply ro_for_each. intros [msg|[[root ds] fs]]; [apply ro_modify|].
  unfold copy_dir. destruct (next_dir_of _ _ _ _) as [nd|].
  - apply ro_bind; [ro_leaf|intros there].
    apply ro_bind; [|intros _; apply ro_for_each; intros; apply ro_copy_file].
    destruct there; [ro_leaf|]. unfold logger, mkdir_parents, set_dirs. ro_seq. ro_leaf.
  - apply ro_raise. unfold merge_exn. naive_solver.
Qed.

Lemma keeps_kustomize_template_file (w : World) (tf : path) (cfg : pydict string string)
    (env : Environment) (del : bool) :
  keeps kustomize (template_file w tf cfg env del).
Proof.
  unfold template_file, logger, set_files.
  destruct (relative_to tf (searchpath env)) as [rel|]; [|keeps_leaf].
  keeps_seq. apply keeps_bind; [keeps_leaf|intros found].
  destruct found as [src|]; [|keeps_seq; keeps_leaf].
  destruct (negb (jinja_compiles w src)); [keeps_seq; keeps_leaf|].
  keeps_seq. keeps_seq.
  destruct (render w env src cfg); [|keeps_seq; keeps_leaf|keeps_leaf].
  keeps_seq. keeps_seq. destruct del; [|keeps_leaf]. keeps_seq. keeps_leaf.
Qed.

(** The merge leaves the command override as it is. *)
Lemma keeps_kustomize_copy_and_template (w : World) (base_dir overlay_dir dest_dir : path)
    (cfg : pydict string string) (env : Environment) (tpl : bool) :
  keeps kustomize (copy_and_template w base_dir overlay_dir dest_dir cfg env tpl).
Proof.
  unfold copy_and_template. apply keeps_bind; [|intros _; by apply keeps_modify].
  apply keeps_for_each. intros [msg|[[root ds] fs]]; [by apply keeps_modify|].
  unfold copy_dir. destruct (next_dir_of _ _ _ _) as [nd|]; [|keeps_leaf].
  apply keeps_bind; [keeps_leaf|intros there].
  apply keeps_bind; [|intros _].
  { destruct there; [keeps_leaf|]. unfold logger, mkdir_parents, set_dirs.
    keeps_seq. keeps_leaf. }
  apply keeps_for_each. intros file. unfold copy_file, logger, set_files.
  keeps_seq. apply keeps_bind; [|intros _].
  - destruct (copy2_fails w _ _); keeps_leaf.
  - destruct (tpl && _); [apply keeps_kustomize_template_file|keeps_leaf].
Qed.

(** ** The build tool, for every return code *)

(** [wait_process] returns, whatever the return code, and logs the output
    once and then the line for the return code. *)
Lemma wait_process_run (polls : nat) :
  ∀ (orig_command full_path_to_cmd out : string) (rc : Z) (st : State),
    wait_process orig_command full_path_to_cmd out polls rc st
    = (mkState (files st) (dirs st) (finalizer st) (kustomize st)
               (log st ++ output_lines orig_command out
                       ++ status_lines full_path_to_cmd rc),
       Ok tt).
Proof.
  assert (∀ orig, output_lines orig "" = []) as Hnil by done.
  induction polls as [|polls IH]; intros orig full out rc [fs ds fin k lg];
    cbn [wait_process].
  - unfold output_lines, status_lines, bind, logger, modify, ret.
    destruct (decide (strip_newlines out = "")); destruct (decide (rc = 0));
      try destruct (decide (rc > 0)); cbn; by rewrite ?app_nil_r, <- ?app_assoc.
  - unfold bind at 1.
    assert (output_lines orig out
            = if decide (strip_newlines out = "") then []
              else [mkLog INFO (orig +:+ ": " +:+ strip_newlines out)]) as -> by done.
    destruct (decide (strip_newlines out = "")); cbn [ret logger modify];
      rewrite IH, Hnil; cbn; by rewrite ?app_nil_r, <- ?app_assoc.
Qed.

(** [run_kustomize] once the tool is found: what it does up to the start of
    the process. *)
Lemma run_kustomize_found (w : World) (output_dir overlay_dir : path)
    (cfg : pydict string string) (st : State) (cluster_name full : string) :
  dict_get "cluster_name" cfg = Some cluster_name →
  which w (List.hd "" (command_line (kustomize st) output_dir (cluster_name +:+ ".yaml")))
  = Some full →
  let command := full :: List.tl (command_line (kustomize st) output_dir
                                               (cluster_name +:+ ".yaml")) in
  let orig := List.hd "" (command_line (kustomize st) output_dir
                                       (cluster_name +:+ ".yaml")) in
  let st1 := mkState (files st) (dirs st) (finalizer st)
                     (if truthy (kustomize st) then command else kustomize st)
                     (log st ++ [mkLog DEBUG ("Running '" +:+ join " " command +:+ "'");
                                 mkLog INFO ("Running " +:+ full)]) in
  run_kustomize w output_dir overlay_dir cfg st
  = if bool_decide (overlay_dir ∈ dirs st) then
      match popen w command overlay_dir with
      | Some p => wait_process orig full (stdout p) (polls p) (returncode p) st1
      | None => (st1, Raise OSError)
      end
    else (st1, Raise OSError).
Proof.
  intros Hname Hwhich command orig st1. unfold run_kustomize. rewrite Hname.
  unfold bind at 1. cbn [gets]. rewrite Hwhich.
  destruct st as [fs ds fin k lg]. cbn [kustomize files dirs finalizer log] in *.
  subst st1 command orig. cbn [kustomize files dirs finalizer log].
  destruct (truthy k); unfold bind, set_kustomize, logger, modify, gets, ret, raise;
    cbn [kustomize files dirs finalizer log]; rewrite <- !app_assoc; cbn [app];
    destruct (bool_decide (overlay_dir ∈ ds)); cbn [negb]; try done;
    by destruct (popen w _ overlay_dir).
Qed.

(** X6. Once the build tool has been found and started, [run_kustomize]
    returns without raising for every return code. It logs the command, the
    output of the tool when there is some, and one line for the return code:
    at level INFO for 0, at level ERROR above 0, and nothing at all below 0
    (a tool ended by a signal goes unreported). The files and directories of
    the temporary directory are as they were. *)
Theorem run_kustomize_every_return_code (w : World) (output_dir overlay_dir : path)
    (cfg : pydict string string) (st : State) (cluster_name full : string) (p : Process) :
  dict_get "cluster_name" cfg = Some cluster_name →
  which w (List.hd "" (command_line (kustomize st) output_dir (cluster_name +:+ ".yaml")))
  = Some full →
  overlay_dir ∈ dirs st →
  popen w (full :: List.tl (command_line (kustomize st) output_dir
                                         (cluster_name +:+ ".yaml")))
        overlay_dir = Some p →
  ∃ st', run_kustomize w output_dir overlay_dir cfg st = (st', Ok tt)
    ∧ files st' = files st ∧ dirs st' = dirs st
    ∧ log st'
      = log st
        ++ [mkLog DEBUG ("Running '"
                         +:+ join " " (full :: List.tl (command_line (kustomize st) output_dir
                                                          (cluster_name +:+ ".yaml")))
                         +:+ "'");
            mkLog INFO ("Running " +:+ full)]
        ++ output_lines (List.hd "" (command_line (kustomize st) output_dir
                                                  (cluster_name +:+ ".yaml")))
                        (stdout p)
        ++ (if decide (returncode p = 0) then
              [mkLog INFO (full +:+ " completed successfully with exitcode "
                           +:+ pretty (returncode p))]
            else if decide (returncode p > 0) then
              [mkLog ERROR (full +:+ " exited with " +:+ pretty (returncode p))]
            else []).
Proof.
  intros Hname Hwhich Hcwd Hpopen.
  rewrite (run_kustomize_found w output_dir overlay_dir cfg st cluster_name full Hname Hwhich).
  rewrite bool_decide_eq_true_2 by done. rewrite Hpopen, wait_process_run.
  eexists. split; [reflexivity|]. cbn [files dirs log]. repeat split.
  by rewrite <- !app_assoc.
Qed.

Lemma run_kustomize_every_return_code_witness :
  let w := {| source := λ _, None; copy2_fails := λ _ _, false; jinja_compiles := λ _, true;
              jinja_eval := λ _ _, TemplateError;
              which := λ c, Some ("/usr/bin/" +:+ c);
              popen := λ _ _, Some {| stdout := ""; polls := 1; returncode := -9 |} |} in
  let st := mkState ∅ {[ ["tmp"; "w"; "overlays"; "g1"] ]} false [] [] in
  ∃ st',
    run_kustomize w ["r"; "output"; "g1"] ["tmp"; "w"; "overlays"; "g1"] sample_cfg1 st
    = (st', Ok tt)
    ∧ files st' = files st ∧ dirs st' = dirs st
    ∧ log st' = [mkLog DEBUG "Running '/usr/bin/kustomize build . -o /r/output/g1/c1.yaml'";
                 mkLog INFO "Running /usr/bin/kustomize"].
Proof.
  intros w st.
  destruct (run_kustomize_every_return_code w ["r"; "output"; "g1"]
              ["tmp"; "w"; "overlays"; "g1"] sample_cfg1 st "c1" "/usr/bin/kustomize"
              {| stdout := ""; polls := 1; returncode := -9 |})
    as (st' & Hrun & Hfiles & Hdirs & Hlog).
  - reflexivity.
  - reflexivity.
  - cbn [dirs st]. apply elem_of_singleton_2. reflexivity.
  - reflexivity.
  - exists st'. split; [exact Hrun|]. split; [exact Hfiles|]. split; [exact Hdirs|].
    rewrite Hlog. reflexivity.
Defined.

(** X7. A command override is changed in place: whatever [run_kustomize] does
    after it has found the executable (also when the process cannot be
    started), the first word of the list held by [args.kustomize] is from then
    on the path found, so that the next cluster looks that path up. Without an
    override the list stays empty. *)
Theorem command_override_resolved_in_place (w : World) (output_dir overlay_dir : path)
    (cfg : pydict string string) (st st' : State) (r : result unit)
    (cluster_name full : string) :
  dict_get "cluster_name" cfg = Some cluster_name →
  which w (List.hd "" (command_line (kustomize st) output_dir (cluster_name +:+ ".yaml")))
  = Some full →
  run_kustomize w output_dir overlay_dir cfg st = (st', r) →
  kustomize st' = match kustomize st with
                  | [] => []
                  | _ :: arguments => full :: arguments
                  end.
Proof.
  intros Hname Hwhich.
  rewrite (run_kustomize_found w output_dir overlay_dir cfg st cluster_name full Hname Hwhich).
  assert ((if truthy (kustomize st)
           then full :: List.tl (command_line (kustomize st) output_dir
                                              (cluster_name +:+ ".yaml"))
           else kustomize st)
          = match kustomize st with [] => [] | _ :: arguments => full :: arguments end)
    as Hcmd.
  { unfold command_line. by destruct (kustomize st). }
  destruct (bool_decide (overlay_dir ∈ dirs st)).
  - destruct (popen w _ overlay_dir) as [p|].
    + rewrite wait_process_run. intros [= <- _]. exact Hcmd.
    + intros [= <- _]. exact Hcmd.
  - intros [= <- _]. exact Hcmd.
Qed.

Lemma command_override_resolved_in_place_witness :
  kustomize (run_kustomize sample_world ["r"; "output"; "g1"] ["tmp"; "w"; "overlays"; "g1"]
               sample_cfg1
               (mkState ∅ ∅ false ["kustomize"; "build"; "--enable-helm"; "."] [])).1
  = match ["kustomize"; "build"; "--enable-helm"; "."] with
    | [] => []
    | _ :: arguments => "/usr/bin/kustomize" :: arguments
    end.
Proof.
  apply (command_override_resolved_in_place sample_world ["r"; "output"; "g1"]
           ["tmp"; "w"; "overlays"; "g1"] sample_cfg1
           (mkState ∅ ∅ false ["kustomize"; "build"; "--enable-helm"; "."] [])
           _ (run_kustomize sample_world ["r"; "output"; "g1"] ["tmp"; "w"; "overlays"; "g1"]
                sample_cfg1
                (mkState ∅ ∅ false ["kustomize"; "build"; "--enable-helm"; "."] [])).2
           "c1" "/usr/bin/kustomize").
  - reflexivity.
  - reflexivity.
  - vm_compute. reflexivity.
Defined.

(** What [run_kustomize] does when the tool is not found. *)
Lemma run_kustomize_not_found (w : World) (output_dir overlay_dir : path)
    (cfg : pydict string string) (st : State) (cluster_name : string) :
  dict_get "cluster_name" cfg = Some cluster_name →
  which w (List.hd "" (command_line (kustomize st) output_dir (cluster_name +:+ ".yaml")))
  = None →
  run_kustomize w output_dir overlay_dir cfg st
  = (mkState (files st) (dirs st) (finalizer st) (kustomize st)
             (log st ++ [mkLog ERROR
                           ("Could not find "
                            +:+ List.hd "" (command_line (kustomize st) output_dir
                                                         (cluster_name +:+ ".yaml"))
                            +:+ " in the path")]),
     Raise RuntimeError).
Proof.
  intros Hname Hwhich. unfold run_kustomize. rewrite Hname.
  unfold bind at 1. cbn [gets]. by rewrite Hwhich.
Qed.

(** X8. Of the exceptions the program raises itself, [process_cluster]
    raises [RuntimeError], the one that makes the loop stop the batch with
    status 1, in one case only: the merge has returned and the executable of
    the build command is not on the search path. In particular no failure of
    the merge or of a template, and no return code of the tool, stops the
    batch that way. *)
Theorem runtime_error_means_tool_not_found (w : World) (args : Args)
    (cfg : pydict string string) (env : Environment) (osub : OutputSubdir)
    (st st' : State) :
  process_cluster w args cfg env osub st = (st', Raise RuntimeError) →
  ∃ cluster_name group st2,
    dict_get "cluster_name" cfg = Some cluster_name
    ∧ dict_get "cluster_group" cfg = Some group
    ∧ copy_and_template w (base args) (joinpath (overlay args) group)
                        (temp_path (temp args)) cfg env true st = (st2, Ok tt)
    ∧ which w (List.hd "" (command_line (kustomize st)
                             (hydrated_dest args osub cluster_name group)
                             (cluster_name +:+ ".yaml"))) = None.
Proof.
  unfold process_cluster.
  destruct (dict_get "cluster_group" cfg) as [group|]; [|by intros [=]].
  destruct (source w (joinpath (overlay args) group)) as [t|]; [|by intros [=]].
  unfold bind at 1.
  destruct (copy_and_template w (base args) (joinpath (overlay args) group)
              (temp_path (temp args)) cfg env true st) as [st2 [[]|e]] eqn:Hmerge.
  - destruct (dict_get "cluster_name" cfg) as [cluster_name|] eqn:Hname; [|by intros [=]].
    intros Hbuild. exists cluster_name, group, st2. repeat split; try done.
    rewrite <- (keeps_kustomize_copy_and_template _ _ _ _ _ _ _ _ _ _ Hmerge).
    destruct (which w (List.hd "" (command_line (kustomize st2)
                                     (hydrated_dest args osub cluster_name group)
                                     (cluster_name +:+ ".yaml")))) as [full|] eqn:Hwhich;
      [|done].
    rewrite (run_kustomize_found w _ _ cfg st2 cluster_name full Hname Hwhich) in Hbuild.
    destruct (bool_decide _); [|by injection Hbuild].
    destruct (popen w _ _); [|by injection Hbuild].
    by rewrite wait_process_run in Hbuild.
  - intros [= <- ->]. apply ro_copy_and_template in Hmerge.
    unfold merge_exn in Hmerge. naive_solver.
Qed.

Lemma runtime_error_means_tool_not_found_witness :
  ∃ cluster_name group st2,
    dict_get "cluster_name" sample_cfg1 = Some cluster_name
    ∧ dict_get "cluster_group" sample_cfg1 = Some group
    ∧ copy_and_template sample_world (base sample_args) (joinpath (overlay sample_args) group)
                        (temp_path (temp sample_args)) sample_cfg1 sample_env true
                        (mkState ∅ ∅ false ["missing-tool"] []) = (st2, Ok tt)
    ∧ which sample_world
            (List.hd "" (command_line (kustomize (mkState ∅ ∅ false ["missing-tool"] []))
                           (hydrated_dest sample_args SubdirGroup cluster_name group)
                           (cluster_name +:+ ".yaml"))) = None.
Proof.
  apply (runtime_error_means_tool_not_found sample_world sample_args sample_cfg1 sample_env
           SubdirGroup (mkState ∅ ∅ false ["missing-tool"] [])
           (process_cluster sample_world sample_args sample_cfg1 sample_env SubdirGroup
              (mkState ∅ ∅ false ["missing-tool"] [])).1).
  vm_compute. reflexivity.
Defined.

(** ** Templates that render, and templates that cannot be loaded *)

(** What [template_file] does to a template that compiles and renders. *)
Lemma template_file_rendered (w : World) (tf : path) (cfg : pydict string string)
    (env : Environment) (del : bool) (st : State) (src : string) (cs : list chunk) :
  is_Some (relative_to tf (searchpath env)) →
  files st !! tf = Some src →
  jinja_compiles w src = true →
  jinja_eval w src cfg = Rendered cs →
  ∃ st', template_file w tf cfg env del st = (st', Ok tt)
    ∧ files st'
      = (if del then delete tf else id)
          (<[joinpath (parent tf) (stem (name tf)) := concat_chunks env cs]> (files st))
    ∧ dirs st' = dirs st.
Proof.
  intros [rel Hrel] Hsrc Hcomp Heval. unfold template_file. rewrite Hrel.
  apply relative_to_Some in Hrel.
  unfold bind at 1. cbn [logger modify]. unfold bind at 1. cbn [gets files].
  rewrite Hrel, Hsrc, Hcomp. cbn [negb].
  unfold render. rewrite Heval.
  destruct del; (eexists; split; [reflexivity|]); cbn; by rewrite insert_insert_eq.
Qed.

(** X9. A template that compiles and renders: [template_file] writes the
    rendered text to the file of the same name without the marker suffix,
    removes the template when asked to and keeps it otherwise, and changes no
    other file. *)
Theorem template_rendered_and_removed (w : World) (tf : path)
    (cfg : pydict string string) (env : Environment) (del : bool) (st : State)
    (src : string) (cs : list chunk) :
  is_jinja_template tf = true →
  is_Some (relative_to tf (searchpath env)) →
  files st !! tf = Some src →
  jinja_compiles w src = true →
  jinja_eval w src cfg = Rendered cs →
  ∃ st', template_file w tf cfg env del st = (st', Ok tt)
    ∧ files st' !! joinpath (parent tf) (stem (name tf)) = Some (concat_chunks env cs)
    ∧ files st' !! tf = (if del then None else Some src)
    ∧ ∀ d, d ≠ tf → d ≠ joinpath (parent tf) (stem (name tf)) →
           files st' !! d = files st !! d.
Proof.
  intros Htpl Hrel Hsrc Hcomp Heval.
  destruct (template_file_rendered w tf cfg env del st src cs)
    as (st' & Hrun & Hfiles & _); try done.
  assert (joinpath (parent tf) (stem (name tf)) ≠ tf) as Hout.
  { apply template_path_split in Htpl as [Hsplit Hsuffix].
    intros Heq. rewrite Hsplit in Heq at 3.
    apply app_inj_tail in Heq as [_ Heq]. by apply template_stem_ne in Hsuffix. }
  exists st'. split; [done|]. rewrite Hfiles. destruct del; cbn [id].
  - split; [by rewrite lookup_delete_ne, lookup_insert_eq|].
    split; [by rewrite lookup_delete_eq|].
    intros d Hd1 Hd2. by rewrite lookup_delete_ne, lookup_insert_ne.
  - split; [by rewrite lookup_insert_eq|].
    split; [by rewrite lookup_insert_ne|].
    intros d Hd1 Hd2. by rewrite lookup_insert_ne.
Qed.

Lemma template_rendered_and_removed_witness :
  let tf := ["tmp"; "w"; "overlays"; "g1"; "deployment.yaml.j2"] in
  let st := mkState {[ tf := "name: {{ cluster_name }}" ]} ∅ false [] [] in
  ∃ st', template_file sample_world tf sample_cfg1 sample_env true st = (st', Ok tt)
    ∧ files st' !! joinpath (parent tf) (stem (name tf))
      = Some (concat_chunks sample_env [Markup "name: "; Value "c1"])
    ∧ files st' !! tf = (if true then None else Some "name: {{ cluster_name }}")
    ∧ ∀ d, d ≠ tf → d ≠ joinpath (parent tf) (stem (name tf)) →
           files st' !! d = files st !! d.
Proof.
  intros tf st.
  apply (template_rendered_and_removed sample_world tf sample_cfg1 sample_env true st
           "name: {{ cluster_name }}" [Markup "name: "; Value "c1"]).
  - reflexivity.
  - vm_compute. eauto.
  - vm_compute. reflexivity.
  - reflexivity.
  - reflexivity.
Defined.

(** What [template_file] does to a template that cannot be loaded. *)
Lemma template_file_not_loaded (w : World) (tf : path)
    (cfg : pydict string string) (env : Environment) (del : bool) (st : State) :
  is_Some (relative_to tf (searchpath env)) →
  match files st !! tf with
  | Some src => jinja_compiles w src = false
  | None => True
  end →
  ∃ st', template_file w tf cfg env del st = (st', Raise RuntimeWarning)
    ∧ files st' = files st ∧ dirs st' = dirs st.
Proof.
  intros [rel Hrel] Hload. unfold template_file. rewrite Hrel.
  apply relative_to_Some in Hrel.
  unfold bind at 1. cbn [logger modify]. unfold bind at 1. cbn [gets files].
  rewrite Hrel. destruct (files st !! tf) as [src|].
  - rewrite Hload. eexists. split; [reflexivity|done].
  - eexists. split; [reflexivity|done].
Qed.

(** X10. A template that cannot be loaded, because the file is not there or
    because it does not compile, makes [template_file] raise
    [RuntimeWarning] before the output file is opened: no file is created,
    changed or removed. *)
Theorem template_load_failure_writes_nothing (w : World) (tf : path)
    (cfg : pydict string string) (env : Environment) (del : bool) (st : State) :
  is_Some (relative_to tf (searchpath env)) →
  match files st !! tf with
  | Some src => jinja_compiles w src = false
  | None => True
  end →
  ∃ st', template_file w tf cfg env del st = (st', Raise RuntimeWarning)
    ∧ files st' = files st ∧ dirs st' = dirs st.
Proof. apply template_file_not_loaded. Qed.

Lemma template_load_failure_writes_nothing_witness :
  ∃ st',
    template_file sample_world ["tmp"; "w"; "missing.yaml.j2"] sample_cfg1 sample_env true
                  sample_state = (st', Raise RuntimeWarning)
    ∧ files st' = files sample_state ∧ dirs st' = dirs sample_state.
Proof.
  apply (template_load_failure_writes_nothing sample_world ["tmp"; "w"; "missing.yaml.j2"]
           sample_cfg1 sample_env true sample_state).
  - vm_compute. eauto.
  - vm_compute. exact I.
Defined.

(** X11. A name is the name of a template exactly when it is a stem that is
    not empty followed by [.j2]; the stem is then what is left without the
    marker. A file named [.j2] alone is not a template. *)
Theorem template_names (n : string) :
  (suffix n = ".j2" ↔ ∃ s, s ≠ "" ∧ n = s +:+ ".j2")
  ∧ (∀ s, s ≠ "" → stem (s +:+ ".j2") = s).
Proof.
  assert (∀ s, rfind "." (s +:+ ".j2") = Some (String.length s)) as Hrfind.
  { induction s as [|a s IH]; [done|].
    change (String a s +:+ ".j2") with (String a (s +:+ ".j2")).
    cbn [rfind String.length]. by rewrite IH. }
  assert (∀ s, s ≠ "" → suffix (s +:+ ".j2") = ".j2" ∧ stem (s +:+ ".j2") = s) as Hboth.
  { intros s Hs. unfold suffix, stem. rewrite Hrfind, length_append. cbn [String.length].
    assert ((0 <? String.length s)%nat = true) as ->.
    { apply Nat.ltb_lt. destruct s; [done|]. cbn. lia. }
    assert ((String.length s <? String.length s + 3 - 1)%nat = true) as ->
      by (apply Nat.ltb_lt; lia).
    cbn [andb].
    replace (String.length s + 3 - String.length s)%nat with 3%nat by lia.
    clear. split.
    - induction s as [|a s IH]; [done|]. exact IH.
    - induction s as [|a s IH]; [done|].
      change (String a s +:+ ".j2") with (String a (s +:+ ".j2")).
      cbn [String.length substring]. by rewrite IH. }
  split; [split|].
  - intros Hsuffix. exists (stem n). split; [|by apply template_name_stem].
    intros Hstem. apply template_name_stem in Hsuffix. rewrite Hstem in Hsuffix.
    by subst n.
  - intros (s & Hs & ->). by apply Hboth.
  - intros s Hs. by apply Hboth.
Qed.

(** ** The merge, file by file *)

Section copy_of_a_file.
Context (w : World) (base_dir overlay_dir dest_dir : path)
  (cfg : pydict string string) (env : Environment) (tpl : bool).
Context (root mirror : path) (t : tree).
Hypothesis mirrored :
  ∀ sub, next_dir_of base_dir overlay_dir dest_dir (root ++ sub) = Some (mirror ++ sub).

(** A walk that returns has run [copy_file] on every file of the tree, and
    what that call left at a name of the directory is still there at the end
    when no other file of the directory is copied or rendered to that name. *)
Lemma walk_tree_copy_file (sub : path) (n y : string) (st st' : State) :
  wf_tree t = true →
  tree_lookup t (sub ++ [n]) = Some (File y) →
  for_each (walk root t) (copy_dir w base_dir overlay_dir dest_dir cfg env tpl) st
  = (st', Ok tt) →
  ∃ st1 st2,
    copy_file w (root ++ sub) (mirror ++ sub) cfg env tpl (n, y) st1 = (st2, Ok tt)
    ∧ ∀ m, (∀ n' c, n' ≠ n → tree_lookup t (sub ++ [n']) = Some (File c) →
              m ≠ n' ∧ (tpl = true → suffix n' = ".j2" → m ≠ stem n')) →
           files st' !! joinpath (mirror ++ sub) m = files st2 !! joinpath (mirror ++ sub) m.
Proof.
  intros Hwf Hlook Hrun.
  destruct (tree_lookup_walk sub t root n y Hwf Hlook)
    as (ds & fs & Hentry & Hfile & Hnd & Hall).
  pose proof (walk_roots_NoDup t root Hwf) as Hroots.
  pose proof (walk_roots_below t root) as Hbelow.
  apply list_elem_of_split in Hentry as (entries1 & entries2 & Hsplit).
  rewrite Hsplit in Hrun, Hroots, Hbelow.
  rewrite for_each_app in Hrun.
  apply bind_inv_ok in Hrun as (sta & [] & _ & Hrun). simpl in Hrun.
  apply bind_inv_ok in Hrun as (stb & [] & Hdir & Hrest).
  unfold copy_dir in Hdir. rewrite mirrored in Hdir.
  apply bind_inv_ok in Hdir as (stc & there & _ & Hdir).
  apply bind_inv_ok in Hdir as (std & [] & _ & Hdir).
  apply list_elem_of_split in Hfile as (fs1 & fs2 & ->).
  rewrite for_each_app in Hdir.
  apply bind_inv_ok in Hdir as (st1 & [] & _ & Hdir). simpl in Hdir.
  apply bind_inv_ok in Hdir as (st2 & [] & Hcopy & Hfiles).
  exists st1, st2. split; [exact Hcopy|]. intros m Hm.
  transitivity (files stb !! joinpath (mirror ++ sub) m).
  - assert (modifies_only
              (for_each entries2 (copy_dir w base_dir overlay_dir dest_dir cfg env tpl))
              (λ d, ∃ e nd' x, e ∈ entries2
                    ∧ next_dir_of base_dir overlay_dir dest_dir e.1.1 = Some nd'
                    ∧ d = joinpath nd' x)) as Hframe.
    { apply mo_for_each. intros e He.
      eapply mo_weaken; [|apply mo_copy_dir]. intros d (nd' & x & ? & ?).
      by exists e, nd', x. }
    apply (Hframe _ _ _ Hrest).
    intros (e & nd' & x & He & Hnext & Heq).
    apply app_inj_tail in Heq as [<- _].
    destruct (Hbelow e) as [sub' Hsub']; [apply elem_of_app; right; by right|].
    rewrite Hsub', mirrored in Hnext.
    injection Hnext as Hnext%app_inv_head. subst sub'.
    unfold roots in Hroots. rewrite fmap_app, fmap_cons in Hroots. cbn [fst] in Hroots.
    apply NoDup_app in Hroots as (_ & _ & Hroots).
    apply NoDup_cons in Hroots as [Hnotin _]. apply Hnotin.
    apply list_elem_of_fmap. by exists e.
  - assert (modifies_only
              (for_each fs2 (copy_file w (root ++ sub) (mirror ++ sub) cfg env tpl))
              (λ d, ∃ file, file ∈ fs2
                    ∧ (d = joinpath (mirror ++ sub) file.1
                       ∨ (tpl = true ∧ suffix file.1 = ".j2"
                          ∧ d = joinpath (mirror ++ sub) (stem file.1))))) as Hframe.
    { apply mo_for_each. intros file Hfile.
      eapply mo_weaken; [|apply mo_copy_file]. intros d Hd. by exists file. }
    apply (Hframe _ _ _ Hfiles).
    intros ([n' c] & Hfile & Hd). cbn [fst] in Hd.
    assert (n' ≠ n) as Hne.
    { rewrite fmap_app, fmap_cons in Hnd. apply NoDup_app in Hnd as (_ & _ & Hnd).
      apply NoDup_cons in Hnd as [Hnotin _]. cbn [fst] in Hnotin.
      intros ->. apply Hnotin. apply list_elem_of_fmap. by exists (n, c). }
    destruct (Hm n' c Hne) as [Hm1 Hm2].
    { apply Hall. apply elem_of_app. right. by right. }
    destruct Hd as [Heq|(Htpl & Hsuffix & Heq)]; apply joinpath_inj in Heq; naive_solver.
Qed.

End copy_of_a_file.

(** What a call of [template_file] that returned has done, read off the
    template it found. *)
Lemma template_file_ok_inv (w : World) (tf : path) (cfg : pydict string string)
    (env : Environment) (del : bool) (st st' : State) (src : string) (cs : list chunk) :
  template_file w tf cfg env del st = (st', Ok tt) →
  files st !! tf = Some src →
  jinja_eval w src cfg = Rendered cs →
  files st'
  = (if del then delete tf else id)
      (<[joinpath (parent tf) (stem (name tf)) := concat_chunks env cs]> (files st)).
Proof.
  intros Hrun Hsrc Heval.
  destruct (relative_to tf (searchpath env)) as [rel|] eqn:Hrel.
  - destruct (jinja_compiles w src) eqn:Hcomp.
    + destruct (template_file_rendered w tf cfg env del st src cs)
        as (st'' & Hrun' & Hfiles & _); try done.
      rewrite Hrun in Hrun'. by injection Hrun' as <-.
    + destruct (template_file_not_loaded w tf cfg env del st)
        as (st'' & Hrun' & _); [done|by rewrite Hsrc|].
      by rewrite Hrun in Hrun'.
  - unfold template_file in Hrun. by rewrite Hrel in Hrun.
Qed.

(** X12. The merge renders the templates of the overlay: when
    [copy_and_template] has returned with templating on, a template of the
    overlay tree has given, below the copy of the overlay directory, a file
    of the same name without the marker that holds the rendered text, and
    the template itself is not there. The directory of the template must hold
    neither a file of the name of the output nor a template of the name of
    the template followed by the marker. *)
Theorem merge_renders_overlay_template (w : World) (base_dir overlay_dir dest_dir od : path)
    (cfg : pydict string string) (env : Environment)
    (to : tree) (sub : path) (n src : string) (cs : list chunk) (st st' : State) :
  source w overlay_dir = Some to →
  wf_tree to = true →
  ¬ overlay_dir `prefix_of` base_dir →
  next_dir_of base_dir overlay_dir dest_dir overlay_dir = Some od →
  tree_lookup to (sub ++ [n]) = Some (File src) →
  suffix n = ".j2" →
  (∀ c, tree_lookup to (sub ++ [stem n]) ≠ Some (File c)) →
  (∀ c, tree_lookup to (sub ++ [n +:+ ".j2"]) ≠ Some (File c)) →
  jinja_eval w src cfg = Rendered cs →
  copy_and_template w base_dir overlay_dir dest_dir cfg env true st = (st', Ok tt) →
  files st' !! (od ++ sub ++ [stem n]) = Some (concat_chunks env cs)
  ∧ files st' !! (od ++ sub ++ [n]) = None.
Proof.
  intros Hover Hwf Hout Hod Hlook Hsuffix Hstem Hmarker Heval Hrun.
  unfold copy_and_template in Hrun.
  apply bind_inv_ok in Hrun as (st4 & [] & Hrun & Hlog). injection Hlog as <-. cbn [files].
  rewrite for_each_app in Hrun. apply bind_inv_ok in Hrun as (sta & [] & _ & Hrun).
  rewrite for_each_app in Hrun. apply bind_inv_ok in Hrun as (stb & [] & _ & Hrun).
  rewrite for_each_app in Hrun. apply bind_inv_ok in Hrun as (stc & [] & _ & Hwalk).
  rewrite for_each_fmap in Hwalk. unfold walk_path in Hwalk. rewrite Hover in Hwalk.
  assert (∀ sub', next_dir_of base_dir overlay_dir dest_dir (overlay_dir ++ sub')
                  = Some (od ++ sub')) as Hmirror
    by (intros; by apply next_dir_of_below).
  destruct (walk_tree_copy_file w base_dir overlay_dir dest_dir cfg env true overlay_dir od to
              Hmirror sub n src stc st4 Hwf Hlook Hwalk) as (st1 & st2 & Hcopy & Hlater).
  assert (files st2 !! joinpath (od ++ sub) (stem n) = Some (concat_chunks env cs)
          ∧ files st2 !! joinpath (od ++ sub) n = None) as [Hout2 Htpl2].
  { unfold copy_file in Hcopy. rewrite !name_joinpath in Hcopy. cbn [fst snd] in Hcopy.
    assert (is_jinja_template (joinpath (od ++ sub) n) = true) as Hjinja.
    { unfold is_jinja_template. rewrite name_joinpath. by apply bool_decide_eq_true. }
    rewrite Hjinja in Hcopy. cbn [andb] in Hcopy.
    apply bind_inv_ok in Hcopy as (s1 & [] & _ & Hcopy).
    apply bind_inv_ok in Hcopy as (s2 & [] & Hwrite & Hcopy).
    assert (files s2 !! joinpath (od ++ sub) n = Some src) as Hthere.
    { destruct (copy2_fails w _ _); [done|]. injection Hwrite as <-. cbn.
      apply lookup_insert_eq. }
    rewrite (template_file_ok_inv _ _ _ _ _ _ _ _ _ Hcopy Hthere Heval).
    rewrite parent_joinpath, name_joinpath.
    assert (joinpath (od ++ sub) (stem n) ≠ joinpath (od ++ sub) n) as Hne.
    { intros Heq%joinpath_inj. by apply template_stem_ne in Hsuffix. }
    split; [by rewrite lookup_delete_ne, lookup_insert_eq|by rewrite lookup_delete_eq]. }
  rewrite !app_assoc. fold (joinpath (od ++ sub) (stem n)). fold (joinpath (od ++ sub) n).
  split.
  - rewrite Hlater; [done|]. intros n' c Hne Hfile. split.
    + intros Heq. apply (Hstem c). by rewrite Heq.
    + intros _ Hsuffix' Heq. apply Hne.
      by rewrite (template_name_stem n' Hsuffix'), (template_name_stem n Hsuffix), Heq.
  - rewrite Hlater; [done|]. intros n' c Hne Hfile. split; [done|].
    intros _ Hsuffix' Heq. apply (Hmarker c).
    by rewrite Heq, <- (template_name_stem n' Hsuffix').
Qed.

Lemma merge_renders_overlay_template_witness :
  let st' := (copy_and_template sample_world ["r"; "base"] ["r"; "overlays"; "g1"]
                ["tmp"; "w"] sample_cfg1 sample_env true sample_state).1 in
  files st' !! (["tmp"; "w"; "overlays"; "g1"] ++ [] ++ [stem "deployment.yaml.j2"])
  = Some (concat_chunks sample_env [Markup "name: "; Value "c1"])
  ∧ files st' !! (["tmp"; "w"; "overlays"; "g1"] ++ [] ++ ["deployment.yaml.j2"]) = None.
Proof.
  apply (merge_renders_overlay_template sample_world ["r"; "base"] ["r"; "overlays"; "g1"]
           ["tmp"; "w"] ["tmp"; "w"; "overlays"; "g1"] sample_cfg1 sample_env
           (Dir [("config.yaml", File "Y");
                 ("deployment.yaml.j2", File "name: {{ cluster_name }}")])
           [] "deployment.yaml.j2" "name: {{ cluster_name }}"
           [Markup "name: "; Value "c1"] sample_state).
  - reflexivity.
  - reflexivity.
  - intros [k Hk]. discriminate Hk.
  - reflexivity.
  - reflexivity.
  - reflexivity.
  - intros c. vm_compute. discriminate.
  - intros c. vm_compute. discriminate.
  - reflexivity.
  - vm_compute. reflexivity.
Defined.

(** X13. The merge copies the files that only the overlay has: once
    [copy_and_template] has returned, every plain file of the overlay tree is
    found below the copy of the overlay directory at its relative path, with
    its content, whether the base tree exists or not and whatever it holds. *)
Theorem merge_copies_overlay_file (w : World) (base_dir overlay_dir dest_dir od : path)
    (cfg : pydict string string) (env : Environment) (tpl : bool)
    (to : tree) (sub : path) (n y : string) (st st' : State) :
  source w overlay_dir = Some to →
  wf_tree to = true →
  ¬ overlay_dir `prefix_of` base_dir →
  next_dir_of base_dir overlay_dir dest_dir overlay_dir = Some od →
  tree_lookup to (sub ++ [n]) = Some (File y) →
  (tpl = true →
     suffix n ≠ ".j2" ∧ ∀ c, tree_lookup to (sub ++ [n +:+ ".j2"]) ≠ Some (File c)) →
  copy_and_template w base_dir overlay_dir dest_dir cfg env tpl st = (st', Ok tt) →
  files st' !! (od ++ sub ++ [n]) = Some y.
Proof.
  intros Hover Hwf Hout Hod Hlook Hplain Hrun.
  unfold copy_and_template in Hrun.
  apply bind_inv_ok in Hrun as (st4 & [] & Hrun & Hlog). injection Hlog as <-. cbn [files].
  rewrite for_each_app in Hrun. apply bind_inv_ok in Hrun as (sta & [] & _ & Hrun).
  rewrite for_each_app in Hrun. apply bind_inv_ok in Hrun as (stb & [] & _ & Hrun).
  rewrite for_each_app in Hrun. apply bind_inv_ok in Hrun as (stc & [] & _ & Hwalk).
  rewrite for_each_fmap in Hwalk. unfold walk_path in Hwalk. rewrite Hover in Hwalk.
  apply (walk_tree_writes w base_dir overlay_dir dest_dir cfg env tpl overlay_dir od to
           (λ sub', next_dir_of_below _ _ _ od sub' Hout Hod) sub n y stc st4); done.
Qed.

Lemma merge_copies_overlay_file_witness :
  files (copy_and_template sample_world ["r"; "nowhere"] ["r"; "overlays"; "g1"] ["tmp"; "w"]
           sample_cfg1 sample_env true sample_state).1
    !! (["tmp"; "w"; "overlays"; "g1"] ++ [] ++ ["config.yaml"]) = Some "Y".
Proof.
  apply (merge_copies_overlay_file sample_world ["r"; "nowhere"] ["r"; "overlays"; "g1"]
           ["tmp"; "w"] ["tmp"; "w"; "overlays"; "g1"] sample_cfg1 sample_env true
           (Dir [("config.yaml", File "Y");
                 ("deployment.yaml.j2", File "name: {{ cluster_name }}")])
           [] "config.yaml" "Y" sample_state).
  - reflexivity.
  - reflexivity.
  - intros [k Hk]. discriminate Hk.
  - reflexivity.
  - reflexivity.
  - intros _. split; [vm_compute; discriminate|]. intros c. vm_compute. discriminate.
  - vm_compute. reflexivity.
Defined.

(** The walk of the overlay changes nothing outside the copy of the overlay
    directory. *)
Lemma mo_overlay_walk (w : World) (base_dir overlay_dir dest_dir od : path)
    (cfg : pydict string string) (env : Environment) (tpl : bool) :
  ¬ overlay_dir `prefix_of` base_dir →
  next_dir_of base_dir overlay_dir dest_dir overlay_dir = Some od →
  modifies_only
    (for_each (walk_path w overlay_dir)
              (copy_dir w base_dir overlay_dir dest_dir cfg env tpl))
    (λ d, ∃ sub x, d = joinpath (od ++ sub) x).
Proof.
  intros Hout Hod. unfold walk_path. destruct (source w overlay_dir) as [to|].
  - apply mo_walk. intros sub. by apply next_dir_of_below.
  - apply mo_ret.
Qed.

(** X14. The merge copies the files that only the base has: once
    [copy_and_template] has returned, every plain file of the base tree is
    found below the copy of the base directory, the directory of its name
    in the destination, at its relative path and with its content, when
    neither that directory nor the copy of the overlay directory lies inside
    the other. *)
Theorem merge_copies_base_file (w : World) (base_dir overlay_dir dest_dir od : path)
    (cfg : pydict string string) (env : Environment) (tpl : bool)
    (tb : tree) (sub : path) (n x : string) (st st' : State) :
  source w base_dir = Some tb →
  wf_tree tb = true →
  base_dir ≠ [] → ¬ overlay_dir `prefix_of` base_dir →
  next_dir_of base_dir overlay_dir dest_dir overlay_dir = Some od →
  ¬ joinpath dest_dir (name base_dir) `prefix_of` od →
  ¬ od `prefix_of` joinpath dest_dir (name base_dir) →
  tree_lookup tb (sub ++ [n]) = Some (File x) →
  (tpl = true →
     suffix n ≠ ".j2" ∧ ∀ c, tree_lookup tb (sub ++ [n +:+ ".j2"]) ≠ Some (File c)) →
  copy_and_template w base_dir overlay_dir dest_dir cfg env tpl st = (st', Ok tt) →
  files st' !! (joinpath dest_dir (name base_dir) ++ sub ++ [n]) = Some x.
Proof.
  intros Hbase Hwf Hne Hout Hod Hbd Hdb Hlook Hplain Hrun.
  unfold copy_and_template in Hrun.
  apply bind_inv_ok in Hrun as (st4 & [] & Hrun & Hlog). injection Hlog as <-. cbn [files].
  rewrite for_each_app in Hrun. apply bind_inv_ok in Hrun as (st1 & [] & _ & Hrun).
  rewrite for_each_app in Hrun. apply bind_inv_ok in Hrun as (st2 & [] & Hwalkb & Hrun).
  rewrite for_each_app in Hrun. apply bind_inv_ok in Hrun as (st3 & [] & Hmsg & Hwalko).
  rewrite for_each_fmap in Hwalkb, Hwalko. unfold walk_path in Hwalkb. rewrite Hbase in Hwalkb.
  assert (files st2 !! (joinpath dest_dir (name base_dir) ++ sub ++ [n]) = Some x) as Hcopy.
  { by apply (walk_tree_writes w base_dir overlay_dir dest_dir cfg env tpl base_dir
                (joinpath dest_dir (name base_dir)) tb
                (λ sub', next_dir_of_base_below _ _ _ sub' Hne) sub n x st1 st2). }
  assert (files st3 = files st2) as Hsame.
  { cbn in Hmsg. unfold bind, logger, modify, ret in Hmsg. by injection Hmsg as <-. }
  rewrite <- Hcopy, <- Hsame.
  apply (mo_overlay_walk w base_dir overlay_dir dest_dir od cfg env tpl Hout Hod _ _ _ Hwalko).
  intros (sub' & x' & Heq). unfold joinpath in Heq.
  rewrite (app_assoc (dest_dir ++ [name base_dir])) in Heq.
  apply app_inj_tail in Heq as [Heq _].
  destruct (app_eq_prefix _ _ _ _ Heq); done.
Qed.

Lemma merge_copies_base_file_witness :
  files (copy_and_template sample_world ["r"; "base"] ["r"; "overlays"; "g1"] ["tmp"; "w"]
           sample_cfg1 sample_env true sample_state).1
    !! (joinpath ["tmp"; "w"] (name ["r"; "base"]) ++ ["sub"] ++ ["a.txt"]) = Some "A".
Proof.
  apply (merge_copies_base_file sample_world ["r"; "base"] ["r"; "overlays"; "g1"]
           ["tmp"; "w"] ["tmp"; "w"; "overlays"; "g1"] sample_cfg1 sample_env true
           (Dir [("config.yaml", File "X"); ("sub", Dir [("a.txt", File "A")])])
           ["sub"] "a.txt" "A" sample_state).
  - reflexivity.
  - reflexivity.
  - discriminate.
  - intros [k Hk]. discriminate Hk.
  - reflexivity.
  - intros [k Hk]. discriminate Hk.
  - intros [k Hk]. discriminate Hk.
  - reflexivity.
  - intros _. split; [vm_compute; discriminate|]. intros c. vm_compute. discriminate.
  - vm_compute. reflexivity.
Defined.

(** X15. A source directory that does not exist is no error for the merge:
    the walk of a missing directory lists nothing. With neither source there,
    [copy_and_template] returns and has changed no file and no directory. *)
Theorem merge_of_missing_sources (w : World) (base_dir overlay_dir dest_dir : path)
    (cfg : pydict string string) (env : Environment) (tpl : bool) (st : State) :
  source w base_dir = None → source w overlay_dir = None →
  ∃ st', copy_and_template w base_dir overlay_dir dest_dir cfg env tpl st = (st', Ok tt)
    ∧ files st' = files st ∧ dirs st' = dirs st.
Proof.
  intros Hbase Hover. unfold copy_and_template, walk_path. rewrite Hbase, Hover.
  eexists. split; [reflexivity|done].
Qed.

Lemma merge_of_missing_sources_witness :
  ∃ st',
    copy_and_template sample_world ["r"; "nowhere"] ["r"; "overlays"; "g9"] ["tmp"; "w"]
                      sample_cfg1 sample_env true sample_state = (st', Ok tt)
    ∧ files st' = files sample_state ∧ dirs st' = dirs sample_state.
Proof.
  apply (merge_of_missing_sources sample_world ["r"; "nowhere"] ["r"; "overlays"; "g9"]
           ["tmp"; "w"] sample_cfg1 sample_env true sample_state); reflexivity.
Defined.

(** ** Where the build tool runs *)

(** X16. The build tool runs in the copy of the overlay directory of the
    group exactly when the directory of the overlays and the base directory
    have the same parent: only then is the directory [process_cluster] hands
    to [run_kustomize] the one [copy_and_template] copied the overlay to. *)
Theorem tool_runs_in_overlay_copy (args : Args) (group : string) :
  overlay args ≠ [] →
  next_dir_of (base args) (joinpath (overlay args) group) (temp_path (temp args))
              (joinpath (overlay args) group)
  = Some (hydration_src args group)
  ↔ parent (overlay args) = parent (base args).
Proof.
  intros Hne. unfold hydration_src, next_dir_of, joinpath.
  pose proof (List.app_removelast_last "" Hne) as Hsplit. fold (parent (overlay args)) in Hsplit.
  fold (name (overlay args)) in Hsplit.
  destruct (relative_to (overlay args ++ [group]) (parent (base args))) as [r|] eqn:Hrel.
  - apply relative_to_Some in Hrel. split.
    + intros [= Heq]. rewrite <- app_assoc in Heq. apply app_inv_head in Heq. subst r.
      rewrite (app_assoc _ [name (overlay args)] [group]) in Hrel.
      apply app_inj_tail in Hrel as [Hrel _].
      rewrite Hsplit in Hrel at 2. by apply app_inj_tail in Hrel as [Hrel _].
    + intros Hparent. f_equal. rewrite <- app_assoc. f_equal.
      rewrite <- Hparent in Hrel. rewrite Hsplit in Hrel at 2.
      rewrite <- !app_assoc in Hrel. by apply app_inv_head in Hrel.
  - split.
    + unfold parent. rewrite List.removelast_last, relative_to_app.
      intros [= Heq]. rewrite <- app_assoc in Heq. by apply app_inv_head in Heq.
    + intros Hparent. rewrite <- Hparent in Hrel.
      rewrite Hsplit in Hrel at 1. rewrite <- app_assoc in Hrel.
      by rewrite relative_to_app in Hrel.
Qed.

Lemma tool_runs_in_overlay_copy_witness :
  next_dir_of (base sample_args) (joinpath (overlay sample_args) "g1")
              (temp_path (temp sample_args)) (joinpath (overlay sample_args) "g1")
  = Some (hydration_src sample_args "g1")
  ↔ parent (overlay sample_args) = parent (base sample_args).
Proof. apply (tool_runs_in_overlay_copy sample_args "g1"). discriminate. Defined.

(** ** The temporary directory between two clusters *)

Lemma prefixes_spec (p d : path) : d ∈ prefixes p ↔ d `prefix_of` p.
Proof.
  revert d. induction p as [|x p IH]; intros d; simpl.
  - rewrite list_elem_of_singleton. split; [by intros ->|]. by intros ->%prefix_nil_inv.
  - rewrite elem_of_cons, list_elem_of_fmap. split.
    + intros [->|(d' & -> & Hd')]; [apply prefix_nil|]. by apply prefix_cons, IH.
    + destruct d as [|y d]; [by left|]. intros Hpre. right.
      pose proof (prefix_cons_inv_1 _ _ _ _ Hpre) as ->.
      apply prefix_cons_inv_2 in Hpre. exists d. split; [done|]. by apply IH.
Qed.

(** What the [finally] clause leaves when the temporary directory is
    there. *)
Lemma finally_clause_state (args : Args) (st : State) :
  temp_path (temp args) ∈ dirs st →
  files (finally_clause args st).1
  = filter (λ kv, ¬ temp_path (temp args) `prefix_of` kv.1) (files st)
  ∧ dirs (finally_clause args st).1
    = filter (λ d, ¬ temp_path (temp args) `prefix_of` d) (dirs st)
      ∪ list_to_set (prefixes (temp_path (temp args))).
Proof.
  intros Hthere.
  unfold finally_clause, tempdir_cleanup, tempdir_call, setup_jinja, rmtree, mkdir_parents,
    set_files, set_dirs, set_finalizer, logger, modify, gets, bind, ret.
  destruct (system_temp (temp args)); [|done].
  unfold exists_. cbn [dirs files]. rewrite (bool_decide_eq_true_2 _ Hthere).
  by rewrite orb_true_r.
Qed.

(** X17. Nothing of one cluster is left for the next: after the [finally]
    clause of the loop, run with the temporary directory in place, the
    temporary directory exists and is empty. No file lies below it, and no
    directory but itself. *)
Theorem workspace_fresh_for_next_cluster (args : Args) (st : State) :
  temp_path (temp args) ∈ dirs st →
  temp_path (temp args) ∈ dirs (finally_clause args st).1
  ∧ (∀ d, temp_path (temp args) `prefix_of` d → files (finally_clause args st).1 !! d = None)
  ∧ (∀ d, d ∈ dirs (finally_clause args st).1 → temp_path (temp args) `prefix_of` d →
          d = temp_path (temp args)).
Proof.
  intros Hthere. destruct (finally_clause_state args st Hthere) as [-> ->].
  split; [|split].
  - apply elem_of_union_r, elem_of_list_to_set, prefixes_spec. done.
  - intros d Hd. apply map_lookup_filter_None. right. intros c _ Hnot. by apply Hnot.
  - intros d [Hin|Hin]%elem_of_union Hd.
    + apply elem_of_filter in Hin as [Hnot _]. by destruct Hnot.
    + apply elem_of_list_to_set, prefixes_spec in Hin.
      apply (anti_symm prefix); done.
Qed.

Lemma workspace_fresh_for_next_cluster_witness :
  let st := (process_cluster sample_world sample_args sample_cfg1 sample_env SubdirGroup
               sample_started).1 in
  temp_path (temp sample_args) ∈ dirs (finally_clause sample_args st).1
  ∧ (∀ d, temp_path (temp sample_args) `prefix_of` d →
          files (finally_clause sample_args st).1 !! d = None)
  ∧ (∀ d, d ∈ dirs (finally_clause sample_args st).1 →
          temp_path (temp sample_args) `prefix_of` d → d = temp_path (temp sample_args)).
Proof.
  intros st. apply (workspace_fresh_for_next_cluster sample_args st).
  apply (bool_decide_unpack _). vm_compute. reflexivity.
Defined.

(** ** A single cluster *)

Lemma temp_created (args : Args) (ds : gset path) :
  temp_path (temp args) ∈ ds ∪ list_to_set (prefixes (temp_path (temp args))).
Proof. apply elem_of_union_r, elem_of_list_to_set, prefixes_spec. done. Qed.

(** X18. With [--cluster-name], a name the table does not have and a cluster
    whose overlay is missing both end the run with [sys.exit(1)], although a
    missing overlay only makes the loop over all clusters go on. Nothing has
    been copied then, and the temporary directory, created before the
    cluster was looked up, is still there when [main] is left. *)
Theorem single_cluster_failure_exits (w : World) (args : Args)
    (records : list (list string)) (st st1 : State) (config_data : ConfigDict)
    (n : string) :
  (logger DEBUG "Received args: <pformat>" >> process_sot_file records) st
  = (st1, Ok config_data) →
  cluster_name args = Some n → n ≠ "" →
  match dict_get n config_data with
  | None => True
  | Some cfg =>
      ∃ group, dict_get "cluster_group" cfg = Some group ∧ strip group ≠ ""
               ∧ source w (joinpath (overlay args) group) = None
  end →
  ∃ st', main w args records st = (st', SysExit 1)
    ∧ files st' = files st1
    ∧ temp_path (temp args) ∈ dirs st'.
Proof.
  intros Hparse Hname Hne Hfail. unfold main. rewrite Hparse, Hname.
  assert (truthy_str (Some n) = true) as -> by (by destruct n).
  change (default "" (Some n)) with n.
  assert (∃ st2, (tempdir_call (temp args) >>
                  logger DEBUG ("Using temp dir: " +:+ str_path (temp_path (temp args))) >>
                  setup_jinja (temp_path (temp args))) st1
                 = (st2, Ok {| searchpath := temp_path (temp args); autoescape := true |})
                 ∧ files st2 = files st1
                 ∧ dirs st2 = dirs st1 ∪ list_to_set (prefixes (temp_path (temp args))))
    as (st2 & -> & Hf2 & Hd2).
  { eexists. split; [reflexivity|done]. }
  set (env := {| searchpath := temp_path (temp args); autoescape := true |}).
  assert (∃ st3 e,
            (logger INFO ("Processing cluster " +:+ n) >>
             check_config (dict_get n config_data) >>
             process_cluster w args (default [] (dict_get n config_data)) env
                             (output_subdir args)) st2 = (st3, Raise e)
            ∧ (e = RuntimeError ∨ e = RuntimeWarning)
            ∧ files st3 = files st2 ∧ dirs st3 = dirs st2)
    as (st3 & e & -> & He & Hf3 & Hd3).
  { unfold bind at 1. cbn [logger modify].
    destruct (dict_get n config_data) as [cfg|].
    - destruct Hfail as (group & Hgroup & Hblank & Hsrc).
      unfold bind at 1.
      match goal with
      | |- context [check_config (Some cfg) ?s] =>
          destruct (check_config_run cfg s) as (st3 & Hcheck & Hf & Hd & _)
      end.
      assert (passes_check cfg = true) as Hpass.
      { unfold passes_check. rewrite Hgroup. by rewrite bool_decide_eq_false_2. }
      rewrite Hpass in Hcheck. rewrite Hcheck.
      change (default [] (Some cfg)) with cfg.
      unfold process_cluster. rewrite Hgroup, Hsrc.
      eexists _, RuntimeWarning. split; [reflexivity|]. split; [by right|]. cbn in *.
      by rewrite Hf, Hd.
    - eexists _, RuntimeError. split; [reflexivity|]. split; [by left|done]. }
  destruct He as [-> | ->]; (eexists; split; [reflexivity|]);
    (split; [congruence|]); rewrite Hd3, Hd2; apply temp_created.
Qed.

Lemma single_cluster_failure_exits_witness :
  let args := {| base := ["r"; "base"]; overlay := ["r"; "overlays"];
                 temp := {| temp_path := ["tmp"; "w"]; system_temp := false |};
                 hydrated := ["r"; "output"]; output_subdir := SubdirGroup;
                 cluster_name := Some "c2"; cluster_tag := None; cluster_group := None |} in
  let records := [["cluster_name"; "cluster_group"]; ["c2"; "g2"]] in
  let st1 := ((logger DEBUG "Received args: <pformat>" >> process_sot_file records)
                sample_state).1 in
  ∃ st', main sample_world args records sample_state = (st', SysExit 1)
    ∧ files st' = files st1
    ∧ temp_path (temp args) ∈ dirs st'.
Proof.
  intros args records st1.
  apply (single_cluster_failure_exits sample_world args records sample_state st1
           [("c2", [("cluster_name", "c2"); ("cluster_group", "g2")])] "c2").
  - vm_compute. reflexivity.
  - reflexivity.
  - discriminate.
  - exists "g2". split; [reflexivity|]. split; [vm_compute; discriminate|reflexivity].
Defined.

Lemma script_returned_cleans_witness :
  exists_ (temp_path (temp sample_args))
          (script sample_world sample_args [] sample_records).1 = false.
Proof.
  apply (script_returned_cleans sample_world sample_args [] sample_records).
  vm_compute. reflexivity.
Defined.

(** ** The command line and the place of the manifest *)



(** ** Batches that end normally *)

(** X21. A batch in which no cluster raises anything but [RuntimeWarning]
    ends normally: when, for every record of the table, [process_cluster]
    returns or raises [RuntimeWarning] from whatever state it starts in, the
    loop over the table falls off its end, whichever records the validation
    and the selector let through. *)
Theorem batch_without_fatal_error_returns (w : World) (args : Args) (items : ConfigDict)
    (env : Environment) (st : State) :
  Forall (λ item, ∀ env0 st0,
            (process_cluster w args item.2 env0 (output_subdir args) st0).2 = Ok tt
            ∨ (process_cluster w args item.2 env0 (output_subdir args) st0).2
              = Raise RuntimeWarning) items →
  (main_loop w args items env st).2 = Returned.
Proof.
  intros Hall. revert env st. induction Hall as [|[c cfg] items Hitem _ IH]; intros env st.
  - done.
  - destruct (passes_check cfg && matches_tags args cfg && matches_group args cfg) eqn:Hsel.
    + apply andb_true_iff in Hsel as [[Hpass Htags]%andb_true_iff Hgroup].
      destruct (check_config_run cfg
                  (mkState (files st) (dirs st) (finalizer st) (kustomize st)
                           (log st ++ [mkLog INFO ("Processing cluster " +:+ c)])))
        as (st1 & Hcheck & _).
      rewrite Hpass in Hcheck.
      assert (is_Some (dict_get "cluster_group" cfg)) as Hcg.
      { unfold passes_check in Hpass. by destruct (dict_get "cluster_group" cfg). }
      destruct (select_run args c cfg st1 Hcg) as (st2 & Hselect & _).
      rewrite Htags, Hgroup in Hselect. cbn [andb] in Hselect.
      destruct (process_cluster w args cfg env (output_subdir args) st2) as [st3 r] eqn:Hrun.
      rewrite (main_loop_selected w args c cfg items env st st1 st2 st3 r); try done.
      specialize (Hitem env st2). cbn [snd] in Hitem. rewrite Hrun in Hitem.
      cbn [snd] in Hitem.
      destruct Hitem as [-> | ->]; apply IH.
    + destruct (main_loop_skip w args c cfg items env st Hsel) as (st1 & -> & _). apply IH.
Qed.

Lemma batch_without_fatal_error_returns_witness :
  (main_loop sample_world sample_args
             [("c7", [("cluster_name", "c7"); ("cluster_group", "g7")]);
              ("c8", [("cluster_name", "c8"); ("cluster_group", " ")])]
             sample_env sample_started).2 = Returned.
Proof.
  apply batch_without_fatal_error_returns.
  repeat constructor; intros env0 st0; right; reflexivity.
Defined.

(** X22. An empty table is no error: when the file is empty, or holds a
    header and blank records only, the run over all clusters ends normally,
    has copied nothing (the files outside the temporary directory are as they
    were, and none is left below it), and leaves no temporary directory
    behind. *)
Theorem empty_table_returns (w : World) (args : Args) (records : list (list string))
    (st : State) :
  Forall (λ r, r = []) (List.tl records) →
  truthy_str (cluster_name args) = false →
  (main w args records st).2 = Returned
  ∧ files (main w args records st).1
    = filter (λ kv, ¬ temp_path (temp args) `prefix_of` kv.1) (files st)
  ∧ exists_ (temp_path (temp args)) (main w args records st).1 = false.
Proof.
  intros Hblank Hbatch.
  assert (DictReader records = []) as Hrows.
  { destruct records as [|fieldnames rows]; [done|]. cbn [List.tl] in Hblank.
    unfold DictReader. induction Hblank as [|r rows -> _ IH]; [done|].
    by rewrite filter_cons_False by (by intros []). }
  assert (∃ st2, main w args records st = ((tempdir_cleanup (temp args) st2).1, Returned)
                 ∧ files st2 = files st
                 ∧ temp_path (temp args) ∈ dirs st2) as (st2 & Hmain & Hf2 & Hd2).
  { unfold main, process_sot_file. rewrite Hrows, Hbatch.
    eexists. split; [reflexivity|]. split; [done|]. cbn. apply temp_created. }
  rewrite Hmain. cbn [fst snd]. split; [done|]. split; [|apply tempdir_cleanup_removes].
  unfold tempdir_cleanup, rmtree, set_files, set_dirs, set_finalizer, modify, gets, bind, ret.
  destruct (system_temp (temp args)); [|by rewrite <- Hf2].
  unfold exists_. cbn [dirs files]. rewrite (bool_decide_eq_true_2 _ Hd2).
  rewrite orb_true_r. cbn. by rewrite Hf2.
Qed.

Lemma empty_table_returns_witness :
  (main sample_world sample_args [["cluster_name"; "cluster_group"]; []; []]
        sample_state).2 = Returned
  ∧ files (main sample_world sample_args [["cluster_name"; "cluster_group"]; []; []]
                sample_state).1
    = filter (λ kv, ¬ temp_path (temp sample_args) `prefix_of` kv.1) (files sample_state)
  ∧ exists_ (temp_path (temp sample_args))
            (main sample_world sample_args [["cluster_name"; "cluster_group"]; []; []]
                  sample_state).1 = false.
Proof.
  apply (empty_table_returns sample_world sample_args
           [["cluster_name"; "cluster_group"]; []; []] sample_state).
  - repeat constructor.
  - reflexivity.
Defined.
